(** * Binance integration of the Ida trading system: a shallow embedding

    The development follows the C++ sources of [ida/trading]:
    - [market_data/binance_order_book.{h,cpp}]        module [OrderBook]
    - [market_data/binance_authenticator.{h,cpp}]     module [Authenticator]
    - [market_data/binance_config.{h,cpp}]            module [Config]
    - [market_data/binance_user_data_stream.{h,cpp}]  module [UserDataStream]
    - [order_gw/binance_order_gateway.{h,cpp}]        module [OrderGateway]
    - the read side of the order book                 module [OrderBookViews]
    - [market_data/binance_market_data_consumer.{h,cpp}]
                                                      module [MarketDataConsumer]
    - [market_data/binance_http_client.{h,cpp}]       module [HttpClient]
    - the order path of the gateway                   module [OrderRequests]
    - the listen key, [start] and [stop] of the stream
                                                      module [UserDataStreamControl]
    - [market_data/binance_websocket_client.{h,cpp}]  module [WebSocketClient]

    Fixed-width integers are carried as [Z] with the wrap-around written
    out; a [std::map] or [std::unordered_map] used as a dictionary is a
    [gmap]; a [std::map<std::string, std::string>] that is iterated is an
    association list in key order; code that throws returns a [result];
    [double]s stay behind an interface.  The first part holds the
    definitions, the second ([Properties]) the statements about them. *)

From Stdlib Require Import ZArith Lia Ascii QArith Qround Lqa Qfield.
From stdpp Require Import gmap strings list fin_maps pretty sorting.

Local Open Scope Z_scope.

(** ** Machine integers *)

Module Machine.

Definition uint64_modulus : Z := 2 ^ 64.

(** Unsigned 64-bit wrap-around, as for [uint64_t] arithmetic. *)
Definition wrap64 (z : Z) : Z := z mod uint64_modulus.

Definition uint64_max : Z := uint64_modulus - 1.

End Machine.

(** ** [BinanceOrderBook] (binance_order_book.h / .cpp) *)

Module OrderBook.
Import Machine.

(** [struct PriceLevel { Common::Price price; Common::Qty quantity; }] *)
Record PriceLevel : Type := mkLevel {
  price : Z;
  quantity : Z
}.

(** The data members of [class BinanceOrderBook] that make up its state.
    [bids_] and [asks_] are the two [std::map]s from price to aggregate
    quantity; their comparators only fix the iteration order, which the
    operations below never consult. *)
Record BinanceOrderBook : Type := mkBook {
  symbol_ : string;
  ticker_id_ : Z;
  bids_ : gmap Z Z;
  asks_ : gmap Z Z;
  last_update_id_ : Z;
  is_valid_ : bool;
  needs_refresh_ : bool
}.

(** The constructor: member initialisers of the header. *)
Definition new_book (symbol : string) (ticker_id : Z) : BinanceOrderBook :=
  {| symbol_ := symbol; ticker_id_ := ticker_id;
     bids_ := ∅; asks_ := ∅;
     last_update_id_ := 0; is_valid_ := false; needs_refresh_ := true |}.

(** One iteration of the loops of [applySnapshot]:
    [if (level.quantity > 0) side[level.price] = level.quantity;] *)
Definition snapshot_level (side : gmap Z Z) (level : PriceLevel) : gmap Z Z :=
  if 0 <? quantity level then <[price level := quantity level]> side else side.

Definition snapshot_side (levels : list PriceLevel) : gmap Z Z :=
  foldl snapshot_level ∅ levels.

(** [BinanceOrderBook::applySnapshot]: returns the [bool] result and the
    book after the call. *)
Definition applySnapshot (last_update_id : Z) (bids asks : list PriceLevel)
    (b : BinanceOrderBook) : bool * BinanceOrderBook :=
  (true,
   {| symbol_ := symbol_ b; ticker_id_ := ticker_id_ b;
      bids_ := snapshot_side bids;
      asks_ := snapshot_side asks;
      last_update_id_ := last_update_id;
      is_valid_ := true;
      needs_refresh_ := false |}).

(** One iteration of [processPriceLevelUpdates] (both overloads have the
    same body): a positive quantity writes the level, anything else
    erases it. *)
Definition update_level (side : gmap Z Z) (level : PriceLevel) : gmap Z Z :=
  if 0 <? quantity level then <[price level := quantity level]> side
  else delete (price level) side.

Definition processPriceLevelUpdates (book_side : gmap Z Z)
    (updates : list PriceLevel) : gmap Z Z :=
  foldl update_level book_side updates.

Definition set_needs_refresh (b : BinanceOrderBook) : BinanceOrderBook :=
  {| symbol_ := symbol_ b; ticker_id_ := ticker_id_ b;
     bids_ := bids_ b; asks_ := asks_ b;
     last_update_id_ := last_update_id_ b;
     is_valid_ := is_valid_ b;
     needs_refresh_ := true |}.

(** [BinanceOrderBook::applyDepthUpdate]. [last_update_id_ + 1] is a
    [uint64_t] sum and wraps. *)
Definition applyDepthUpdate (first_update_id final_update_id : Z)
    (bids asks : list PriceLevel) (b : BinanceOrderBook)
    : bool * BinanceOrderBook :=
  if negb (is_valid_ b) then (false, set_needs_refresh b)
  else if final_update_id <? wrap64 (last_update_id_ b + 1) then (false, b)
  else if wrap64 (last_update_id_ b + 1) <? first_update_id
       then (false, set_needs_refresh b)
  else
    (true,
     {| symbol_ := symbol_ b; ticker_id_ := ticker_id_ b;
        bids_ := processPriceLevelUpdates (bids_ b) bids;
        asks_ := processPriceLevelUpdates (asks_ b) asks;
        last_update_id_ := final_update_id;
        is_valid_ := is_valid_ b;
        needs_refresh_ := needs_refresh_ b |}).

Definition needsRefresh (b : BinanceOrderBook) : bool := needs_refresh_ b.
Definition isValid (b : BinanceOrderBook) : bool := is_valid_ b.

(** The last level of [levels] quoted at price [p], if any: the one whose
    effect survives a left-to-right pass. *)
Fixpoint last_level_at (p : Z) (levels : list PriceLevel) : option PriceLevel :=
  match levels with
  | [] => None
  | l :: rest =>
      match last_level_at p rest with
      | Some l' => Some l'
      | None => if decide (price l = p) then Some l else None
      end
  end.

(** What a pass of [processPriceLevelUpdates] leaves at one price: the
    last update quoted there decides, and without one the old entry stays. *)
Definition update_outcome (last : option PriceLevel) (old : option Z) : option Z :=
  match last with
  | None => old
  | Some l => if 0 <? quantity l then Some (quantity l) else None
  end.

Definition positive_level (l : PriceLevel) : bool := 0 <? quantity l.

(** Scenario S1 of the specification: snapshot at id 100, then the diff
    [{U=101, u=101, bids=[(50000,0)], asks=[(50010,3)]}]. *)
Definition s1_book : BinanceOrderBook :=
  (applySnapshot 100 [mkLevel 50000 1] [mkLevel 50010 2] (new_book "BTCUSDT" 1)).2.

End OrderBook.

(** ** Text: the [std::string] operations the sources use *)

Module Text.

(** [s.find(c)]: index of the first occurrence, [None] for [npos]. *)
Fixpoint find_char (c : ascii) (s : string) : option nat :=
  match s with
  | EmptyString => None
  | String a rest =>
      if Ascii.eqb a c then Some 0%nat else S <$> find_char c rest
  end.

(** [c] occurs in [s]. *)
Fixpoint occurs (c : ascii) (s : string) : bool :=
  match s with
  | EmptyString => false
  | String a rest => Ascii.eqb a c || occurs c rest
  end.

(** [s.find(prefix) == 0] *)
Fixpoint starts_with (prefix s : string) : bool :=
  match prefix, s with
  | EmptyString, _ => true
  | String a p, String b rest => Ascii.eqb a b && starts_with p rest
  | String _ _, EmptyString => false
  end.

(** [s.substr(n)] *)
Fixpoint substr_from (n : nat) (s : string) : string :=
  match n, s with
  | O, _ => s
  | S n', String _ rest => substr_from n' rest
  | S _, EmptyString => EmptyString
  end.

(** The components of [s] between occurrences of the separator [c]. *)
Fixpoint split_on (c : ascii) (s : string) : list string :=
  match s with
  | EmptyString => [EmptyString]
  | String a rest =>
      if Ascii.eqb a c then EmptyString :: split_on c rest
      else match split_on c rest with
           | [] => [String a EmptyString]
           | w :: ws => String a w :: ws
           end
  end.

(** Cut [s] at its last occurrence of [c]. *)
Fixpoint split_last (c : ascii) (s : string) : option (string * string) :=
  match s with
  | EmptyString => None
  | String a rest =>
      match split_last c rest with
      | Some (before, after) => Some (String a before, after)
      | None => if Ascii.eqb a c then Some (EmptyString, rest) else None
      end
  end.

(** The text of [s] before its first occurrence of [c] (all of [s] if
    there is none). *)
Fixpoint before_char (c : ascii) (s : string) : string :=
  match s with
  | EmptyString => EmptyString
  | String a rest => if Ascii.eqb a c then EmptyString else String a (before_char c rest)
  end.

Definition is_empty (s : string) : bool :=
  match s with EmptyString => true | _ => false end.

(** [std::to_string] and [operator<<] on an integer: decimal digits with
    a leading minus sign for negative values. *)
Definition decimal (z : Z) : string := pretty z.

End Text.

(** ** A [std::map<std::string, std::string>] in iteration order *)

Module StringMap.

(** The entries in the order a range-for visits them: ascending keys
    under [std::string::operator<] (bytewise lexicographic). *)
Definition t : Type := list (string * string).

(** [m.insert({k, v})]: a key that is present keeps its value. *)
Fixpoint insert (k v : string) (m : t) : t :=
  match m with
  | [] => [(k, v)]
  | (k', v') :: rest =>
      if String.eqb k k' then (k', v') :: rest
      else if String.ltb k k' then (k, v) :: (k', v') :: rest
      else (k', v') :: insert k v rest
  end.

(** Construction from an initialiser list [{ {k1, v1}, {k2, v2}, ... }]. *)
Definition of_list (entries : list (string * string)) : t :=
  foldl (λ m kv, insert kv.1 kv.2 m) [] entries.

Definition get (k : string) (m : t) : option string :=
  snd <$> List.find (λ kv, String.eqb kv.1 k) m.

End StringMap.

(** ** HMAC-SHA256

    The authenticator calls OpenSSL's [HMAC] with [EVP_sha256()].  The
    primitive is written out after FIPS 180-4 and RFC 2104 so that signed
    queries can be evaluated; words are [Z]s reduced modulo [2^32]. *)

Module Sha256.

Definition w32 (x : Z) : Z := x mod 2 ^ 32.
Definition add32 (x y : Z) : Z := w32 (x + y).
Definition rotr (n x : Z) : Z := Z.lor (Z.shiftr x n) (w32 (Z.shiftl x (32 - n))).
Definition shr (n x : Z) : Z := Z.shiftr x n.
Definition Ch (x y z : Z) : Z := Z.lxor (Z.land x y) (Z.land (w32 (Z.lnot x)) z).
Definition Maj (x y z : Z) : Z := Z.lxor (Z.lxor (Z.land x y) (Z.land x z)) (Z.land y z).
Definition Sigma0 (x : Z) : Z := Z.lxor (Z.lxor (rotr 2 x) (rotr 13 x)) (rotr 22 x).
Definition Sigma1 (x : Z) : Z := Z.lxor (Z.lxor (rotr 6 x) (rotr 11 x)) (rotr 25 x).
Definition sigma0 (x : Z) : Z := Z.lxor (Z.lxor (rotr 7 x) (rotr 18 x)) (shr 3 x).
Definition sigma1 (x : Z) : Z := Z.lxor (Z.lxor (rotr 17 x) (rotr 19 x)) (shr 10 x).

(** The largest [r] with [r ^ k <= n], by bisection of [lo, hi). *)
Fixpoint root_search (fuel : nat) (k n lo hi : Z) : Z :=
  match fuel with
  | O => lo
  | S fuel' =>
      if hi - lo <=? 1 then lo
      else
        let mid := (lo + hi) / 2 in
        if mid ^ k <=? n then root_search fuel' k n mid hi
        else root_search fuel' k n lo mid
  end.

Definition integer_root (k n : Z) : Z := root_search 256 k n 0 (n + 1).

(** The first 32 bits of the fractional part of the [k]-th root of [p]. *)
Definition root_fraction (k p : Z) : Z := w32 (integer_root k (p * 2 ^ (32 * k))).

Definition is_prime (n : Z) : bool :=
  forallb (λ d, negb (n mod d =? 0)) (seqZ 2 (n - 2)).

(** The first 64 primes: those below 312. *)
Definition primes : list Z := List.filter is_prime (seqZ 2 310).

(** Round constants: from the cube roots of the first 64 primes. *)
Definition K : list Z := Eval vm_compute in (root_fraction 3 <$> primes).

(** Initial hash value: from the square roots of the first 8 primes. *)
Definition H0 : list Z := Eval vm_compute in (root_fraction 2 <$> take 8 primes).

Definition bytes_of (s : string) : list Z :=
  (λ a, Z.of_N (N_of_ascii a)) <$> String.list_ascii_of_string s.

Definition string_of (bs : list Z) : string :=
  String.string_of_list_ascii ((λ b, ascii_of_N (Z.to_N b)) <$> bs).

(** Big-endian bytes of [x], [n] of them. *)
Fixpoint be_bytes (n : nat) (x : Z) : list Z :=
  match n with
  | O => []
  | S n' => (x / 256 ^ Z.of_nat n') mod 256 :: be_bytes n' x
  end.

Definition pad (msg : list Z) : list Z :=
  let len := Z.of_nat (length msg) in
  msg ++ [0x80] ++ replicate (Z.to_nat ((55 - len) mod 64)) 0 ++ be_bytes 8 (8 * len).

Fixpoint words (fuel : nat) (bs : list Z) : list Z :=
  match fuel, bs with
  | S fuel', b0 :: b1 :: b2 :: b3 :: rest =>
      (((b0 * 256 + b1) * 256 + b2) * 256 + b3) :: words fuel' rest
  | _, _ => []
  end.

Definition nth_word (ws : list Z) (i : nat) : Z := nth i ws 0.

(** The message schedule, extended from 16 to 64 words. *)
Fixpoint schedule (n : nat) (ws : list Z) : list Z :=
  match n with
  | O => ws
  | S n' =>
      let t := length ws in
      let w := add32 (add32 (sigma1 (nth_word ws (t - 2))) (nth_word ws (t - 7)))
                     (add32 (sigma0 (nth_word ws (t - 15))) (nth_word ws (t - 16))) in
      schedule n' (ws ++ [w])
  end.

Definition round (st : list Z) (kw : Z * Z) : list Z :=
  match st with
  | [a; b; c; d; e; f; g; h] =>
      let t1 := add32 (add32 (add32 h (Sigma1 e)) (add32 (Ch e f g) kw.1)) kw.2 in
      let t2 := add32 (Sigma0 a) (Maj a b c) in
      [add32 t1 t2; a; b; c; add32 d t1; e; f; g]
  | _ => st
  end.

Definition compress (h : list Z) (block : list Z) : list Z :=
  let w := schedule 48 (words 16 block) in
  zip_with add32 h (foldl round h (zip K w)).

Fixpoint blocks (fuel : nat) (h : list Z) (bs : list Z) : list Z :=
  match fuel with
  | O => h
  | S fuel' =>
      match bs with
      | [] => h
      | _ => blocks fuel' (compress h (take 64 bs)) (drop 64 bs)
      end
  end.

Definition sha256_bytes (msg : list Z) : list Z :=
  let p := pad msg in
  mjoin (be_bytes 4 <$> blocks (length p) H0 p).

Definition hmac_bytes (key msg : list Z) : list Z :=
  let k := if 64 <? Z.of_nat (length key) then sha256_bytes key else key in
  let k := k ++ replicate (64 - length k) 0 in
  sha256_bytes ((Z.lxor 0x5c <$> k) ++ sha256_bytes ((Z.lxor 0x36 <$> k) ++ msg)).

(** OpenSSL's [HMAC(EVP_sha256(), key, key_len, data, data_len, out,
    &out_len)] as a function from key and data to the digest bytes. *)
Definition hmac_sha256 (key data : string) : string :=
  string_of (hmac_bytes (bytes_of key) (bytes_of data)).

End Sha256.

(** ** [BinanceAuthenticator] (binance_authenticator.h / .cpp) *)

Module Authenticator.
Import Text.

Record BinanceAuthenticator : Type := mkAuth {
  api_key_ : string;
  secret_key_ : string;
  use_testnet_ : bool;
  credentials_loaded_ : bool
}.

Definition hasValidCredentials (a : BinanceAuthenticator) : bool :=
  credentials_loaded_ a && negb (is_empty (api_key_ a)) && negb (is_empty (secret_key_ a)).

Definition getRestBaseUrl (a : BinanceAuthenticator) : string :=
  if use_testnet_ a then "testnet.binance.vision" else "api.binance.com".

Definition getWsBaseUrl (a : BinanceAuthenticator) : string :=
  if use_testnet_ a then "stream.testnet.binance.vision" else "stream.binance.com".

(** Body of the loop over [parameters]:
    [if (!query_string.str().empty()) query_string << "&";
     query_string << param.first << "=" << param.second;] *)
Definition append_param (query_string : string) (param : string * string) : string :=
  (if is_empty query_string then query_string else query_string +:+ "&")
    +:+ param.1 +:+ "=" +:+ param.2.

Definition build_query (parameters : StringMap.t) : string :=
  foldl append_param "" parameters.

(** The [if (with_timestamp)] block; [ms] is the reading of
    [std::chrono::system_clock] in milliseconds. *)
Definition append_timestamp (query_string : string) (ms : Z) : string :=
  (if is_empty query_string then query_string else query_string +:+ "&")
    +:+ "timestamp=" +:+ decimal ms.

(** One digit under [std::hex] (no [std::uppercase]): [0-9], then [a-f]. *)
Definition hex_digit (n : N) : ascii :=
  if (n <? 10)%N then ascii_of_N (N_of_ascii "0" + n)
  else ascii_of_N (N_of_ascii "a" + (n - 10)).

(** [signature << std::setw(2) << static_cast<unsigned int>(hash[i])] with
    [std::hex] and [std::setfill('0')] in force. *)
Definition hex_byte (c : ascii) : string :=
  let n := N_of_ascii c in
  String (hex_digit (n / 16)) (String (hex_digit (n mod 16)) EmptyString).

Fixpoint to_hex (hash : string) : string :=
  match hash with
  | EmptyString => EmptyString
  | String c rest => hex_byte c +:+ to_hex rest
  end.

(** The query string at the point where the signature is computed. *)
Definition canonical_query (parameters : StringMap.t) (with_timestamp : bool)
    (now_ms : Z) : string :=
  let query_string := build_query parameters in
  if with_timestamp then append_timestamp query_string now_ms else query_string.

(** [BinanceAuthenticator::signRequest]; [now_ms] is what the clock shows
    during the call. *)
Definition signRequest (a : BinanceAuthenticator) (parameters : StringMap.t)
    (with_timestamp : bool) (now_ms : Z) : string :=
  if negb (credentials_loaded_ a) then ""
  else
    let query_string := canonical_query parameters with_timestamp now_ms in
    let hash := Sha256.hmac_sha256 (secret_key_ a) query_string in
    query_string +:+ "&signature=" +:+ to_hex hash.

(** The default argument [with_timestamp = true] of the declaration. *)
Definition signRequest_default (a : BinanceAuthenticator) (parameters : StringMap.t)
    (now_ms : Z) : string :=
  signRequest a parameters true now_ms.

(** Reading a signed query back. *)

(** The key of a [key=value] component. *)
Definition param_key (component : string) : string := before_char "=" component.

(** How many [&]-separated components of [query] have key [k]. *)
Definition count_param (k : string) (query : string) : nat :=
  length (filter (λ component, param_key component = k) (split_on "&" query)).

(** A signed query cut at its last [&]: the text before [&signature=] and
    the signature value. *)
Definition split_signed (signed_query : string) : option (string * string) :=
  match split_last "&" signed_query with
  | Some (before, after) =>
      if starts_with "signature=" after then Some (before, substr_from 10 after)
      else None
  | None => None
  end.

Definition hex_value (c : ascii) : option N :=
  let n := N_of_ascii c in
  if (N_of_ascii "0" <=? n)%N && (n <=? N_of_ascii "9")%N
  then Some (n - N_of_ascii "0")%N
  else if (N_of_ascii "a" <=? n)%N && (n <=? N_of_ascii "f")%N
  then Some (n - N_of_ascii "a" + 10)%N
  else None.

(** Decoding of a lowercase hexadecimal string to bytes. *)
Fixpoint hex_decode (s : string) : option string :=
  match s with
  | EmptyString => Some EmptyString
  | String hi (String lo rest) =>
      match hex_value hi, hex_value lo, hex_decode rest with
      | Some h, Some l, Some bytes => Some (String (ascii_of_N (16 * h + l)) bytes)
      | _, _, _ => None
      end
  | String _ EmptyString => None
  end.

(** Keys and values that do not interfere with the [k=v&...] syntax. *)
Definition plain_param (param : string * string) : Prop :=
  occurs "&" param.1 = false ∧ occurs "=" param.1 = false ∧
  occurs "&" param.2 = false.

Definition has_key (k : string) (param : string * string) : Prop := param.1 = k.

(** Credentials and the signing example of Binance's API documentation. *)
Definition doc_auth : BinanceAuthenticator :=
  mkAuth "vmPUZE6mv9SD5VNHk4HlWFsOr6aKE2zvsw0MuIgwCIPy6utIco14y7Ju91duEh8A"
         "NhqPtmdSJYdKjVHjA7PZj4Mge3R5YNiP1e3UZjInClVN65XAbvqqM6A7H5fATj0j"
         true true.

Definition doc_params : StringMap.t :=
  StringMap.of_list
    [("symbol", "LTCBTC"); ("side", "BUY"); ("type", "LIMIT");
     ("timeInForce", "GTC"); ("quantity", "1"); ("price", "0.1");
     ("recvWindow", "5000")].

End Authenticator.

(** ** Exceptions *)

Module Outcome.

(** The exception classes the sources meet: [nlohmann::json::type_error]
    and [parse_error], [std::invalid_argument] and [std::out_of_range]
    from the [std::sto*] family, and [std::runtime_error] from the HTTP
    client.  All derive from [std::exception]. *)
Inductive exception : Type :=
  | type_error | parse_error | invalid_argument | out_of_range | runtime_error.

(** What evaluating an expression leads to: a value, an exception in
    flight, or a failed library assertion (no defined continuation). *)
Inductive result (A : Type) : Type :=
  | Ok (a : A)
  | Throw (e : exception)
  | Abort.
Arguments Ok {A} a.
Arguments Throw {A} e.
Arguments Abort {A}.

Definition bind {A B : Type} (r : result A) (k : A → result B) : result B :=
  match r with
  | Ok a => k a
  | Throw e => Throw e
  | Abort => Abort
  end.

Definition fmap {A B : Type} (f : A → B) (r : result A) : result B :=
  bind r (λ a, Ok (f a)).

(** [try { r } catch (...) { fallback }] around an expression. *)
Definition catch {A : Type} (r : result A) (fallback : exception → result A) : result A :=
  match r with
  | Throw e => fallback e
  | _ => r
  end.

Fixpoint fold_result {A S : Type} (step : S → A → result S) (s : S) (l : list A)
    : result S :=
  match l with
  | [] => Ok s
  | a :: rest => bind (step s a) (λ s', fold_result step s' rest)
  end.

(** [result] is a monad; stdpp's [x ← r; k] notation sequences
    evaluations, stopping at the first that does not return. *)
#[export] Instance result_ret : MRet result := @Ok.
#[export] Instance result_bind : MBind result := λ A B k r, bind r k.
#[export] Instance result_fmap : FMap result := @fmap.

End Outcome.

(** ** IEEE doubles behind an interface *)

Module Float.
Import Outcome.

(** The operations on [double] that the gateway uses.  The sources compute
    in IEEE-754 binary64; the embedding keeps the type abstract and is
    instantiated with exact rationals where a run is evaluated. *)
Class Float64 : Type := {
  double : Type;
  (** [static_cast<double>(n)] and the literals [0.0], [10000.0], ... *)
  of_int : Z → double;
  (** [std::stod]; throws [invalid_argument] or [out_of_range] *)
  stod : string → result double;
  fsub : double → double → double;
  fmul : double → double → double;
  fdiv : double → double → double;
  (** [x < y] *)
  flt : double → double → bool;
  (** [static_cast<int64_t>(x)]: truncation toward zero *)
  to_int : double → Z;
  (** [std::to_string(x)] *)
  to_string : double → string;
  (** [stream << std::fixed << std::setprecision(n) << x] *)
  fixed : nat → double → string
}.

End Float.

(** ** Exact decimal arithmetic as an instance of the interface *)

Module Exact.
Import Outcome Float Text.

Definition digit_value (c : ascii) : option Z := Z.of_nat <$> Ascii.is_nat c.

(** Leading decimal digits of [s]: their value, how many there are, and
    the rest of the string. *)
Fixpoint read_digits (acc : Z) (count : nat) (s : string) : Z * nat * string :=
  match s with
  | String c rest =>
      match digit_value c with
      | Some d => read_digits (10 * acc + d) (S count) rest
      | None => (acc, count, s)
      end
  | EmptyString => (acc, count, s)
  end.

Fixpoint skip_spaces (s : string) : string :=
  match s with
  | String c rest => if Ascii.is_space c then skip_spaces rest else s
  | EmptyString => s
  end.

(** Sign prefix: [(negative, rest)]. *)
Definition read_sign (s : string) : bool * string :=
  match s with
  | String "-" rest => (true, rest)
  | String "+" rest => (false, rest)
  | _ => (false, s)
  end.

(** [std::stod] on plain decimal notation [[ws][sign]digits[.digits]];
    conversion stops at the first character that does not fit, and a
    string without any digit throws [invalid_argument].  Exponents,
    hexadecimal floats, infinities and NaNs are not read. *)
Definition stod_exact (s : string) : result Q :=
  let '(negative, s1) := read_sign (skip_spaces s) in
  let '(int_part, n_int, s2) := read_digits 0 0 s1 in
  let '(frac_part, n_frac) :=
    match s2 with
    | String "." s3 => let '(f, n, _) := read_digits 0 0 s3 in (f, n)
    | _ => (0, O)
    end in
  if (n_int + n_frac =? 0)%nat then Throw invalid_argument
  else
    let magnitude :=
      Qred (inject_Z int_part + inject_Z frac_part / inject_Z (10 ^ Z.of_nat n_frac))%Q in
    Ok (if negative then Qopp magnitude else magnitude).

(** Nearest integer, ties to even. *)
Definition round_half_even (x : Q) : Z :=
  let n := Qnum x in
  let d := Z.pos (Qden x) in
  let q := n / d in
  let r := n mod d in
  match 2 * r ?= d with
  | Lt => q
  | Gt => q + 1
  | Eq => if Z.even q then q else q + 1
  end.

(** [digits] padded with zeros on the left to [width] characters. *)
Definition pad_zeros (width : nat) (digits : string) : string :=
  String.string_of_list_ascii (replicate (width - String.length digits) "0"%char)
    +:+ digits.

(** [%.nf]: [n] digits after the point, none and no point for [n = 0]. *)
Definition fixed_exact (n : nat) (x : Q) : string :=
  let scale := 10 ^ Z.of_nat n in
  let r := round_half_even (x * inject_Z scale)%Q in
  let magnitude := Z.abs r in
  let sign := if negb (Qle_bool 0 x) then "-" else "" in
  let whole := decimal (magnitude / scale) in
  match n with
  | O => sign +:+ whole
  | _ => sign +:+ whole +:+ "." +:+ pad_zeros n (decimal (magnitude mod scale))
  end.

#[export] Instance exact : Float64 := {|
  double := Q;
  of_int := inject_Z;
  stod := stod_exact;
  fsub x y := Qred (x - y)%Q;
  fmul x y := Qred (x * y)%Q;
  fdiv x y := Qred (x / y)%Q;
  flt x y := negb (Qle_bool y x);
  to_int x := Z.quot (Qnum x) (Z.pos (Qden x));
  to_string := fixed_exact 6;
  fixed := fixed_exact
|}.

End Exact.

(** ** [nlohmann::json] values *)

Module Json.
Import Outcome Float.

#[local] Unset Elimination Schemes.
Inductive json : Type :=
  | JNull
  | JBool (b : bool)
  | JInt (z : Z)                (* number_integer / number_unsigned *)
  | JFloat (literal : string)   (* number_float, by its decimal text *)
  | JString (s : string)
  | JArray (items : list json)
  | JObject (members : list (string * json)).
#[local] Set Elimination Schemes.

Definition member (key : string) (members : list (string * json)) : option json :=
  snd <$> List.find (λ kv, String.eqb kv.1 key) members.

(** [j.contains(key)] *)
Definition contains (key : string) (j : json) : bool :=
  match j with
  | JObject members => bool_decide (is_Some (member key members))
  | _ => false
  end.

(** [j[key]] on a [const] value: a missing key fails the library's
    assertion, a value that is not an object throws [type_error]. *)
Definition at_key (key : string) (j : json) : result json :=
  match j with
  | JObject members =>
      match member key members with
      | Some v => Ok v
      | None => Abort
      end
  | _ => Throw type_error
  end.

(** [j[key]] on a value that is not [const]: a missing key is created
    with a null value. *)
Definition at_key_mut (key : string) (j : json) : result json :=
  match j with
  | JObject members => Ok (default JNull (member key members))
  | JNull => Ok JNull
  | _ => Throw type_error
  end.

Definition is_string (j : json) : bool :=
  match j with JString _ => true | _ => false end.

Definition is_number (j : json) : bool :=
  match j with JInt _ | JFloat _ => true | _ => false end.

Definition is_array (j : json) : bool :=
  match j with JArray _ => true | _ => false end.

(** [j.empty()] *)
Definition empty (j : json) : bool :=
  match j with
  | JNull | JArray [] | JObject [] => true
  | _ => false
  end.

(** [j.get<std::string>()]: only a JSON string converts. *)
Definition get_string (j : json) : result string :=
  match j with
  | JString s => Ok s
  | _ => Throw type_error
  end.

(** [j.get<double>()] *)
Definition get_double `{Float64} (j : json) : result double :=
  match j with
  | JInt z => Ok (of_int z)
  | JFloat literal => stod literal
  | JBool b => Ok (of_int (if b then 1 else 0))
  | _ => Throw type_error
  end.

(** [j == "text"] *)
Definition eq_string (j : json) (text : string) : bool :=
  match j with
  | JString s => String.eqb s text
  | _ => false
  end.

(** The elements a range-for over [j] visits. *)
Definition elements (j : json) : list json :=
  match j with
  | JArray items => items
  | JObject members => snd <$> members
  | JNull => []
  | _ => [j]
  end.

End Json.

(** ** Messages exchanged with the trade engine *)

Module Exchange.

(** Modelled from the spec: [Common::Side] of common/types.h, which is
    not among the sources; [INVALID] is the default the gateway passes. *)
Inductive Side : Type := BUY | SELL | INVALID.

(** Modelled from the spec: [ClientRequestType] of
    exchange/order_server/client_request.h. *)
Inductive ClientRequestType : Type := NEW | CANCEL | INVALID_REQUEST.

(** Modelled from the spec: [ClientResponseType] of
    exchange/order_server/client_response.h. *)
Inductive ClientResponseType : Type :=
  | ACCEPTED | FILLED | CANCELED | CANCEL_REJECTED.

(** Modelled from the spec: [MarketUpdateType] of
    exchange/market_data/market_update.h. *)
Inductive MarketUpdateType : Type := CLEAR | ADD | MODIFY | TRADE.

(** Modelled from the spec: ClientRequest
    [{type, client_id, ticker_id, order_id, side, price, qty}]. *)
Record MEClientRequest : Type := mkRequest {
  req_type_ : ClientRequestType;
  req_client_id_ : Z;
  req_ticker_id_ : Z;
  req_order_id_ : Z;
  req_side_ : Side;
  req_price_ : Z;
  req_qty_ : Z
}.

(** Modelled from the spec: ClientResponse [{type, client_id, ticker_id,
    client_order_id, market_order_id, side, price, exec_qty, leaves_qty}]. *)
Record MEClientResponse : Type := mkResponse {
  type_ : ClientResponseType;
  client_id_ : Z;
  ticker_id_ : Z;
  client_order_id_ : Z;
  market_order_id_ : Z;
  side_ : Side;
  price_ : Z;
  exec_qty_ : Z;
  leaves_qty_ : Z
}.

(** Modelled from the spec: MarketUpdate
    [{type, ticker_id, side, price, qty, priority, order_id}]. *)
Record MEMarketUpdate : Type := mkUpdate {
  upd_type_ : MarketUpdateType;
  upd_ticker_id_ : Z;
  upd_side_ : Side;
  upd_price_ : Z;
  upd_qty_ : Z;
  upd_priority_ : Z;
  upd_order_id_ : Z
}.

(** The constants of common/types.h that the gateway reads.  The header
    is not among the sources and the specification only fixes the two
    multipliers, so the sentinels are left open. *)
Class Constants : Type := {
  Price_INVALID : Z;
  TickerId_INVALID : Z;
  PriceMultiplier : Z;
  QtyMultiplier : Z
}.

#[export] Instance EqDecision_Side : EqDecision Side.
Proof. solve_decision. Defined.
#[export] Instance EqDecision_MarketUpdateType : EqDecision MarketUpdateType.
Proof. solve_decision. Defined.
#[export] Instance EqDecision_ClientResponseType : EqDecision ClientResponseType.
Proof. solve_decision. Defined.

End Exchange.

(** ** The single-producer/single-consumer queues *)

Module LFQueue.

(** Modelled from the spec: common/lf_queue.h is not among the sources.
    The specification describes the queues as ring buffers of a capacity
    fixed at construction, with the primitives [next_to_write] /
    [update_write_index] and [next_to_read] / [update_read_index]. *)
Record t (T : Type) : Type := mk {
  store_ : list T;
  next_write_index_ : nat;
  next_read_index_ : nat;
  num_elements_ : nat
}.
Arguments mk {T}.
Arguments store_ {T}.
Arguments next_write_index_ {T}.
Arguments next_read_index_ {T}.
Arguments num_elements_ {T}.

Section Operations.
Context {T : Type}.

Definition size (q : t T) : nat := num_elements_ q.

(** Modelled from the spec: [getNextToRead] returns the slot at the read
    index, or null when the queue holds no element. *)
Definition getNextToRead (q : t T) : option T :=
  if (size q =? 0)%nat then None else store_ q !! next_read_index_ q.

(** Modelled from the spec: [updateReadIndex] advances the read index
    around the ring and gives the slot up. *)
Definition updateReadIndex (q : t T) : t T :=
  {| store_ := store_ q;
     next_write_index_ := next_write_index_ q;
     next_read_index_ := (next_read_index_ q + 1) `mod` length (store_ q);
     num_elements_ := num_elements_ q - 1 |}%nat.

(** Modelled from the spec: [*getNextToWriteTo() = x; updateWriteIndex();]. *)
Definition write (x : T) (q : t T) : t T :=
  {| store_ := <[next_write_index_ q := x]> (store_ q);
     next_write_index_ := (next_write_index_ q + 1) `mod` length (store_ q);
     next_read_index_ := next_read_index_ q;
     num_elements_ := num_elements_ q + 1 |}%nat.

(** The index invariants of a ring buffer in use. *)
Definition wf (q : t T) : Prop :=
  (next_read_index_ q < length (store_ q))%nat ∧
  (next_write_index_ q < length (store_ q))%nat ∧
  (num_elements_ q <= length (store_ q))%nat.

(** The [n] entries a reader meets from the read index on. *)
Fixpoint upcoming (n : nat) (q : t T) : list T :=
  match n with
  | O => []
  | S n' =>
      match store_ q !! next_read_index_ q with
      | Some x => x :: upcoming n' (updateReadIndex q)
      | None => []
      end
  end.

(** The entries written but not yet consumed, oldest first. *)
Definition pending (q : t T) : list T := upcoming (num_elements_ q) q.

End Operations.

(** A queue of capacity [length slots] in its initial state. *)
Definition create {T : Type} (slots : list T) : t T := mk slots 0 0 0.

End LFQueue.

(** ** [BinanceConfig] (binance_config.h / .cpp): the ticker table *)

Module Config.
Import Exchange.

Record BinanceTickerInfo : Type := mkTicker {
  ticker_id : Z;
  symbol : string
}.

Record BinanceConfig : Type := mkConfig {
  use_testnet : bool;
  max_reconnect_attempts : Z;
  tickers_ : list BinanceTickerInfo;
  ticker_id_to_index_ : gmap Z nat;
  symbol_to_index_ : gmap string nat
}.

(** [BinanceConfig::getSymbolForTickerId] *)
Definition getSymbolForTickerId (c : BinanceConfig) (id : Z) : string :=
  match ticker_id_to_index_ c !! id with
  | Some index =>
      match tickers_ c !! index with
      | Some info => symbol info
      | None => "BTCUSDT"
      end
  | None => "BTCUSDT"
  end.

(** [BinanceConfig::getTickerIdForSymbol] *)
Definition getTickerIdForSymbol `{Constants} (c : BinanceConfig) (s : string) : Z :=
  match symbol_to_index_ c !! s with
  | Some index =>
      match tickers_ c !! index with
      | Some info => ticker_id info
      | None => TickerId_INVALID
      end
  | None => TickerId_INVALID
  end.

Definition getWsBaseUrl (c : BinanceConfig) : string :=
  if use_testnet c then "stream.testnet.binance.vision" else "stream.binance.com".

End Config.

(** ** [BinanceOrderGateway] (binance_order_gateway.h / .cpp) *)

Module OrderGateway.
Import Outcome Float Json Exchange Text.

Inductive HttpMethod : Type := GET | POST | PUT | DELETE.

(** A call of [BinanceHttpClient::get/post/put/del]. *)
Record HttpRequest : Type := mkHttp {
  method : HttpMethod;
  host : string;
  target : string;
  headers : StringMap.t
}.

(** What the process meets outside: the exchange behind the HTTP client
    (a response body or an exception), the JSON parser of the library,
    and the clock. *)
Record World : Type := mkWorld {
  http : HttpRequest → result string;
  parse : string → result json;
  now_ms : Z
}.

(** The data members of [class BinanceOrderGateway] the handlers touch;
    [requests_sent_] records the calls made through [http_client_]. *)
Record BinanceOrderGateway : Type := mkGateway {
  client_id_ : Z;
  incoming_responses_ : LFQueue.t MEClientResponse;
  market_data_updates_ : option (LFQueue.t MEMarketUpdate);
  authenticator_ : Authenticator.BinanceAuthenticator;
  config_ : Config.BinanceConfig;
  next_exp_seq_num_ : Z;
  order_id_to_binance_id_ : gmap Z string;
  requests_sent_ : list HttpRequest
}.

Definition with_responses (q : LFQueue.t MEClientResponse) (seq : Z)
    (gw : BinanceOrderGateway) : BinanceOrderGateway :=
  mkGateway (client_id_ gw) q (market_data_updates_ gw) (authenticator_ gw)
    (config_ gw) seq (order_id_to_binance_id_ gw) (requests_sent_ gw).

Definition with_market_data (q : option (LFQueue.t MEMarketUpdate))
    (gw : BinanceOrderGateway) : BinanceOrderGateway :=
  mkGateway (client_id_ gw) (incoming_responses_ gw) q (authenticator_ gw)
    (config_ gw) (next_exp_seq_num_ gw) (order_id_to_binance_id_ gw)
    (requests_sent_ gw).

Definition with_order_ids (m : gmap Z string) (gw : BinanceOrderGateway)
    : BinanceOrderGateway :=
  mkGateway (client_id_ gw) (incoming_responses_ gw) (market_data_updates_ gw)
    (authenticator_ gw) (config_ gw) (next_exp_seq_num_ gw) m (requests_sent_ gw).

Definition sent (r : HttpRequest) (gw : BinanceOrderGateway) : BinanceOrderGateway :=
  mkGateway (client_id_ gw) (incoming_responses_ gw) (market_data_updates_ gw)
    (authenticator_ gw) (config_ gw) (next_exp_seq_num_ gw)
    (order_id_to_binance_id_ gw) (requests_sent_ gw ++ [r]).

(** [BinanceAuthenticator::addAuthHeaders] on an empty header map. *)
Definition auth_headers (a : Authenticator.BinanceAuthenticator) : StringMap.t :=
  if Authenticator.credentials_loaded_ a
  then StringMap.of_list [("X-MBX-APIKEY", Authenticator.api_key_ a)]
  else [].

(** [BinanceOrderGateway::generateAndEnqueueResponse] *)
Definition generateAndEnqueueResponse (order_id : Z) (status : ClientResponseType)
    (ticker_id : Z) (side : Side) (price exec_qty leaves_qty : Z)
    (gw : BinanceOrderGateway) : BinanceOrderGateway :=
  let response :=
    mkResponse status (client_id_ gw) ticker_id order_id order_id side
               price exec_qty leaves_qty in
  with_responses (LFQueue.write response (incoming_responses_ gw))
                 (next_exp_seq_num_ gw + 1) gw.

(** The call with only the two leading arguments: the defaults of the
    declaration fill the rest. *)
Definition generateAndEnqueueResponse_default (order_id : Z)
    (status : ClientResponseType) (gw : BinanceOrderGateway) : BinanceOrderGateway :=
  generateAndEnqueueResponse order_id status 0 INVALID 0 0 0 gw.

Section WithArithmetic.
Context `{F : Float64} `{C : Constants}.

(** [Binance::internalPriceToBinance] (binance_types.h) *)
Definition internalPriceToBinance (internal_price : Z) : double :=
  fdiv (of_int internal_price) (of_int 10000).

(** *** [getLatestMarketPrice] *)

(** The [if]/[else if] chain from symbol to ticker id. *)
Definition ticker_of_symbol (symbol : string) : Z :=
  if String.eqb symbol "BTCUSDT" then 1
  else if String.eqb symbol "ETHUSDT" then 2
  else if String.eqb symbol "BNBUSDT" then 3
  else TickerId_INVALID.

(** The locals of the scan and the queue it reads. *)
Record Scan : Type := mkScan {
  queue : LFQueue.t MEMarketUpdate;
  latest_price : double;
  found_price : bool;
  saved_updates : list MEMarketUpdate
}.

Definition carries_price (ticker_id : Z) (update : MEMarketUpdate) : bool :=
  bool_decide (upd_ticker_id_ update = ticker_id)
  && negb (bool_decide (upd_price_ update = Price_INVALID))
  && (bool_decide (upd_type_ update = ADD) || bool_decide (upd_type_ update = MODIFY)).

(** Body of [while (auto update = market_data_updates_->getNextToRead())]. *)
Definition scan_step (ticker_id : Z) (update : MEMarketUpdate) (sc : Scan) : Scan :=
  let saved := saved_updates sc ++ [update] in
  let '(latest, found) :=
    if carries_price ticker_id update
    then (internalPriceToBinance (upd_price_ update), true)
    else (latest_price sc, found_price sc) in
  mkScan (LFQueue.updateReadIndex (queue sc)) latest found saved.

(** The loop; [fuel] bounds the number of iterations. *)
Fixpoint scan_queue (fuel : nat) (ticker_id : Z) (sc : Scan) : Scan :=
  match fuel with
  | O => sc
  | S fuel' =>
      match LFQueue.getNextToRead (queue sc) with
      | None => sc
      | Some update => scan_queue fuel' ticker_id (scan_step ticker_id update sc)
      end
  end.

(** The scan as [getLatestMarketPrice] runs it: with nothing written
    meanwhile, the loop ends after [size()] iterations. *)
Definition scan_market_data (ticker_id : Z) (q : LFQueue.t MEMarketUpdate) : Scan :=
  scan_queue (LFQueue.size q) ticker_id (mkScan q (of_int 0) false []).

(** The [GET /api/v3/ticker/price] fall-back, with its [try]/[catch]. *)
Definition price_from_api (w : World) (symbol : string) (gw : BinanceOrderGateway)
    : double * BinanceOrderGateway :=
  let request :=
    mkHttp GET (Authenticator.getRestBaseUrl (authenticator_ gw))
           ("/api/v3/ticker/price?symbol=" +:+ symbol) [] in
  let price : result double :=
    response ← http w request;
    json_response ← parse w response;
    if contains "price" json_response
    then (text ← at_key_mut "price" json_response ≫= get_string; stod text)
    else Ok (of_int 0) in
  (match price with Ok p => p | _ => of_int 0 end, sent request gw).

(** [BinanceOrderGateway::getLatestMarketPrice] *)
Definition getLatestMarketPrice (w : World) (symbol : string)
    (gw : BinanceOrderGateway) : double * BinanceOrderGateway :=
  match market_data_updates_ gw with
  | Some q =>
      let ticker_id := ticker_of_symbol symbol in
      if negb (bool_decide (ticker_id = TickerId_INVALID)) then
        let sc := scan_market_data ticker_id q in
        let gw' := with_market_data (Some (queue sc)) gw in
        if found_price sc then (latest_price sc, gw')
        else price_from_api w symbol gw'
      else price_from_api w symbol gw
  | None => price_from_api w symbol gw
  end.

(** *** [handleNewOrderRequest]: formatting and submission *)

(** The locals the filter loop updates. *)
Record Formatting : Type := mkFormatting {
  formatted_price : string;
  formatted_qty : string;
  price_decimal : double
}.

(** [while (decimal_places > 0 && text.back() == '0') { text.pop_back();
    decimal_places--; }] on the reversed text. *)
Fixpoint strip_zeros (decimal_places : nat) (reversed : list ascii) : nat :=
  match decimal_places, reversed with
  | S n, c :: rest => if Ascii.eqb c "0" then strip_zeros n rest else decimal_places
  | _, _ => decimal_places
  end.

(** The number of decimal places a tick or step size asks for; [None]
    when the text has no decimal point. *)
Definition places_of (text : string) : option nat :=
  match find_char "." text with
  | Some decimal_pos =>
      Some (strip_zeros (String.length text - decimal_pos - 1)
              (rev (String.list_ascii_of_string text)))
  | None => None
  end.

(** [tickSize] / [stepSize] as text: a string as it is, a number through
    [std::to_string], anything else leaves the text empty. *)
Definition size_text (value : json) : result string :=
  if is_string value then get_string value
  else if is_number value then to_string <$> get_double value
  else Ok "".

(** [minPrice] / [maxPrice]: [0.0] unless the filter has the key with a
    string (through [std::stod]) or a number. *)
Definition bound_of (key : string) (filter : json) : result double :=
  if contains key filter then
    value ← at_key key filter;
    if is_string value then (text ← get_string value; stod text)
    else if is_number value then get_double value
    else Ok (of_int 0)
  else Ok (of_int 0).

Definition filter_type_is (name : string) (filter : json) : bool :=
  contains "filterType" filter &&
  match at_key "filterType" filter with
  | Ok value => eq_string value name
  | _ => false
  end.

(** The [PRICE_FILTER] branch: the price is formatted first, and then
    [price_decimal] is compared with the bounds. *)
Definition price_filter (filter : json) (f : Formatting) : result Formatting :=
  tick ← at_key "tickSize" filter;
  tick_size_str ← size_text tick;
  let formatted :=
    if is_empty tick_size_str then formatted_price f
    else match places_of tick_size_str with
         | Some decimal_places => fixed decimal_places (price_decimal f)
         | None => formatted_price f
         end in
  min_price ← bound_of "minPrice" filter;
  max_price ← bound_of "maxPrice" filter;
  let price1 :=
    if flt (price_decimal f) min_price then min_price else price_decimal f in
  let price2 :=
    if flt (of_int 0) max_price && flt max_price price1 then max_price else price1 in
  Ok (mkFormatting formatted (formatted_qty f) price2).

(** The [LOT_SIZE] branch. *)
Definition lot_size_filter (qty_decimal : double) (filter : json) (f : Formatting)
    : result Formatting :=
  step ← at_key "stepSize" filter;
  step_size_str ← size_text step;
  let formatted :=
    if is_empty step_size_str then formatted_qty f
    else match places_of step_size_str with
         | Some decimal_places => fixed decimal_places qty_decimal
         | None => formatted_qty f
         end in
  Ok (mkFormatting (formatted_price f) formatted (price_decimal f)).

(** Body of [for (const auto& filter : symbol_info["filters"])]. *)
Definition filter_step (qty_decimal : double) (f : Formatting) (filter : json)
    : result Formatting :=
  f1 ← (if filter_type_is "PRICE_FILTER" filter then price_filter filter f else Ok f);
  if filter_type_is "LOT_SIZE" filter then lot_size_filter qty_decimal filter f1
  else Ok f1.

(** From [std::string formatted_price = std::to_string(price_decimal)] to
    the end of the filter loop. *)
Definition format_order (symbol_info : json) (price qty : double) : result Formatting :=
  let initial := mkFormatting (to_string price) (to_string qty) price in
  if negb (empty symbol_info) && contains "filters" symbol_info then
    filters ← at_key_mut "filters" symbol_info;
    if is_array filters
    then fold_result (filter_step qty) initial (elements filters)
    else Ok initial
  else Ok initial.

(** The parameter map of the order. *)
Definition new_order_params (symbol : string) (request : MEClientRequest)
    (f : Formatting) : StringMap.t :=
  StringMap.of_list
    [("symbol", symbol);
     ("side", if decide (req_side_ request = BUY) then "BUY" else "SELL");
     ("type", "LIMIT");
     ("timeInForce", "GTC");
     ("quantity", formatted_qty f);
     ("price", formatted_price f);
     ("newClientOrderId", "x-" +:+ decimal (req_order_id_ request))].

(** [handleNewOrderRequest] from the formatting on, for a request whose
    price validation has passed: the [POST /api/v3/order] it sends.
    [symbol_info] is what [getSymbolInfo] returned and [qty_decimal] what
    [calculateOrderQuantity] returned. *)
Definition new_order_submission (w : World) (symbol_info : json)
    (qty_decimal : double) (request : MEClientRequest) (gw : BinanceOrderGateway)
    : result (StringMap.t * HttpRequest) :=
  let symbol := Config.getSymbolForTickerId (config_ gw) (req_ticker_id_ request) in
  let price := internalPriceToBinance (req_price_ request) in
  f ← format_order symbol_info price qty_decimal;
  let params := new_order_params symbol request f in
  let signed_query :=
    Authenticator.signRequest_default (authenticator_ gw) params (now_ms w) in
  Ok (params,
      mkHttp POST (Authenticator.getRestBaseUrl (authenticator_ gw))
             ("/api/v3/order?" +:+ signed_query)
             (auth_headers (authenticator_ gw))).

(** *** [handleCancelOrderRequest] *)

(** The parameter map of the cancellation. *)
Definition cancel_params (request : MEClientRequest) (gw : BinanceOrderGateway)
    : StringMap.t :=
  let symbol := "BTCUSDT" in
  let binance_order_id :=
    match order_id_to_binance_id_ gw !! req_order_id_ request with
    | None => decimal (req_order_id_ request)
    | Some id => id
    end in
  StringMap.of_list [("symbol", symbol); ("orderId", binance_order_id)].

Definition cancel_request (w : World) (request : MEClientRequest)
    (gw : BinanceOrderGateway) : HttpRequest :=
  let signed_query :=
    Authenticator.signRequest_default (authenticator_ gw)
      (cancel_params request gw) (now_ms w) in
  mkHttp DELETE (Authenticator.getRestBaseUrl (authenticator_ gw))
         ("/api/v3/order?" +:+ signed_query)
         (auth_headers (authenticator_ gw)).

(** [BinanceOrderGateway::handleCancelOrderRequest] *)
Definition handleCancelOrderRequest (w : World) (request : MEClientRequest)
    (gw : BinanceOrderGateway) : BinanceOrderGateway :=
  let http_request := cancel_request w request gw in
  let gw1 := sent http_request gw in
  match (response ← http w http_request; parse w response) with
  | Ok _ =>
      generateAndEnqueueResponse (req_order_id_ request) CANCELED
        (req_ticker_id_ request) (req_side_ request) 0 0 0 gw1
  | _ =>
      generateAndEnqueueResponse_default (req_order_id_ request) CANCEL_REJECTED gw1
  end.

(** *** [getAccountBalance]: the query it signs *)

(** The caller puts its own [timestamp] into the parameters and calls
    [signRequest(params)]; [now_params] and [now_sign] are the two clock
    readings. *)
Definition account_query (a : Authenticator.BinanceAuthenticator)
    (now_params now_sign : Z) : string :=
  Authenticator.signRequest_default a
    (StringMap.of_list [("timestamp", decimal now_params)]) now_sign.

(** *** Execution reports *)

(** [std::stoull]: leading white space, an optional sign, decimal digits;
    [invalid_argument] without a digit, [out_of_range] above [2^64 - 1];
    a minus sign negates modulo [2^64]. *)
Definition stoull (s : string) : result Z :=
  let '(negative, s1) := Exact.read_sign (Exact.skip_spaces s) in
  let '(value, count, _) := Exact.read_digits 0 0 s1 in
  if (count =? 0)%nat then Throw invalid_argument
  else if Machine.uint64_max <? value then Throw out_of_range
  else Ok (if negative then Machine.wrap64 (- value) else value).

(** The [order_id] computed from field [c]: 0 unless the text starts with
    [x-] and [std::stoull] reads the rest. *)
Definition internal_order_id (client_order_id : string) : Z :=
  if starts_with "x-" client_order_id then
    match stoull (substr_from 2 client_order_id) with
    | Ok n => n
    | _ => 0
    end
  else 0.

Definition side_of (side_str : string) : Side :=
  if String.eqb side_str "BUY" then BUY
  else if String.eqb side_str "SELL" then SELL
  else INVALID.

Definition response_type_of (order_status : string) : ClientResponseType :=
  if String.eqb order_status "NEW" || String.eqb order_status "PARTIALLY_FILLED"
  then ACCEPTED
  else if String.eqb order_status "FILLED" then FILLED
  else if String.eqb order_status "CANCELED" || String.eqb order_status "EXPIRED"
          || String.eqb order_status "REJECTED"
  then CANCELED
  else ACCEPTED.

(** [j[key].get<std::string>()] on a [const] value. *)
Definition string_at (key : string) (j : json) : result string :=
  at_key key j ≫= get_string.

(** [std::stod(j[key].get<std::string>())] *)
Definition double_at (key : string) (j : json) : result double :=
  string_at key j ≫= stod.

(** The body of the [try] block of [processOrderUpdate].  The casts to
    [Price] and [Qty] are the truncation [to_int]; the widths of the two
    types (common/types.h) play no part. *)
Definition order_update_body (order_update : json) (gw : BinanceOrderGateway)
    : result BinanceOrderGateway :=
  client_order_id ← string_at "c" order_update;
  binance_order_id ← string_at "i" order_update;
  symbol ← string_at "s" order_update;
  side_str ← string_at "S" order_update;
  order_status ← string_at "X" order_update;
  price ← double_at "p" order_update;
  orig_qty ← double_at "q" order_update;
  executed_qty ← double_at "z" order_update;
  let leaves_qty := fsub orig_qty executed_qty in
  let ticker_id := Config.getTickerIdForSymbol (config_ gw) symbol in
  let side := side_of side_str in
  let order_id := internal_order_id client_order_id in
  let gw1 :=
    if 0 <? order_id
    then with_order_ids (<[order_id := binance_order_id]> (order_id_to_binance_id_ gw)) gw
    else gw in
  let internal_price := to_int (fmul price (of_int PriceMultiplier)) in
  let internal_exec_qty := to_int (fmul executed_qty (of_int QtyMultiplier)) in
  let internal_leaves_qty := to_int (fmul leaves_qty (of_int QtyMultiplier)) in
  let response_type := response_type_of order_status in
  Ok (if 0 <? order_id
      then generateAndEnqueueResponse order_id response_type ticker_id side
             internal_price internal_exec_qty internal_leaves_qty gw1
      else gw1).

(** A handler body under [try { ... } catch (const std::exception&)]: an
    exception is logged and the state at entry stands.  [None] is a
    failed assertion of the JSON library. *)
Definition guarded (body : result BinanceOrderGateway) (gw : BinanceOrderGateway)
    : option BinanceOrderGateway :=
  match body with
  | Ok gw' => Some gw'
  | Throw _ => Some gw
  | Abort => None
  end.

(** [BinanceOrderGateway::processOrderUpdate] *)
Definition processOrderUpdate (order_update : json) (gw : BinanceOrderGateway)
    : option BinanceOrderGateway :=
  guarded (order_update_body order_update gw) gw.

(** [BinanceOrderGateway::processAccountUpdate]: balances are read and
    logged, nothing is stored. *)
Definition processAccountUpdate (account_update : json) (gw : BinanceOrderGateway)
    : option BinanceOrderGateway :=
  let read_balance (_ : unit) (balance : json) : result unit :=
    _ ← string_at "a" balance;
    _ ← double_at "f" balance;
    _ ← double_at "l" balance;
    Ok () in
  let body : result BinanceOrderGateway :=
    if contains "B" account_update then
      balances ← at_key "B" account_update;
      if is_array balances
      then (_ ← fold_result read_balance () (elements balances); Ok gw)
      else Ok gw
    else Ok gw in
  guarded body gw.

(** [BinanceOrderGateway::handleUserDataMessage], the callback of the
    user-data stream. *)
Definition handleUserDataMessage (w : World) (message : string)
    (gw : BinanceOrderGateway) : option BinanceOrderGateway :=
  match parse w message with
  | Ok json_message =>
      if contains "e" json_message then
        match at_key_mut "e" json_message ≫= get_string with
        | Ok event_type =>
            if String.eqb event_type "executionReport"
            then processOrderUpdate json_message gw
            else if String.eqb event_type "outboundAccountPosition"
            then processAccountUpdate json_message gw
            else Some gw
        | Throw _ => Some gw
        | Abort => None
        end
      else Some gw
  | Throw _ => Some gw
  | Abort => None
  end.

End WithArithmetic.

(** *** Data for the examples *)

(** The sentinels as the largest values of [int64_t] and [uint32_t], and
    the multipliers of the specification. *)
Definition reference_constants : Constants :=
  {| Price_INVALID := 2 ^ 63 - 1;
     TickerId_INVALID := 2 ^ 32 - 1;
     PriceMultiplier := 10000;
     QtyMultiplier := 10000 |}.

(** An exchange that cannot be reached. *)
Definition offline : World :=
  mkWorld (λ _, Throw runtime_error) (λ _, Throw parse_error) 1499827319560.

(** A user-data frame arrives whose text parses to [j]. *)
Definition receiving (j : json) : World :=
  mkWorld (λ _, Throw runtime_error) (λ _, Ok j) 1499827319560.

Definition two_tickers : Config.BinanceConfig :=
  Config.mkConfig true 10
    [Config.mkTicker 1 "BTCUSDT"; Config.mkTicker 2 "ETHUSDT"]
    {[ 1 := 0%nat; 2 := 1%nat ]}
    {[ "BTCUSDT" := 0%nat; "ETHUSDT" := 1%nat ]}.

Definition no_response : MEClientResponse :=
  mkResponse CANCEL_REJECTED 0 0 0 0 INVALID 0 0 0.

Definition no_update : MEMarketUpdate := mkUpdate CLEAR 0 INVALID 0 0 0 0.

(** A market-updates queue of capacity 4 after the consumer wrote one
    book of BTCUSDT: [CLEAR], a bid and an ask. *)
Definition one_book : LFQueue.t MEMarketUpdate :=
  LFQueue.write (mkUpdate ADD 1 SELL 500100000 20000 1 500100000)
    (LFQueue.write (mkUpdate ADD 1 BUY 500000000 10000 1 500000000)
       (LFQueue.write (mkUpdate CLEAR 1 INVALID 0 0 0 0)
          (LFQueue.create (replicate 4 no_update)))).

Definition sample_gateway : BinanceOrderGateway :=
  mkGateway 1 (LFQueue.create (replicate 8 no_response)) (Some one_book)
    Authenticator.doc_auth two_tickers 1 ∅ [].

Definition with_config (c : Config.BinanceConfig) (gw : BinanceOrderGateway)
    : BinanceOrderGateway :=
  mkGateway (client_id_ gw) (incoming_responses_ gw) (market_data_updates_ gw)
    (authenticator_ gw) c (next_exp_seq_num_ gw) (order_id_to_binance_id_ gw)
    (requests_sent_ gw).

Definition with_ticker_id (id : Z) (r : MEClientRequest) : MEClientRequest :=
  mkRequest (req_type_ r) (req_client_id_ r) id (req_order_id_ r) (req_side_ r)
    (req_price_ r) (req_qty_ r).

(** [exchangeInfo] of a symbol with a price range of 10.00 to 1000.00 in
    ticks of 0.01. *)
Definition ranged_symbol_info : json :=
  JObject
    [("symbol", JString "BTCUSDT");
     ("filters", JArray
        [JObject [("filterType", JString "PRICE_FILTER");
                  ("minPrice", JString "10.00");
                  ("maxPrice", JString "1000.00");
                  ("tickSize", JString "0.01")];
         JObject [("filterType", JString "LOT_SIZE");
                  ("minQty", JString "0.00001");
                  ("maxQty", JString "9000.00000");
                  ("stepSize", JString "0.00001")]])].

(** NEW requests for BTCUSDT at 5.0000 and at 2000.0000 (internal prices
    are scaled by 10000). *)
Definition low_priced_order : MEClientRequest := mkRequest NEW 1 1 42 BUY 50000 10.
Definition high_priced_order : MEClientRequest := mkRequest NEW 1 1 43 SELL 20000000 10.

(** The execution report of scenario S4, with the exchange order id [i]
    as the JSON number the exchange sends. *)
Definition s4_report : json :=
  JObject
    [("e", JString "executionReport");
     ("c", JString "x-42");
     ("i", JInt 987654);
     ("s", JString "BTCUSDT");
     ("S", JString "BUY");
     ("X", JString "FILLED");
     ("p", JString "30000.00");
     ("q", JString "0.001");
     ("z", JString "0.001")].

(** The same report with [i] as a JSON string. *)
Definition s4_report_text_id : json :=
  JObject
    [("e", JString "executionReport");
     ("c", JString "x-42");
     ("i", JString "987654");
     ("s", JString "BTCUSDT");
     ("S", JString "BUY");
     ("X", JString "FILLED");
     ("p", JString "30000.00");
     ("q", JString "0.001");
     ("z", JString "0.001")].

End OrderGateway.

(** ** [BinanceUserDataStream] (binance_user_data_stream.h / .cpp) *)

Module UserDataStream.
Import Json Text.

(** A thread started with [.detach()]: the model records it and does not
    run it. *)
Inductive Detached : Type :=
  | ReconnectAfter (backoff_seconds : Z)
  | KeepAliveAfter (seconds : Z).

(** The state of the stream together with the two flags of its
    [BinanceWebSocketClient] that [connect] and [disconnect] read.
    [delivered_] lists the arguments of the calls of [user_data_callback_]
    (the notification object is serialised with [dump()] in the source),
    oldest first. *)
Record BinanceUserDataStream : Type := mkStream {
  listen_key_ : string;
  running_ : bool;
  reconnect_attempts_ : Z;
  max_reconnect_attempts_ : Z;
  ws_running_ : bool;
  ws_connected_ : bool;
  delivered_ : list json;
  detached_ : list Detached
}.

Definition set_running (r : bool) (s : BinanceUserDataStream) : BinanceUserDataStream :=
  mkStream (listen_key_ s) r (reconnect_attempts_ s) (max_reconnect_attempts_ s)
    (ws_running_ s) (ws_connected_ s) (delivered_ s) (detached_ s).

Definition set_attempts (n : Z) (s : BinanceUserDataStream) : BinanceUserDataStream :=
  mkStream (listen_key_ s) (running_ s) n (max_reconnect_attempts_ s)
    (ws_running_ s) (ws_connected_ s) (delivered_ s) (detached_ s).

Definition set_listen_key (k : string) (s : BinanceUserDataStream) : BinanceUserDataStream :=
  mkStream k (running_ s) (reconnect_attempts_ s) (max_reconnect_attempts_ s)
    (ws_running_ s) (ws_connected_ s) (delivered_ s) (detached_ s).

Definition set_ws (ws_running ws_connected : bool) (s : BinanceUserDataStream)
    : BinanceUserDataStream :=
  mkStream (listen_key_ s) (running_ s) (reconnect_attempts_ s)
    (max_reconnect_attempts_ s) ws_running ws_connected (delivered_ s) (detached_ s).

Definition deliver (message : json) (s : BinanceUserDataStream) : BinanceUserDataStream :=
  mkStream (listen_key_ s) (running_ s) (reconnect_attempts_ s)
    (max_reconnect_attempts_ s) (ws_running_ s) (ws_connected_ s)
    (delivered_ s ++ [message]) (detached_ s).

Definition detach (task : Detached) (s : BinanceUserDataStream) : BinanceUserDataStream :=
  mkStream (listen_key_ s) (running_ s) (reconnect_attempts_ s)
    (max_reconnect_attempts_ s) (ws_running_ s) (ws_connected_ s)
    (delivered_ s) (detached_ s ++ [task]).

(** The notification built in [onConnectionStateChange]. *)
Definition failure_notification (s : BinanceUserDataStream) : json :=
  JObject [("event", JString "connection_failure");
           ("error", JString "Max reconnection attempts reached");
           ("reconnect_attempts", JInt (reconnect_attempts_ s));
           ("max_attempts", JInt (max_reconnect_attempts_ s))].

Definition is_connection_failure (message : json) : bool :=
  match at_key_mut "event" message with
  | Outcome.Ok event => eq_string event "connection_failure"
  | _ => false
  end.

(** [std::min(30, static_cast<int>(std::pow(2, reconnect_attempts_ - 1)))] *)
Definition backoff_seconds (attempts : Z) : Z := Z.min 30 (2 ^ (attempts - 1)).

(** [BinanceUserDataStream::onConnectionStateChange], up to the point
    where it hands the reconnection to a detached thread. *)
Definition onConnectionStateChange (connected : bool) (s : BinanceUserDataStream)
    : BinanceUserDataStream :=
  if connected then
    let s1 := set_attempts 0 s in
    if running_ s1 then detach (KeepAliveAfter 5) s1 else s1
  else if running_ s then
    let s1 := set_attempts (reconnect_attempts_ s + 1) s in
    if max_reconnect_attempts_ s1 <? reconnect_attempts_ s1 then
      let s2 := set_running false s1 in
      deliver (failure_notification s2) s2
    else detach (ReconnectAfter (backoff_seconds (reconnect_attempts_ s1))) s1
  else s.

(** [BinanceWebSocketClient::disconnect]: a client that was connected
    reports the transition through its status callback. *)
Definition ws_disconnect (s : BinanceUserDataStream) : BinanceUserDataStream :=
  if ws_running_ s then
    if ws_connected_ s
    then onConnectionStateChange false (set_ws false false s)
    else set_ws false false s
  else s.

(** [BinanceWebSocketClient::connect]: refuses while the client runs,
    otherwise starts the asynchronous connection and returns [true]. *)
Definition ws_connect (s : BinanceUserDataStream) : bool * BinanceUserDataStream :=
  if ws_running_ s then (false, s) else (true, set_ws true false s).

(** What one wake-up of the keep-alive thread meets: the outcome of
    [keepAliveListenKey()] and what [createListenKey()] would return
    (the empty string on failure). *)
Record Round : Type := mkRound {
  keep_alive_ok : bool;
  new_key : string
}.

(** Body of the [while (running_)] loop of [keepAliveThread] after the
    wait; the [bool] tells whether the loop goes on ([continue] or the
    end of the body) or is left ([break]). *)
Definition keepAliveRound (r : Round) (s : BinanceUserDataStream)
    : bool * BinanceUserDataStream :=
  if keep_alive_ok r then (true, set_attempts 0 s)
  else
    let s1 := set_attempts (reconnect_attempts_ s + 1) s in
    if max_reconnect_attempts_ s1 <? reconnect_attempts_ s1
    then (false, set_running false s1)
    else
      let s2 := ws_disconnect s1 in
      if is_empty (new_key r) then (true, s2)
      else
        let s3 := set_listen_key (new_key r) s2 in
        (true, (ws_connect s3).2).

(** [BinanceUserDataStream::keepAliveThread] over the wake-ups in
    [rounds]; when they are used up the thread is waiting again. *)
Fixpoint keepAliveThread (rounds : list Round) (s : BinanceUserDataStream)
    : BinanceUserDataStream :=
  match rounds with
  | [] => s
  | r :: rest =>
      if running_ s then
        let '(continue, s') := keepAliveRound r s in
        if continue then keepAliveThread rest s' else s'
      else s
  end.

(** A wake-up at which the keep-alive [PUT] fails and no new listen key
    can be had. *)
Definition failing_round : Round := mkRound false "".

(** A running stream with the configured bound whose socket is not
    connected. *)
Definition idle_stream (max_attempts : Z) : BinanceUserDataStream :=
  mkStream "listen-key" true 0 max_attempts false false [] [].

End UserDataStream.

(** ** [BinanceOrderBook]: the read side *)

Module OrderBookViews.
Import Machine OrderBook Exchange.

(** Unsigned 32-bit wrap-around, as for the [uint32_t] priority counter. *)
Definition wrap32 (z : Z) : Z := z mod 2 ^ 32.

(** Levels compared by price, the way [std::less<Price>] orders [asks_]. *)
Definition price_le (a b : Z * Z) : Prop := a.1 <= b.1.

(** Levels compared by price, the way [std::greater<Price>] orders [bids_]. *)
Definition price_ge (a b : Z * Z) : Prop := b.1 <= a.1.

#[export] Instance price_le_dec : RelDecision price_le.
Proof. intros a b. unfold price_le. apply _. Defined.

#[export] Instance price_ge_dec : RelDecision price_ge.
Proof. intros a b. unfold price_ge. apply _. Defined.

(** The entries of [asks_] in the order a range-for visits them. *)
Definition ascending (side : gmap Z Z) : list (Z * Z) :=
  merge_sort price_le (map_to_list side).

(** The entries of [bids_] in the order a range-for visits them. *)
Definition descending (side : gmap Z Z) : list (Z * Z) :=
  merge_sort price_ge (map_to_list side).

Section Updates.
Context `{C : Constants}.

(** A default-constructed [MEMarketUpdate]; the member initialisers are
    in exchange/market_data/market_update.h, which is not among the
    sources. *)
Variable blank : MEMarketUpdate.

(** [clear_update]: only [type_] and [ticker_id_] are assigned. *)
Definition clear_update (b : BinanceOrderBook) : MEMarketUpdate :=
  mkUpdate CLEAR (OrderBook.ticker_id_ b) (upd_side_ blank) (upd_price_ blank)
           (upd_qty_ blank) (upd_priority_ blank) (upd_order_id_ blank).

(** The [ADD] built for one level; the order id is the price cast to
    [Common::OrderId]. *)
Definition add_update (b : BinanceOrderBook) (side : Side) (priority : Z)
    (level : Z * Z) : MEMarketUpdate :=
  mkUpdate ADD (OrderBook.ticker_id_ b) side level.1 level.2 priority (wrap64 level.1).

(** The two loops over the sides, with [priority++] on a [uint32_t]. *)
Fixpoint add_updates (b : BinanceOrderBook) (side : Side) (priority : Z)
    (levels : list (Z * Z)) : list MEMarketUpdate :=
  match levels with
  | [] => []
  | level :: rest =>
      add_update b side priority level
        :: add_updates b side (wrap32 (priority + 1)) rest
  end.

(** [BinanceOrderBook::generateMarketUpdates]: the vector after the call. *)
Definition generateMarketUpdates (b : BinanceOrderBook)
    (updates : list MEMarketUpdate) : list MEMarketUpdate :=
  if negb (is_valid_ b) then updates
  else
    updates ++ [clear_update b]
      ++ add_updates b BUY 1 (descending (bids_ b))
      ++ add_updates b SELL 1 (ascending (asks_ b)).

(** [BinanceOrderBook::getBestBidPrice] *)
Definition getBestBidPrice (b : BinanceOrderBook) : Z :=
  if negb (is_valid_ b) then Price_INVALID
  else match descending (bids_ b) with
       | [] => Price_INVALID
       | level :: _ => level.1
       end.

(** [BinanceOrderBook::getBestAskPrice] *)
Definition getBestAskPrice (b : BinanceOrderBook) : Z :=
  if negb (is_valid_ b) then Price_INVALID
  else match ascending (asks_ b) with
       | [] => Price_INVALID
       | level :: _ => level.1
       end.

(** [BinanceOrderBook::getQuantityAtPrice] *)
Definition getQuantityAtPrice (price : Z) (side : Side) (b : BinanceOrderBook) : Z :=
  if negb (is_valid_ b) then 0
  else if decide (side = BUY) then default 0 (bids_ b !! price)
  else default 0 (asks_ b !! price).

End Updates.

(** A call on the book, as the consumer makes them. *)
Inductive Call : Type :=
  | Snapshot (last_update_id : Z) (bids asks : list PriceLevel)
  | Diff (first_update_id final_update_id : Z) (bids asks : list PriceLevel).

Definition call (b : BinanceOrderBook) (c : Call) : BinanceOrderBook :=
  match c with
  | Snapshot id bids asks => (applySnapshot id bids asks b).2
  | Diff first final bids asks => (applyDepthUpdate first final bids asks b).2
  end.

(** The book after a sequence of calls. *)
Definition calls (b : BinanceOrderBook) (cs : list Call) : BinanceOrderBook :=
  foldl call b cs.

(** Every stored quantity is positive. *)
Definition positive_side (side : gmap Z Z) : Prop :=
  ∀ price qty, side !! price = Some qty → 0 < qty.

Definition positive_book (b : BinanceOrderBook) : Prop :=
  positive_side (bids_ b) ∧ positive_side (asks_ b).

End OrderBookViews.

(** ** [BinanceMarketDataConsumer] (binance_market_data_consumer.h / .cpp) *)

Module MarketDataConsumer.
Import Machine Outcome Float Json Exchange OrderBook OrderBookViews.

(** [j[i]] on a [const] value: a value that is not an array throws
    [type_error]; an index past the end has no defined behaviour. *)
Definition at_index (i : nat) (j : json) : result json :=
  match j with
  | JArray items =>
      match items !! i with
      | Some v => Ok v
      | None => Abort
      end
  | _ => Throw type_error
  end.

(** [j.get<uint64_t>()]: numbers and booleans convert by [static_cast];
    a floating-point value whose truncation does not fit has no defined
    result. *)
Definition get_uint64 `{Float64} (j : json) : result Z :=
  match j with
  | JInt z => Ok (wrap64 z)
  | JFloat literal =>
      d ← stod literal;
      if bool_decide (0 <= to_int d <= uint64_max) then Ok (to_int d) else Abort
  | JBool b => Ok (if b then 1 else 0)
  | _ => Throw type_error
  end.

(** [j.get<bool>()]: only a JSON boolean converts. *)
Definition get_bool (j : json) : result bool :=
  match j with
  | JBool b => Ok b
  | _ => Throw type_error
  end.

(** The data members of [class BinanceMarketDataConsumer] that the
    message handlers read and write. *)
Record BinanceMarketDataConsumer : Type := mkConsumer {
  symbols_ : list string;
  symbol_to_ticker_id_ : gmap string Z;
  order_books_ : gmap string BinanceOrderBook;
  incoming_md_updates_ : LFQueue.t MEMarketUpdate
}.

Definition with_book (symbol : string) (book : BinanceOrderBook)
    (c : BinanceMarketDataConsumer) : BinanceMarketDataConsumer :=
  mkConsumer (symbols_ c) (symbol_to_ticker_id_ c)
    (<[symbol := book]> (order_books_ c)) (incoming_md_updates_ c).

(** [for (const auto& update : updates) { *getNextToWriteTo() = update;
    updateWriteIndex(); }] *)
Definition push_updates (updates : list MEMarketUpdate)
    (c : BinanceMarketDataConsumer) : BinanceMarketDataConsumer :=
  mkConsumer (symbols_ c) (symbol_to_ticker_id_ c) (order_books_ c)
    (foldl (λ q update, LFQueue.write update q) (incoming_md_updates_ c) updates).

(** A handler body under [try { ... } catch (const std::exception&)]: an
    exception is logged and the state at entry stands.  [None] marks an
    evaluation without defined behaviour. *)
Definition guarded (body : result BinanceMarketDataConsumer)
    (c : BinanceMarketDataConsumer) : option BinanceMarketDataConsumer :=
  match body with
  | Ok c' => Some c'
  | Throw _ => Some c
  | Abort => None
  end.

Section Handlers.
Context `{F : Float64} `{C : Constants}.

(** A default-constructed [MEMarketUpdate] (see [OrderBookViews]). *)
Variable blank : MEMarketUpdate.

(** [static_cast<Common::TickerId>(...)]; the type is declared in
    common/types.h, which is not among the sources. *)
Variable to_TickerId : Z → Z.

(** [BinanceMarketDataConsumer::stringPriceToInternal]; [std::stod]
    either returns or throws. *)
Definition stringPriceToInternal (price_str : string) : Z :=
  match stod price_str with
  | Ok price_dbl => to_int (fmul price_dbl (of_int 10000))
  | _ => Price_INVALID
  end.

(** [BinanceMarketDataConsumer::stringQtyToInternal] *)
Definition stringQtyToInternal (qty_str : string) : Z :=
  match stod qty_str with
  | Ok qty_dbl => to_int (fmul qty_dbl (of_int 10000))
  | _ => 0
  end.

(** Body of the loop of [parsePriceLevels]. *)
Definition parse_level (levels : list PriceLevel) (level : json)
    : result (list PriceLevel) :=
  price_str ← at_index 0 level ≫= get_string;
  qty_str ← at_index 1 level ≫= get_string;
  let price_level :=
    mkLevel (stringPriceToInternal price_str) (stringQtyToInternal qty_str) in
  Ok (if bool_decide (price price_level ≠ Price_INVALID)
      then levels ++ [price_level] else levels).

(** [BinanceMarketDataConsumer::parsePriceLevels] *)
Definition parsePriceLevels (levels : json) : result (list PriceLevel) :=
  fold_result parse_level [] (elements levels).

(** What both book handlers do with the result of the book operation:
    a successful one is followed by [generateMarketUpdates] into a fresh
    vector, which is pushed to the queue. *)
Definition publish_book (symbol : string) (outcome : bool * BinanceOrderBook)
    (c : BinanceMarketDataConsumer) : BinanceMarketDataConsumer :=
  let c1 := with_book symbol outcome.2 c in
  if outcome.1
  then push_updates (generateMarketUpdates blank outcome.2 []) c1
  else c1.

(** [BinanceMarketDataConsumer::processDepthUpdate] *)
Definition processDepthUpdate (symbol : string) (json_data : json)
    (c : BinanceMarketDataConsumer) : result BinanceMarketDataConsumer :=
  match order_books_ c !! symbol with
  | None => Ok c
  | Some book =>
      first_update_id ← at_key "U" json_data ≫= get_uint64;
      final_update_id ← at_key "u" json_data ≫= get_uint64;
      bids ← at_key "b" json_data ≫= parsePriceLevels;
      asks ← at_key "a" json_data ≫= parsePriceLevels;
      Ok (publish_book symbol
            (applyDepthUpdate first_update_id final_update_id bids asks book) c)
  end.

(** [BinanceMarketDataConsumer::processOrderBookSnapshot] *)
Definition processOrderBookSnapshot (symbol : string) (json_data : json)
    (c : BinanceMarketDataConsumer) : result BinanceMarketDataConsumer :=
  match order_books_ c !! symbol with
  | None => Ok c
  | Some book =>
      last_update_id ← at_key "lastUpdateId" json_data ≫= get_uint64;
      bids ← at_key "bids" json_data ≫= parsePriceLevels;
      asks ← at_key "asks" json_data ≫= parsePriceLevels;
      Ok (publish_book symbol (applySnapshot last_update_id bids asks book) c)
  end.

(** [BinanceMarketDataConsumer::processTradeUpdate] *)
Definition processTradeUpdate (symbol : string) (json_data : json)
    (c : BinanceMarketDataConsumer) : result BinanceMarketDataConsumer :=
  match symbol_to_ticker_id_ c !! symbol with
  | None => Ok c
  | Some ticker_id =>
      is_buyer_maker ← at_key "m" json_data ≫= get_bool;
      let side := if is_buyer_maker : bool then SELL else BUY in
      price_str ← at_key "p" json_data ≫= get_string;
      qty_str ← at_key "q" json_data ≫= get_string;
      let trade_update :=
        mkUpdate TRADE ticker_id side (stringPriceToInternal price_str)
                 (stringQtyToInternal qty_str)
                 (upd_priority_ blank) (upd_order_id_ blank) in
      Ok (push_updates [trade_update] c)
  end.

(** [handleDepthMessage], [handleTradeMessage] and the part of
    [refreshOrderBookSnapshot] after the HTTP call: the text is parsed
    and processed under one [try]. *)
Definition handleDepthMessage (parse : string → result json) (symbol message : string)
    (c : BinanceMarketDataConsumer) : option BinanceMarketDataConsumer :=
  guarded (depth_json ← parse message; processDepthUpdate symbol depth_json c) c.

Definition handleTradeMessage (parse : string → result json) (symbol message : string)
    (c : BinanceMarketDataConsumer) : option BinanceMarketDataConsumer :=
  guarded (trade_json ← parse message; processTradeUpdate symbol trade_json c) c.

Definition handleSnapshotResponse (parse : string → result json)
    (symbol response : string) (c : BinanceMarketDataConsumer)
    : option BinanceMarketDataConsumer :=
  guarded (snapshot_json ← parse response;
           processOrderBookSnapshot symbol snapshot_json c) c.

(** [initializeSymbolToTickerMap]: the loop from index [i] on. *)
Fixpoint initializeSymbolToTickerMap (i : nat) (symbols : list string)
    (symbol_to_ticker_id : gmap string Z) : gmap string Z :=
  match symbols with
  | [] => symbol_to_ticker_id
  | symbol :: rest =>
      initializeSymbolToTickerMap (S i) rest
        (<[symbol := to_TickerId (Z.of_nat i + 1)]> symbol_to_ticker_id)
  end.

(** The loop of the constructor that creates the books.
    [symbol_to_ticker_id_[symbol]] would insert a zero for a missing
    key; after [initializeSymbolToTickerMap] no symbol is missing. *)
Definition create_books (symbol_to_ticker_id : gmap string Z) (symbols : list string)
    : gmap string BinanceOrderBook :=
  foldl (λ books symbol,
           <[symbol := new_book symbol (default 0 (symbol_to_ticker_id !! symbol))]> books)
        ∅ symbols.

(** The constructor. *)
Definition new_consumer (market_updates : LFQueue.t MEMarketUpdate)
    (symbols : list string) : BinanceMarketDataConsumer :=
  let ids := initializeSymbolToTickerMap 0 symbols ∅ in
  mkConsumer symbols ids (create_books ids symbols) market_updates.

(** [BinanceMarketDataConsumer::isOrderBookValid] *)
Definition isOrderBookValid (symbol : string) (c : BinanceMarketDataConsumer) : bool :=
  match order_books_ c !! symbol with
  | None => false
  | Some book => isValid book
  end.

(** [BinanceMarketDataConsumer::getBestBidPrice] *)
Definition getBestBidPrice (symbol : string) (c : BinanceMarketDataConsumer) : Z :=
  match order_books_ c !! symbol with
  | None => Price_INVALID
  | Some book => OrderBookViews.getBestBidPrice book
  end.

(** [BinanceMarketDataConsumer::getBestAskPrice] *)
Definition getBestAskPrice (symbol : string) (c : BinanceMarketDataConsumer) : Z :=
  match order_books_ c !! symbol with
  | None => Price_INVALID
  | Some book => OrderBookViews.getBestAskPrice book
  end.

End Handlers.

(** A price level as the exchange sends it: [[price, quantity, ...]]
    with both as text. *)
Definition level_json (entry : string * string) (extra : list json) : json :=
  JArray (JString entry.1 :: JString entry.2 :: extra).

(** A frame on the depth or the trade stream. *)
Inductive Frame : Type :=
  | DepthFrame (symbol message : string)
  | TradeFrame (symbol message : string).

(** The consumer after the frames of [frames], oldest first; [None] when
    a frame leaves defined behaviour. *)
Fixpoint receive `{F : Float64} `{C : Constants} (blank : MEMarketUpdate)
    (parse : string → result json) (frames : list Frame)
    (c : BinanceMarketDataConsumer) : option BinanceMarketDataConsumer :=
  match frames with
  | [] => Some c
  | DepthFrame symbol message :: rest =>
      handleDepthMessage blank parse symbol message c ≫= receive blank parse rest
  | TradeFrame symbol message :: rest =>
      handleTradeMessage blank parse symbol message c ≫= receive blank parse rest
  end.

(** No book has been initialised by a snapshot. *)
Definition all_books_invalid (c : BinanceMarketDataConsumer) : Prop :=
  ∀ symbol book, order_books_ c !! symbol = Some book → is_valid_ book = false.

(** The trade event of scenario S7, parsed. *)
Definition s7_trade : json :=
  JObject [("e", JString "trade"); ("m", JBool true);
           ("p", JString "50000.00"); ("q", JString "0.1")].

(** The diff of scenario S1 as a depth event, parsed; prices and
    quantities are the decimal texts of the internal values. *)
Definition s1_diff : json :=
  JObject [("e", JString "depthUpdate"); ("U", JInt 101); ("u", JInt 101);
           ("b", JArray [JArray [JString "5.0000"; JString "0.0000"]]);
           ("a", JArray [JArray [JString "5.0010"; JString "0.0003"]])].

(** A consumer of BTCUSDT whose book is the one of scenario S1 after the
    snapshot, writing to an empty queue of capacity 8. *)
Definition s1_consumer : BinanceMarketDataConsumer :=
  mkConsumer ["BTCUSDT"] {[ "BTCUSDT" := 1 ]} {[ "BTCUSDT" := s1_book ]}
    (LFQueue.create (replicate 8 OrderGateway.no_update)).

End MarketDataConsumer.

(** ** [BinanceHttpClient] (binance_http_client.h / .cpp): the request line *)

Module HttpClient.
Import Text.

(** The loop of [buildQueryString], with its [first] flag and the stream
    [ss]. *)
Fixpoint append_params (first : bool) (ss : string) (params : StringMap.t) : string :=
  match params with
  | [] => ss
  | param :: rest =>
      append_params false
        ((if first then ss else ss +:+ "&") +:+ param.1 +:+ "=" +:+ param.2) rest
  end.

(** [BinanceHttpClient::buildQueryString] *)
Definition buildQueryString (params : StringMap.t) : string :=
  match params with
  | [] => ""
  | _ => append_params true "" params
  end.

(** [full_target] as [sendRequest] builds it. *)
Definition full_target (target : string) (query_params : StringMap.t) : string :=
  let query_string := buildQueryString query_params in
  if negb (is_empty query_string) then
    (target +:+ match find_char "?" target with
                | Some _ => "&"
                | None => "?"
                end) +:+ query_string
  else target.

End HttpClient.

(** ** Comparison and rounding of doubles *)

Module FloatOrder.
Import Float.

(** The further operations on [double] that the order path uses. *)
Class Float64Order `{Float64} : Type := {
  (** [x <= y] *)
  fle : double → double → bool;
  (** [-x] *)
  fneg : double → double;
  (** [std::floor] *)
  ffloor : double → double;
  (** [std::ceil] *)
  fceil : double → double
}.

(** A decimal literal such as [0.95], as the quotient of two integers
    that a double holds exactly: a literal and a division both round the
    same real number to the nearest double. *)
Definition literal `{Float64} (numerator denominator : Z) : double :=
  fdiv (of_int numerator) (of_int denominator).

#[export] Instance exact_order : @Float64Order Exact.exact :=
  @Build_Float64Order Exact.exact
    (λ x y : Q, Qle_bool x y)
    (λ x : Q, Qred (- x)%Q)
    (λ x : Q, inject_Z (Qfloor x))
    (λ x : Q, inject_Z (Qceiling x)).

End FloatOrder.

(** ** [BinanceOrderGateway]: the request path *)

Module OrderRequests.
Import Machine Outcome Float FloatOrder Json Exchange Text OrderGateway.

(** [j.get<int64_t>()] *)
Definition get_int64 `{Float64} (j : json) : result Z :=
  match j with
  | JInt z => Ok ((z + 2 ^ 63) mod 2 ^ 64 - 2 ^ 63)
  | JFloat literal => to_int <$> stod literal
  | JBool b => Ok (if b then 1 else 0)
  | _ => Throw type_error
  end.

(** The gateway together with the symbol-information cache and the time
    of its last refresh, in ticks of [std::chrono::system_clock]. *)
Record Gateway : Type := mkState {
  core : BinanceOrderGateway;
  symbol_info_cache_ : gmap string json;
  last_symbol_info_refresh_ : Z
}.

Definition with_core (gw : BinanceOrderGateway) (st : Gateway) : Gateway :=
  mkState gw (symbol_info_cache_ st) (last_symbol_info_refresh_ st).

(** Body of the loop that stores the symbols of [exchangeInfo]; the
    result is the cache reached and whether the loop ran to its end
    (the conversion of [symbol_info["symbol"]] to [std::string] throws
    on anything but a string). *)
Fixpoint fill_cache (symbols : list json) (cache : gmap string json)
    : gmap string json * bool :=
  match symbols with
  | [] => (cache, true)
  | symbol_info :: rest =>
      if contains "symbol" symbol_info then
        match at_key "symbol" symbol_info ≫= get_string with
        | Ok symbol_name => fill_cache rest (<[symbol_name := symbol_info]> cache)
        | _ => (cache, false)
        end
      else fill_cache rest cache
  end.

(** The elements of [j[key]] when [j] has the key with an array, none
    otherwise: [j.contains(key) && j[key].is_array()] followed by a
    range-for over [j[key]]. *)
Definition array_at (key : string) (j : json) : list json :=
  if contains key j then
    match at_key_mut key j with
    | Ok value => if is_array value then elements value else []
    | _ => []
    end
  else [].

Section WithArithmetic.
Context `{F : Float64} `{O : !Float64Order} `{C : Constants}.

(** The number of clock ticks in a minute. *)
Variable minute : Z.

(** [BinanceOrderGateway::getSymbolInfo]; [now] is the reading of the
    clock. *)
Definition getSymbolInfo (w : World) (now : Z) (symbol : string) (st : Gateway)
    : json * Gateway :=
  let elapsed := Z.quot (now - last_symbol_info_refresh_ st) minute in
  let cached (cache : gmap string json) := default (JObject []) (cache !! symbol) in
  if (60 <? elapsed) || bool_decide (symbol_info_cache_ st = ∅) then
    let request :=
      mkHttp GET (Authenticator.getRestBaseUrl (authenticator_ (core st)))
             "/api/v3/exchangeInfo" [] in
    let gw1 := sent request (core st) in
    match (response ← http w request; parse w response) with
    | Ok exchange_info =>
        let '(cache, complete) := fill_cache (array_at "symbols" exchange_info) ∅ in
        if complete : bool
        then (cached cache, mkState gw1 cache now)
        else (JObject [], mkState gw1 cache (last_symbol_info_refresh_ st))
    | _ => (JObject [], with_core gw1 st)
    end
  else (cached (symbol_info_cache_ st), st).

(** The loop over [json_response["balances"]]. *)
Fixpoint find_balance (asset : string) (balances : list json) : result double :=
  match balances with
  | [] => Ok (of_int 0)
  | balance :: rest =>
      is_asset ← (if contains "asset" balance
                  then (name ← at_key "asset" balance ≫= get_string;
                        Ok (String.eqb name asset))
                  else Ok false);
      if is_asset : bool then bound_of "free" balance
      else find_balance asset rest
  end.

(** [BinanceOrderGateway::getAccountBalance]; [now_params] is the clock
    reading that goes into the [timestamp] parameter, [w] the world at
    the call of [signRequest] and of the HTTP client. *)
Definition getAccountBalance (now_params : Z) (w : World) (asset : string)
    (gw : BinanceOrderGateway) : double * BinanceOrderGateway :=
  let signed_query := account_query (authenticator_ gw) now_params (now_ms w) in
  let request :=
    mkHttp GET (Authenticator.getRestBaseUrl (authenticator_ gw))
           ("/api/v3/account?" +:+ signed_query) (auth_headers (authenticator_ gw)) in
  let balance : result double :=
    response ← http w request;
    json_response ← parse w response;
    find_balance asset (array_at "balances" json_response) in
  (match balance with Ok free_balance => free_balance | _ => of_int 0 end,
   sent request gw).

(** [baseAsset] / [quoteAsset]: empty unless the symbol information has
    the key. *)
Definition asset_of (key : string) (symbol_info : json) : result string :=
  if negb (empty symbol_info) && contains key symbol_info
  then at_key_mut key symbol_info ≫= get_string
  else Ok "".

(** The [LOT_SIZE] branch of [calculateOrderQuantity]. *)
Definition apply_lot_size (filter : json) (quantity : double) : result double :=
  min_qty ← bound_of "minQty" filter;
  max_qty ← bound_of "maxQty" filter;
  step_size ← bound_of "stepSize" filter;
  let quantity1 := if flt quantity min_qty then min_qty else quantity in
  let quantity2 :=
    if flt (of_int 0) max_qty && flt max_qty quantity1 then max_qty else quantity1 in
  Ok (if flt (of_int 0) step_size
      then fmul (ffloor (fdiv quantity2 step_size)) step_size
      else quantity2).

(** The [NOTIONAL] branch. *)
Definition apply_notional (price : double) (filter : json) (quantity : double)
    : result double :=
  min_notional ← bound_of "minNotional" filter;
  let notional := fmul quantity price in
  Ok (if flt notional min_notional && flt (of_int 0) min_notional
      then fdiv (fceil (fmul (fdiv min_notional price) (of_int 100))) (of_int 100)
      else quantity).

(** A loop over the filters that acts on the first one of the given type
    and leaves. *)
Definition at_first_filter (name : string) (act : json → double → result double)
    (filters : list json) (quantity : double) : result double :=
  match List.find (filter_type_is name) filters with
  | Some filter => act filter quantity
  | None => Ok quantity
  end.

(** The adjustment for the test environment. *)
Definition testnet_quantity (symbol : string) (quantity : double) : double :=
  if String.eqb symbol "BTCUSDT" then
    let quantity1 :=
      if flt (literal 1 1000) quantity then literal 1 1000 else quantity in
    if flt quantity1 (literal 1 100000) then literal 1 100000 else quantity1
  else if String.eqb symbol "ETHUSDT" then
    let quantity1 :=
      if flt (literal 1 100) quantity then literal 1 100 else quantity in
    if flt quantity1 (literal 1 10000) then literal 1 10000 else quantity1
  else quantity.

(** The filters of [symbol_info] that the two loops of
    [calculateOrderQuantity] visit. *)
Definition filters_of (symbol_info : json) : list json :=
  if negb (empty symbol_info) then array_at "filters" symbol_info else [].

(** [BinanceOrderGateway::calculateOrderQuantity].  [w_info] and
    [now_info] are met by [getSymbolInfo], [now_params] and [w_balance]
    by [getAccountBalance]. *)
Definition calculateOrderQuantity (w_info : World) (now_info now_params : Z)
    (w_balance : World) (symbol : string) (price : double) (side : Side)
    (st : Gateway) : double * Gateway :=
  let '(symbol_info, st1) := getSymbolInfo w_info now_info symbol st in
  match (base_asset ← asset_of "baseAsset" symbol_info;
         quote_asset ← asset_of "quoteAsset" symbol_info;
         Ok (base_asset, quote_asset)) with
  | Ok (base_asset, quote_asset) =>
      if is_empty base_asset || is_empty quote_asset then (of_int 0, st1)
      else
        let '(balance, gw2) :=
          getAccountBalance now_params w_balance
            (if decide (side = BUY) then quote_asset else base_asset) (core st1) in
        let st2 := with_core gw2 st1 in
        let quantity0 :=
          if decide (side = BUY) then
            let usable_balance := fmul balance (literal 95 100) in
            if flt (of_int 0) price then fdiv usable_balance price else of_int 0
          else fmul balance (literal 95 100) in
        let quantity : result double :=
          quantity1 ← at_first_filter "LOT_SIZE" apply_lot_size
                        (filters_of symbol_info) quantity0;
          quantity2 ← at_first_filter "NOTIONAL" (apply_notional price)
                        (filters_of symbol_info) quantity1;
          Ok (if Authenticator.use_testnet_ (authenticator_ (core st2))
              then testnet_quantity symbol quantity2 else quantity2) in
        (match quantity with Ok q => q | _ => of_int 0 end, st2)
  | _ => (of_int 0, st1)
  end.

(** A multiplier of a [PERCENT_PRICE] filter: a number as it is, a
    string through [std::stod], anything else [0.0]. *)
Definition multiplier_of (key : string) (filter : json) : result double :=
  value ← at_key key filter;
  if is_number value then get_double value
  else if is_string value then (text ← get_string value; stod text)
  else Ok (of_int 0).

(** The two locals [percent_price_filter_multiplier_up] and [..._down]. *)
Record Band : Type := mkBand {
  multiplier_up : double;
  multiplier_down : double
}.

(** [if (filter.contains(up_key)) { ... up = m - 1.0; }
     if (filter.contains(down_key)) { ... down = 1.0 - m; }] *)
Definition read_band (up_key down_key : string) (filter : json) (band : Band)
    : result Band :=
  up ← (if contains up_key filter
        then (m ← multiplier_of up_key filter; Ok (fsub m (of_int 1)))
        else Ok (multiplier_up band));
  down ← (if contains down_key filter
          then (m ← multiplier_of down_key filter; Ok (fsub (of_int 1) m))
          else Ok (multiplier_down band));
  Ok (mkBand up down).

(** Body of the loop of [validateOrderPrice] over the filters. *)
Definition band_step (side : Side) (band : Band) (filter : json) : result Band :=
  if contains "filterType" filter then
    filter_type ← at_key "filterType" filter ≫= get_string;
    if String.eqb filter_type "PERCENT_PRICE"
    then read_band "multiplierUp" "multiplierDown" filter band
    else if String.eqb filter_type "PERCENT_PRICE_BY_SIDE" then
      if decide (side = BUY)
      then read_band "bidMultiplierUp" "bidMultiplierDown" filter band
      else read_band "askMultiplierUp" "askMultiplierDown" filter band
    else Ok band
  else Ok band.

(** The final comparison; both branches on [side] are the same
    expression. *)
Definition within_band (order_price market_price : double) (band : Band) : bool :=
  let price_diff_pct := fdiv (fsub order_price market_price) market_price in
  fle price_diff_pct (multiplier_up band)
  && fle (fneg (multiplier_down band)) price_diff_pct.

(** [BinanceOrderGateway::validateOrderPrice]; it has no handler of its
    own, so an exception leaves through it.  [w_price] is met by
    [getLatestMarketPrice], [w_info] and [now_info] by [getSymbolInfo]. *)
Definition validateOrderPrice (w_price w_info : World) (now_info : Z)
    (symbol : string) (price : Z) (side : Side) (st : Gateway)
    : result bool * Gateway :=
  let order_price := internalPriceToBinance price in
  let '(market_price, gw1) := getLatestMarketPrice w_price symbol (core st) in
  let st1 := with_core gw1 st in
  if fle market_price (of_int 0) then (Ok false, st1)
  else
    let '(symbol_info, st2) := getSymbolInfo w_info now_info symbol st1 in
    if empty symbol_info then (Ok false, st2)
    else
      (within_band order_price market_price
         <$> fold_result (band_step side) (mkBand (of_int 5) (of_int 5))
               (array_at "filters" symbol_info),
       st2).

(** The price that a scan of [updates], oldest first, ends with: that of
    the newest update carrying a price for the ticker. *)
Fixpoint newest_price (ticker_id : Z) (updates : list MEMarketUpdate)
    : option double :=
  match updates with
  | [] => None
  | update :: rest =>
      match newest_price ticker_id rest with
      | Some latest => Some latest
      | None =>
          if carries_price ticker_id update
          then Some (internalPriceToBinance (upd_price_ update))
          else None
      end
  end.

(** What the process meets at the points where [handleNewOrderRequest]
    looks outside, in the order of the calls. *)
Record NewOrderRun : Type := mkRun {
  at_quantity_info : World;
  now_quantity_info : Z;
  now_balance_params : Z;
  at_balance : World;
  at_market_price : World;
  at_validation_info : World;
  now_validation_info : Z;
  at_format_info : World;
  now_format_info : Z;
  at_submission : World
}.

(** The rejection of the [catch] block. *)
Definition reject (request : MEClientRequest) (st : Gateway) : Gateway :=
  with_core (generateAndEnqueueResponse_default (req_order_id_ request)
               CANCEL_REJECTED (core st)) st.

(** From the [POST] to the [ACCEPTED] response. *)
Definition submit (w : World) (request : MEClientRequest) (http_request : HttpRequest)
    (st : Gateway) : option Gateway :=
  let st1 := with_core (sent http_request (core st)) st in
  match (response ← http w http_request;
         json_response ← parse w response;
         order_id ← at_key_mut "orderId" json_response ≫= get_int64;
         Ok (decimal order_id)) with
  | Ok binance_order_id =>
      let gw2 :=
        with_order_ids
          (<[req_order_id_ request := binance_order_id]>
             (order_id_to_binance_id_ (core st1))) (core st1) in
      Some (with_core
              (generateAndEnqueueResponse (req_order_id_ request) ACCEPTED
                 (req_ticker_id_ request) (req_side_ request) (req_price_ request)
                 0 (req_qty_ request) gw2) st1)
  | Throw _ => Some (reject request st1)
  | Abort => None
  end.

(** [BinanceOrderGateway::handleNewOrderRequest]; [None] when a failed
    assertion of the JSON library ends the process. *)
Definition handleNewOrderRequest (run : NewOrderRun) (request : MEClientRequest)
    (st : Gateway) : option Gateway :=
  let symbol :=
    Config.getSymbolForTickerId (config_ (core st)) (req_ticker_id_ request) in
  let price_decimal := internalPriceToBinance (req_price_ request) in
  let '(qty_decimal, st1) :=
    calculateOrderQuantity (at_quantity_info run) (now_quantity_info run)
      (now_balance_params run) (at_balance run) symbol price_decimal
      (req_side_ request) st in
  let '(valid, st2) :=
    validateOrderPrice (at_market_price run) (at_validation_info run)
      (now_validation_info run) symbol (req_price_ request) (req_side_ request) st1 in
  match valid with
  | Ok false =>
      Some (with_core
              (generateAndEnqueueResponse (req_order_id_ request) CANCEL_REJECTED
                 (req_ticker_id_ request) (req_side_ request) 0 0 0 (core st2)) st2)
  | Ok true =>
      let '(symbol_info, st3) :=
        getSymbolInfo (at_format_info run) (now_format_info run) symbol st2 in
      match new_order_submission (at_submission run) symbol_info qty_decimal
              request (core st3) with
      | Ok (_, http_request) => submit (at_submission run) request http_request st3
      | Throw _ => Some (reject request st3)
      | Abort => None
      end
  | Throw _ => Some (reject request st2)
  | Abort => None
  end.

(** [BinanceOrderGateway::handleRequest]; [w] is the world that
    [handleCancelOrderRequest] meets. *)
Definition handleRequest (run : NewOrderRun) (w : World) (request : MEClientRequest)
    (st : Gateway) : option Gateway :=
  match req_type_ request with
  | NEW => handleNewOrderRequest run request st
  | CANCEL => Some (with_core (handleCancelOrderRequest w request (core st)) st)
  | INVALID_REQUEST => Some (reject request st)
  end.

End WithArithmetic.

(** What a look at the exchange or at the market data leaves alone: the
    responses, the sequence number, the order-id map and the
    configuration of the gateway. *)
Definition same_orders (gw gw' : BinanceOrderGateway) : Prop :=
  client_id_ gw' = client_id_ gw ∧
  incoming_responses_ gw' = incoming_responses_ gw ∧
  next_exp_seq_num_ gw' = next_exp_seq_num_ gw ∧
  authenticator_ gw' = authenticator_ gw ∧
  config_ gw' = config_ gw ∧
  order_id_to_binance_id_ gw' = order_id_to_binance_id_ gw.

(** Exactly one response was enqueued between [gw] and [gw'], for the
    order of [request] and of one of the types in [types]. *)
Definition answered (request : MEClientRequest) (types : list ClientResponseType)
    (gw gw' : BinanceOrderGateway) : Prop :=
  ∃ response,
    incoming_responses_ gw' = LFQueue.write response (incoming_responses_ gw) ∧
    next_exp_seq_num_ gw' = next_exp_seq_num_ gw + 1 ∧
    Exchange.client_id_ response = OrderGateway.client_id_ gw ∧
    client_order_id_ response = req_order_id_ request ∧
    market_order_id_ response = req_order_id_ request ∧
    type_ response ∈ types.

(** The request with another quantity. *)
Definition with_qty (qty : Z) (r : MEClientRequest) : MEClientRequest :=
  mkRequest (req_type_ r) (req_client_id_ r) (req_ticker_id_ r) (req_order_id_ r)
    (req_side_ r) (req_price_ r) qty.




(** *** Data for the examples *)

(** An exchange that answers every request, with a body that parses to
    [j]. *)
Definition answering (j : json) : World :=
  mkWorld (λ _, Ok "body") (λ _, Ok j) 1499827319560.

(** [exchangeInfo] of BTCUSDT with its assets, a price filter and a lot
    size. *)
Definition btc_symbol_info : json :=
  JObject
    [("symbol", JString "BTCUSDT");
     ("baseAsset", JString "BTC");
     ("quoteAsset", JString "USDT");
     ("filters", JArray
        [JObject [("filterType", JString "PRICE_FILTER");
                  ("minPrice", JString "0.01");
                  ("maxPrice", JString "1000000.00");
                  ("tickSize", JString "0.01")];
         JObject [("filterType", JString "LOT_SIZE");
                  ("minQty", JString "0.00001");
                  ("maxQty", JString "9000.00000");
                  ("stepSize", JString "0.00001")]])].

(** One answer that serves the four calls of a [NEW] request: the
    exchange information, the account, the ticker price and the order. *)
Definition exchange_answer : json :=
  JObject
    [("symbols", JArray [btc_symbol_info]);
     ("balances", JArray
        [JObject [("asset", JString "BTC"); ("free", JString "0.50000000")];
         JObject [("asset", JString "USDT"); ("free", JString "1000.00000000")]]);
     ("price", JString "50000.00");
     ("orderId", JInt 987654)].

(** A run in which every call meets [w] and the clock stands still. *)
Definition steady_run (w : World) : NewOrderRun :=
  mkRun w (now_ms w) (now_ms w) w w w (now_ms w) w (now_ms w) w.

(** The gateway of the examples with an empty cache, and with a cache
    that was filled at the time of the examples. *)
Definition cold_state : Gateway := mkState sample_gateway ∅ 0.

Definition warm_state : Gateway :=
  mkState sample_gateway {[ "BTCUSDT" := btc_symbol_info ]} 1499827319560.

(** The [NEW] request of scenario S4: order 42, a bid at 50000.00. *)
Definition s4_order : MEClientRequest := mkRequest NEW 1 1 42 BUY 500000000 10.

End OrderRequests.

(** ** [BinanceUserDataStream]: the listen key, [start] and [stop] *)

Module UserDataStreamControl.
Import Outcome Json Text OrderGateway UserDataStream.

(** The stream with the collaborators its REST calls use;
    [requests_sent_] records the calls made through [http_client_]. *)
Record Stream : Type := mkControl {
  stream : BinanceUserDataStream;
  authenticator_ : Authenticator.BinanceAuthenticator;
  config_ : Config.BinanceConfig;
  requests_sent_ : list HttpRequest
}.

Definition with_stream (s : BinanceUserDataStream) (c : Stream) : Stream :=
  mkControl s (authenticator_ c) (config_ c) (requests_sent_ c).

Definition sent (r : HttpRequest) (c : Stream) : Stream :=
  mkControl (stream c) (authenticator_ c) (config_ c) (requests_sent_ c ++ [r]).

(** The request of a listen-key call: the API key in the headers, the
    listen key (if any) as the query. *)
Definition listen_key_request (method : HttpMethod) (query_params : StringMap.t)
    (c : Stream) : HttpRequest :=
  mkHttp method (Authenticator.getRestBaseUrl (authenticator_ c))
         (HttpClient.full_target "/api/v3/userDataStream" query_params)
         (auth_headers (authenticator_ c)).

(** [BinanceUserDataStream::createListenKey] *)
Definition createListenKey (w : World) (c : Stream) : string * Stream :=
  let request := listen_key_request POST [] c in
  (match (response ← http w request;
          json_response ← parse w response;
          at_key_mut "listenKey" json_response ≫= get_string) with
   | Ok key => key
   | _ => ""
   end,
   sent request c).

(** The test [closeListenKey] makes on the response: anything but a
    non-empty value with a [code] is success. *)
Definition accepted (w : World) (request : HttpRequest) : bool :=
  match (response ← http w request; parse w response) with
  | Ok json_response => negb (negb (empty json_response) && contains "code" json_response)
  | _ => false
  end.

(** [BinanceUserDataStream::closeListenKey] *)
Definition closeListenKey (w : World) (c : Stream) : bool * Stream :=
  if is_empty (listen_key_ (stream c)) then (true, c)
  else
    let request :=
      listen_key_request DELETE
        (StringMap.of_list [("listenKey", listen_key_ (stream c))]) c in
    if accepted w request
    then (true, with_stream (set_listen_key "" (stream c)) (sent request c))
    else (false, sent request c).

(** [BinanceUserDataStream::start] *)
Definition start (w : World) (c : Stream) : bool * Stream :=
  if running_ (stream c) then (true, c)
  else
    let '(key, c1) := createListenKey w c in
    let c2 := with_stream (set_listen_key key (stream c1)) c1 in
    if is_empty key then (false, c2)
    else
      let '(connecting, s3) := ws_connect (stream c2) in
      if connecting : bool
      then (true, with_stream (set_running true s3) c2)
      else (false, with_stream s3 c2).

(** [BinanceUserDataStream::stop], once the keep-alive thread has been
    joined. *)
Definition stop (w : World) (c : Stream) : Stream :=
  if negb (running_ (stream c)) then c
  else
    let c1 := with_stream (set_running false (stream c)) c in
    let c2 := (closeListenKey w c1).2 in
    with_stream (ws_disconnect (stream c2)) c2.

(** A stream right after its construction, for a stream configuration
    with the given bound. *)
Definition new_stream (authenticator : Authenticator.BinanceAuthenticator)
    (config : Config.BinanceConfig) : Stream :=
  mkControl
    (mkStream "" false 0 (Config.max_reconnect_attempts config) false false [] [])
    authenticator config [].

(** An exchange that hands out the listen key [key] and accepts every
    close. *)
Definition key_service (key : string) : World :=
  mkWorld (λ request, Ok (match method request with POST => "key" | _ => "none" end))
          (λ body, Ok (if String.eqb body "key"
                       then JObject [("listenKey", JString key)]
                       else JObject []))
          1499827319560.

End UserDataStreamControl.

(** ** [BinanceWebSocketClient] (binance_websocket_client.h / .cpp)

    The client starts asynchronous operations on its [io_context] and
    acts in their completion handlers, which one thread runs one at a
    time.  The model keeps the operations in flight and runs a handler
    when the outside world completes one of them.  Exceptions thrown by
    the two callbacks are not modelled. *)

Module WebSocketClient.

(** An operation in flight, named after what was started. *)
Inductive Operation : Type :=
  | Resolve          (* resolver_.async_resolve: onResolve *)
  | Connect          (* async_connect: onConnect *)
  | SslHandshake     (* next_layer().async_handshake: onSslHandshake *)
  | Handshake        (* ws_->async_handshake: onHandshake *)
  | Read             (* ws_->async_read: onRead *)
  | Write            (* ws_->async_write: onWrite *)
  | Close            (* ws_->async_close: onClose *)
  | Timer (delay : Z) (* timer->async_wait: the lambda of scheduleReconnect *)
  | Post.            (* net::post: processWriteQueue *)

#[export] Instance Operation_eq_dec : EqDecision Operation.
Proof. solve_decision. Defined.

(** The data members of the client.  [ws_] tells whether the pointer
    holds a stream, the two callback members whether the
    [std::function] holds a target, [io_thread_] whether the thread
    that runs the handlers has been started and not joined.
    [status_calls_] and [messages_] list the arguments of the calls of
    the two callbacks, oldest first. *)
Record BinanceWebSocketClient : Type := mkClient {
  ws_ : bool;
  message_callback_ : bool;
  status_callback_ : bool;
  running_ : bool;
  connected_ : bool;
  reconnecting_ : bool;
  reconnect_attempts_ : Z;
  max_reconnect_attempts_ : Z;
  reconnect_delay_ : Z;
  io_thread_ : bool;
  send_queue_ : list string;
  pending_ : list Operation;
  status_calls_ : list bool;
  messages_ : list string
}.

(** The constructor: member initialisers of the header. *)
Definition new_client : BinanceWebSocketClient :=
  mkClient false false false false false false 0 10 1000 false [] [] [] [].

(** [setMaxReconnectAttempts] *)
Definition setMaxReconnectAttempts (attempts : Z) (c : BinanceWebSocketClient)
    : BinanceWebSocketClient :=
  mkClient (ws_ c) (message_callback_ c) (status_callback_ c) (running_ c)
    (connected_ c) (reconnecting_ c) (reconnect_attempts_ c) attempts
    (reconnect_delay_ c) (io_thread_ c) (send_queue_ c) (pending_ c)
    (status_calls_ c) (messages_ c).

Definition set_ws (ws : bool) (c : BinanceWebSocketClient) : BinanceWebSocketClient :=
  mkClient ws (message_callback_ c) (status_callback_ c) (running_ c)
    (connected_ c) (reconnecting_ c) (reconnect_attempts_ c)
    (max_reconnect_attempts_ c) (reconnect_delay_ c) (io_thread_ c)
    (send_queue_ c) (pending_ c) (status_calls_ c) (messages_ c).

Definition set_running (running : bool) (c : BinanceWebSocketClient)
    : BinanceWebSocketClient :=
  mkClient (ws_ c) (message_callback_ c) (status_callback_ c) running
    (connected_ c) (reconnecting_ c) (reconnect_attempts_ c)
    (max_reconnect_attempts_ c) (reconnect_delay_ c) (io_thread_ c)
    (send_queue_ c) (pending_ c) (status_calls_ c) (messages_ c).

Definition set_connected (connected : bool) (c : BinanceWebSocketClient)
    : BinanceWebSocketClient :=
  mkClient (ws_ c) (message_callback_ c) (status_callback_ c) (running_ c)
    connected (reconnecting_ c) (reconnect_attempts_ c)
    (max_reconnect_attempts_ c) (reconnect_delay_ c) (io_thread_ c)
    (send_queue_ c) (pending_ c) (status_calls_ c) (messages_ c).

Definition set_reconnecting (reconnecting : bool) (c : BinanceWebSocketClient)
    : BinanceWebSocketClient :=
  mkClient (ws_ c) (message_callback_ c) (status_callback_ c) (running_ c)
    (connected_ c) reconnecting (reconnect_attempts_ c)
    (max_reconnect_attempts_ c) (reconnect_delay_ c) (io_thread_ c)
    (send_queue_ c) (pending_ c) (status_calls_ c) (messages_ c).

Definition set_attempts (attempts : Z) (c : BinanceWebSocketClient)
    : BinanceWebSocketClient :=
  mkClient (ws_ c) (message_callback_ c) (status_callback_ c) (running_ c)
    (connected_ c) (reconnecting_ c) attempts
    (max_reconnect_attempts_ c) (reconnect_delay_ c) (io_thread_ c)
    (send_queue_ c) (pending_ c) (status_calls_ c) (messages_ c).

Definition set_delay (delay : Z) (c : BinanceWebSocketClient)
    : BinanceWebSocketClient :=
  mkClient (ws_ c) (message_callback_ c) (status_callback_ c) (running_ c)
    (connected_ c) (reconnecting_ c) (reconnect_attempts_ c)
    (max_reconnect_attempts_ c) delay (io_thread_ c)
    (send_queue_ c) (pending_ c) (status_calls_ c) (messages_ c).

Definition set_send_queue (queue : list string) (c : BinanceWebSocketClient)
    : BinanceWebSocketClient :=
  mkClient (ws_ c) (message_callback_ c) (status_callback_ c) (running_ c)
    (connected_ c) (reconnecting_ c) (reconnect_attempts_ c)
    (max_reconnect_attempts_ c) (reconnect_delay_ c) (io_thread_ c)
    queue (pending_ c) (status_calls_ c) (messages_ c).

Definition set_pending (pending : list Operation) (c : BinanceWebSocketClient)
    : BinanceWebSocketClient :=
  mkClient (ws_ c) (message_callback_ c) (status_callback_ c) (running_ c)
    (connected_ c) (reconnecting_ c) (reconnect_attempts_ c)
    (max_reconnect_attempts_ c) (reconnect_delay_ c) (io_thread_ c)
    (send_queue_ c) pending (status_calls_ c) (messages_ c).

(** An asynchronous operation is started. *)
Definition begin (op : Operation) (c : BinanceWebSocketClient)
    : BinanceWebSocketClient :=
  set_pending (pending_ c ++ [op]) c.

(** [if (status_callback_) status_callback_(connected);] *)
Definition notify (connected : bool) (c : BinanceWebSocketClient)
    : BinanceWebSocketClient :=
  if status_callback_ c then
    mkClient (ws_ c) (message_callback_ c) (status_callback_ c) (running_ c)
      (connected_ c) (reconnecting_ c) (reconnect_attempts_ c)
      (max_reconnect_attempts_ c) (reconnect_delay_ c) (io_thread_ c)
      (send_queue_ c) (pending_ c) (status_calls_ c ++ [connected]) (messages_ c)
  else c.

(** [if (message_callback_) message_callback_(message);] *)
Definition deliver (message : string) (c : BinanceWebSocketClient)
    : BinanceWebSocketClient :=
  if message_callback_ c then
    mkClient (ws_ c) (message_callback_ c) (status_callback_ c) (running_ c)
      (connected_ c) (reconnecting_ c) (reconnect_attempts_ c)
      (max_reconnect_attempts_ c) (reconnect_delay_ c) (io_thread_ c)
      (send_queue_ c) (pending_ c) (status_calls_ c) (messages_ c ++ [message])
  else c.

(** [BinanceWebSocketClient::connect].  Assigning to [io_thread_] while
    it holds a thread that was not joined ends the process ([None]). *)
Definition connect (message_callback status_callback : bool)
    (c : BinanceWebSocketClient) : option (bool * BinanceWebSocketClient) :=
  if running_ c then Some (false, c)
  else if io_thread_ c then None
  else
    Some (true,
          mkClient (ws_ c) message_callback status_callback true false false
            0 (max_reconnect_attempts_ c) 1000 true (send_queue_ c)
            (pending_ c ++ [Resolve]) (status_calls_ c) (messages_ c)).

(** [BinanceWebSocketClient::disconnect]: the thread is joined, so no
    handler runs afterwards. *)
Definition disconnect (c : BinanceWebSocketClient) : BinanceWebSocketClient :=
  if running_ c then
    let c1 :=
      mkClient (ws_ c) (message_callback_ c) (status_callback_ c) false
        (connected_ c) (reconnecting_ c) (reconnect_attempts_ c)
        (max_reconnect_attempts_ c) (reconnect_delay_ c) false
        (send_queue_ c) (pending_ c) (status_calls_ c) (messages_ c) in
    let c2 := if connected_ c1 then notify false (set_connected false c1) else c1 in
    set_send_queue [] c2
  else c.

(** [BinanceWebSocketClient::send] *)
Definition send (message : string) (c : BinanceWebSocketClient)
    : bool * BinanceWebSocketClient :=
  if negb (connected_ c) then (false, c)
  else
    let c1 := set_send_queue (send_queue_ c ++ [message]) c in
    (true, if (length (send_queue_ c1) =? 1)%nat then begin Post c1 else c1).

(** [BinanceWebSocketClient::doClose] *)
Definition doClose (c : BinanceWebSocketClient) : BinanceWebSocketClient :=
  if negb (ws_ c) then c
  else if connected_ c then begin Close (notify false (set_connected false c))
  else c.

(** [BinanceWebSocketClient::scheduleReconnect] *)
Definition scheduleReconnect (c : BinanceWebSocketClient) : BinanceWebSocketClient :=
  if negb (running_ c) || reconnecting_ c then c
  else
    let c1 := set_reconnecting true c in
    if (0 <? max_reconnect_attempts_ c1)
       && (max_reconnect_attempts_ c1 <=? reconnect_attempts_ c1)
    then set_running false c1
    else
      let c2 := if ws_ c1 then doClose c1 else c1 in
      let c3 := set_attempts (reconnect_attempts_ c2 + 1) c2 in
      begin (Timer (Z.min (reconnect_delay_ c3) 30000)) c3.

(** [if (running_) { scheduleReconnect(); }], the end of every failure
    branch. *)
Definition retry (c : BinanceWebSocketClient) : BinanceWebSocketClient :=
  if running_ c then scheduleReconnect c else c.

(** [BinanceWebSocketClient::reconnect] *)
Definition reconnect (c : BinanceWebSocketClient) : BinanceWebSocketClient :=
  if negb (running_ c) then set_reconnecting false c
  else begin Resolve c.

(** The handlers that use [ws_] dereference it; without a stream that
    has no defined behaviour ([None]). *)

(** [BinanceWebSocketClient::doRead] *)
Definition doRead (c : BinanceWebSocketClient) : option BinanceWebSocketClient :=
  if negb (connected_ c) || negb (running_ c) then Some c
  else if ws_ c then Some (begin Read c) else None.

(** [BinanceWebSocketClient::onResolve]; [sni] tells whether
    [SSL_set_tlsext_host_name] succeeded. *)
Definition onResolve (ok sni : bool) (c : BinanceWebSocketClient)
    : BinanceWebSocketClient :=
  if negb ok then retry c
  else
    let c1 := set_ws true c in
    if negb sni then retry c1 else begin Connect c1.

(** [BinanceWebSocketClient::onConnect] *)
Definition onConnect (ok : bool) (c : BinanceWebSocketClient)
    : option BinanceWebSocketClient :=
  if negb ok then Some (retry c)
  else if ws_ c then Some (begin SslHandshake c) else None.

(** [BinanceWebSocketClient::onSslHandshake] *)
Definition onSslHandshake (ok : bool) (c : BinanceWebSocketClient)
    : option BinanceWebSocketClient :=
  if negb ok then Some (retry c)
  else if ws_ c then Some (begin Handshake c) else None.

(** [BinanceWebSocketClient::onHandshake] *)
Definition onHandshake (ok : bool) (c : BinanceWebSocketClient)
    : option BinanceWebSocketClient :=
  if negb ok then Some (retry c)
  else
    doRead
      (notify true
         (set_reconnecting false
            (set_delay 1000 (set_attempts 0 (set_connected true c))))).

(** [BinanceWebSocketClient::onRead] *)
Definition onRead (ok : bool) (message : string) (c : BinanceWebSocketClient)
    : option BinanceWebSocketClient :=
  if negb ok then Some (retry (notify false (set_connected false c)))
  else doRead (deliver message c).

(** [doWrite(send_queue_.front())] *)
Definition doWrite (c : BinanceWebSocketClient) : option BinanceWebSocketClient :=
  if ws_ c then Some (begin Write c) else None.

(** [BinanceWebSocketClient::processWriteQueue] *)
Definition processWriteQueue (c : BinanceWebSocketClient)
    : option BinanceWebSocketClient :=
  match send_queue_ c with
  | [] => Some c
  | _ :: _ => if negb (connected_ c) || negb (running_ c) then Some c else doWrite c
  end.

(** [BinanceWebSocketClient::onWrite]; [pop()] on an empty queue has no
    defined behaviour. *)
Definition onWrite (ok : bool) (c : BinanceWebSocketClient)
    : option BinanceWebSocketClient :=
  if negb ok then Some (retry (notify false (set_connected false c)))
  else
    match send_queue_ c with
    | [] => None
    | _ :: rest =>
        let c1 := set_send_queue rest c in
        match rest with
        | [] => Some c1
        | _ :: _ => doWrite c1
        end
    end.

(** [BinanceWebSocketClient::onClose] *)
Definition onClose (c : BinanceWebSocketClient) : BinanceWebSocketClient :=
  set_ws false c.

(** The lambda that [scheduleReconnect] hands to the timer. *)
Definition onTimer (ok : bool) (c : BinanceWebSocketClient) : BinanceWebSocketClient :=
  if negb ok || negb (running_ c) then c
  else reconnect (set_delay (reconnect_delay_ c * 2) c).

(** The completion of an operation, with what the handler is told. *)
Inductive Event : Type :=
  | Resolved (ok sni : bool)
  | Connected (ok : bool)
  | SslHandshaken (ok : bool)
  | Handshaken (ok : bool)
  | ReadDone (ok : bool) (message : string)
  | Written (ok : bool)
  | Closed
  | TimerFired (delay : Z) (ok : bool)
  | Posted.

Definition operation_of (e : Event) : Operation :=
  match e with
  | Resolved _ _ => Resolve
  | Connected _ => Connect
  | SslHandshaken _ => SslHandshake
  | Handshaken _ => Handshake
  | ReadDone _ _ => Read
  | Written _ => Write
  | Closed => Close
  | TimerFired delay _ => Timer delay
  | Posted => Post
  end.

Definition handler (e : Event) (c : BinanceWebSocketClient)
    : option BinanceWebSocketClient :=
  match e with
  | Resolved ok sni => Some (onResolve ok sni c)
  | Connected ok => onConnect ok c
  | SslHandshaken ok => onSslHandshake ok c
  | Handshaken ok => onHandshake ok c
  | ReadDone ok message => onRead ok message c
  | Written ok => onWrite ok c
  | Closed => Some (onClose c)
  | TimerFired _ ok => Some (onTimer ok c)
  | Posted => processWriteQueue c
  end.

(** The first occurrence of [op] taken out of [ops]. *)
Fixpoint take_out (op : Operation) (ops : list Operation) : list Operation :=
  match ops with
  | [] => []
  | first :: rest => if decide (first = op) then rest else first :: take_out op rest
  end.

(** One completion: the handler runs when its operation is in flight
    and the thread of the handlers is there; otherwise the event cannot
    take place and nothing happens. *)
Definition step (c : BinanceWebSocketClient) (e : Event)
    : option BinanceWebSocketClient :=
  if io_thread_ c && bool_decide (operation_of e ∈ pending_ c)
  then handler e (set_pending (take_out (operation_of e) (pending_ c)) c)
  else Some c.

(** The client after the events of [events], oldest first. *)
Fixpoint run (events : list Event) (c : BinanceWebSocketClient)
    : option BinanceWebSocketClient :=
  match events with
  | [] => Some c
  | e :: rest => step c e ≫= run rest
  end.

(** A client in the middle of an established connection, waiting for
    the next frame. *)
Definition established (c : BinanceWebSocketClient) : Prop :=
  io_thread_ c = true ∧ running_ c = true ∧ connected_ c = true ∧
  reconnecting_ c = false ∧ ws_ c = true ∧ pending_ c = [Read] ∧
  reconnect_attempts_ c = 0 ∧ reconnect_delay_ c = 1000.

(** The ways in which an attempt to reconnect fails: at the resolver, at
    the SNI set-up, at the TCP connection, at the TLS handshake or at
    the WebSocket handshake. *)
Definition failed_attempts : list (list Event) :=
  [[Resolved false true];
   [Resolved true false];
   [Resolved true true; Connected false];
   [Resolved true true; Connected true; SslHandshaken false];
   [Resolved true true; Connected true; SslHandshaken true; Handshaken false]].

(** Nothing is in flight and no event has an effect. *)
Definition idle (c : BinanceWebSocketClient) : Prop :=
  pending_ c = [] ∧ ∀ e, step c e = Some c.

(** What happens to a client: an operation completes, or the owner
    calls [send]. *)
Inductive Action : Type :=
  | Completes (e : Event)
  | Sends (text : string).

Definition act (c : BinanceWebSocketClient) (a : Action)
    : option BinanceWebSocketClient :=
  match a with
  | Completes e => step c e
  | Sends text => Some (send text c).2
  end.

(** The client after the actions of [actions], oldest first. *)
Fixpoint behave (actions : list Action) (c : BinanceWebSocketClient)
    : option BinanceWebSocketClient :=
  match actions with
  | [] => Some c
  | a :: rest => act c a ≫= behave rest
  end.

(** The operations of the connection sequence. *)
Definition in_sequence (op : Operation) : bool :=
  match op with
  | Resolve | Connect | SslHandshake | Handshake => true
  | _ => false
  end.

(** The operations through which a connection comes about: the
    connection sequence and the reconnect timer. *)
Definition scheduled (op : Operation) : bool :=
  match op with
  | Timer _ => true
  | _ => in_sequence op
  end.

(** The scheduled operations in flight. *)
Definition under_way (c : BinanceWebSocketClient) : list Operation :=
  filter (λ op, scheduled op = true) (pending_ c).

(** The situations a started client can be in: on its first connection
    sequence; connected; waiting for the reconnect timer; on the
    connection sequence of its reconnection; and with the reconnection
    abandoned. *)
Definition connecting (c : BinanceWebSocketClient) : Prop :=
  reconnecting_ c = false ∧ connected_ c = false ∧
  reconnect_attempts_ c = 0 ∧ reconnect_delay_ c = 1000 ∧
  ∃ op, in_sequence op = true ∧ pending_ c = [op].

Definition online (c : BinanceWebSocketClient) : Prop :=
  reconnecting_ c = false ∧ connected_ c = true ∧
  reconnect_attempts_ c = 0 ∧ reconnect_delay_ c = 1000 ∧ under_way c = [].

Definition backing_off (c : BinanceWebSocketClient) : Prop :=
  reconnecting_ c = true ∧ connected_ c = false ∧
  reconnect_attempts_ c = 1 ∧ reconnect_delay_ c = 1000 ∧
  under_way c = [Timer 1000].

Definition reconnecting (c : BinanceWebSocketClient) : Prop :=
  reconnecting_ c = true ∧ connected_ c = false ∧
  reconnect_attempts_ c = 1 ∧ reconnect_delay_ c = 2000 ∧
  ∃ op, in_sequence op = true ∧ under_way c = [op].

Definition abandoned (c : BinanceWebSocketClient) : Prop :=
  reconnecting_ c = true ∧ connected_ c = false ∧
  reconnect_attempts_ c = 1 ∧
  (reconnect_delay_ c = 1000 ∨ reconnect_delay_ c = 2000) ∧ under_way c = [].

Definition started (c : BinanceWebSocketClient) : Prop :=
  io_thread_ c = true ∧ running_ c = true ∧
  (connecting c ∨ online c ∨ backing_off c ∨ reconnecting c ∨ abandoned c).

End WebSocketClient.

(** * Properties *)

(** ** Order book *)

Module OrderBookSpec.
Import Machine OrderBook.

Lemma update_level_lookup side l p :
  update_level side l !! p =
    if decide (price l = p) then update_outcome (Some l) (side !! p) else side !! p.
Proof.
  unfold update_level, update_outcome.
  destruct (0 <? quantity l); case_decide as Hp; subst.
  - apply lookup_insert_eq.
  - by apply lookup_insert_ne.
  - apply lookup_delete_eq.
  - by apply lookup_delete_ne.
Qed.

Lemma processPriceLevelUpdates_lookup updates : ∀ side p,
  processPriceLevelUpdates side updates !! p =
    update_outcome (last_level_at p updates) (side !! p).
Proof.
  unfold processPriceLevelUpdates.
  induction updates as [|l rest IH]; intros side p; simpl; [done|].
  rewrite IH. destruct (last_level_at p rest) as [l'|]; [done|].
  simpl. rewrite update_level_lookup. by case_decide.
Qed.

Lemma snapshot_fold_lookup levels : ∀ side p,
  foldl snapshot_level side levels !! p =
    match last_level_at p (filter (λ l, positive_level l = true) levels) with
    | Some l => Some (quantity l)
    | None => side !! p
    end.
Proof.
  induction levels as [|l rest IH]; intros side p; simpl; [done|].
  rewrite IH. destruct (positive_level l) eqn:Hq.
  - rewrite filter_cons_True by done. simpl.
    destruct (last_level_at p _) as [l'|]; [done|].
    unfold snapshot_level. unfold positive_level in Hq. rewrite Hq.
    case_decide as Hp; subst; [apply lookup_insert_eq | by apply lookup_insert_ne].
  - rewrite filter_cons_False by (by rewrite Hq).
    unfold snapshot_level. unfold positive_level in Hq. by rewrite Hq.
Qed.

Lemma snapshot_side_lookup levels p :
  snapshot_side levels !! p =
    quantity <$> last_level_at p (filter (λ l, positive_level l = true) levels).
Proof.
  unfold snapshot_side. rewrite snapshot_fold_lookup.
  by destruct (last_level_at p _).
Qed.

Lemma wrap64_small z : 0 <= z < uint64_modulus → wrap64 z = z.
Proof. intros H. unfold wrap64. by apply Z.mod_small. Qed.

(** C1 (as amended). The three gates of [applyDepthUpdate] are tried in
    order: an invalid book sets [needs_refresh_] and rejects; otherwise
    [final_id < last_update_id_ + 1] rejects and changes nothing;
    otherwise [first_id > last_update_id_ + 1] sets [needs_refresh_] and
    rejects; otherwise the update is applied: at every price the last
    level quoted there decides (positive quantity: stored; zero: erased),
    and [last_update_id_] becomes [final_id].  The sum is the 64-bit one.
    On a valid book whose [last_update_id_] is below [2^64 - 1], an event
    with [u = last_update_id_] is dropped and one with
    [u = last_update_id_ + 1] and [U <= u] is applied. *)
Theorem applyDepthUpdate_gates first_id final_id bids asks b :
  (is_valid_ b = false →
     applyDepthUpdate first_id final_id bids asks b = (false, set_needs_refresh b)) ∧
  (is_valid_ b = true → final_id < wrap64 (last_update_id_ b + 1) →
     applyDepthUpdate first_id final_id bids asks b = (false, b)) ∧
  (is_valid_ b = true → ¬ final_id < wrap64 (last_update_id_ b + 1) →
     first_id > wrap64 (last_update_id_ b + 1) →
     applyDepthUpdate first_id final_id bids asks b = (false, set_needs_refresh b)) ∧
  (is_valid_ b = true → ¬ final_id < wrap64 (last_update_id_ b + 1) →
     ¬ first_id > wrap64 (last_update_id_ b + 1) →
     ∃ b', applyDepthUpdate first_id final_id bids asks b = (true, b') ∧
       last_update_id_ b' = final_id ∧
       is_valid_ b' = true ∧ needs_refresh_ b' = needs_refresh_ b ∧
       (∀ p, bids_ b' !! p = update_outcome (last_level_at p bids) (bids_ b !! p)) ∧
       (∀ p, asks_ b' !! p = update_outcome (last_level_at p asks) (asks_ b !! p)) ∧
       (∀ p q, last_level_at p bids = Some (mkLevel p q) → 0 < q →
          bids_ b' !! p = Some q) ∧
       (∀ p, last_level_at p bids = Some (mkLevel p 0) → bids_ b' !! p = None) ∧
       (∀ p q, last_level_at p asks = Some (mkLevel p q) → 0 < q →
          asks_ b' !! p = Some q) ∧
       (∀ p, last_level_at p asks = Some (mkLevel p 0) → asks_ b' !! p = None)) ∧
  (is_valid_ b = true → 0 <= last_update_id_ b < uint64_max →
     final_id = last_update_id_ b →
     applyDepthUpdate first_id final_id bids asks b = (false, b)) ∧
  (is_valid_ b = true → 0 <= last_update_id_ b < uint64_max →
     final_id = last_update_id_ b + 1 → first_id <= final_id →
     ∃ b', applyDepthUpdate first_id final_id bids asks b = (true, b') ∧
           last_update_id_ b' = final_id).
Proof.
  unfold applyDepthUpdate.
  repeat split.
  - by intros ->.
  - intros -> Hlt. simpl. by rewrite (proj2 (Z.ltb_lt _ _) Hlt).
  - intros -> Hge Hgt. simpl.
    rewrite (proj2 (Z.ltb_ge _ _)) by lia.
    by rewrite (proj2 (Z.ltb_lt _ _)) by lia.
  - intros Hv Hge Hle. rewrite Hv. simpl.
    rewrite (proj2 (Z.ltb_ge _ _)) by lia.
    rewrite (proj2 (Z.ltb_ge _ _)) by lia.
    eexists; split; [reflexivity|]. simpl.
    repeat split; try done.
    + intros p. apply processPriceLevelUpdates_lookup.
    + intros p. apply processPriceLevelUpdates_lookup.
    + intros p q Hlast Hq. rewrite processPriceLevelUpdates_lookup, Hlast. simpl.
      by rewrite (proj2 (Z.ltb_lt _ _) Hq).
    + intros p Hlast. by rewrite processPriceLevelUpdates_lookup, Hlast.
    + intros p q Hlast Hq. rewrite processPriceLevelUpdates_lookup, Hlast. simpl.
      by rewrite (proj2 (Z.ltb_lt _ _) Hq).
    + intros p Hlast. by rewrite processPriceLevelUpdates_lookup, Hlast.
  - intros -> Hr ->. simpl.
    rewrite wrap64_small by (unfold uint64_max in Hr; lia).
    by rewrite (proj2 (Z.ltb_lt _ _)) by lia.
  - intros -> Hr -> Hle. simpl.
    rewrite wrap64_small by (unfold uint64_max in Hr; lia).
    rewrite (proj2 (Z.ltb_ge _ _)) by lia.
    rewrite (proj2 (Z.ltb_ge _ _)) by lia.
    by eexists.
Qed.

Lemma applyDepthUpdate_gates_witness :
  ∃ b', applyDepthUpdate 101 101 [mkLevel 50000 0] [mkLevel 50010 3] s1_book = (true, b') ∧
        last_update_id_ b' = 101.
Proof.
  refine (proj2 (proj2 (proj2 (proj2 (proj2
    (applyDepthUpdate_gates 101 101 [mkLevel 50000 0] [mkLevel 50010 3] s1_book)))))
    _ _ _ _).
  - reflexivity.
  - vm_compute. split; [discriminate | reflexivity].
  - reflexivity.
  - vm_compute. discriminate.
Defined.

(** A valid book at the top of the 64-bit range: [last_update_id_ + 1]
    wraps to 0, so the event [U = 0, u = last_update_id_] passes both
    sequence gates and is applied instead of being dropped. *)
Lemma applyDepthUpdate_same_final_id_applied_at_wrap :
  let b := mkBook "BTCUSDT" 1 ∅ ∅ uint64_max true false in
  is_valid_ b = true ∧ uint64_max = last_update_id_ b ∧
  applyDepthUpdate 0 uint64_max [] [] b = (true, b).
Proof. vm_compute. done. Qed.

(** C6 (as amended). An accepted diff event strictly increases
    [last_update_id_], provided the id before the call is below
    [2^64 - 1] so that [last_update_id_ + 1] does not wrap. *)
Theorem applyDepthUpdate_last_update_id_increases first_id final_id bids asks b b' :
  0 <= last_update_id_ b < uint64_max →
  applyDepthUpdate first_id final_id bids asks b = (true, b') →
  last_update_id_ b < last_update_id_ b'.
Proof.
  intros Hr. unfold applyDepthUpdate.
  rewrite wrap64_small by (unfold uint64_max in Hr; lia).
  destruct (is_valid_ b); simpl; [|discriminate].
  destruct (final_id <? last_update_id_ b + 1) eqn:Hstale; [discriminate|].
  destruct (last_update_id_ b + 1 <? first_id); [discriminate|].
  intros [= <-]. simpl. apply Z.ltb_ge in Hstale. lia.
Qed.

Lemma applyDepthUpdate_last_update_id_increases_witness :
  last_update_id_ s1_book <
  last_update_id_ (applyDepthUpdate 101 101 [mkLevel 50000 0] [mkLevel 50010 3] s1_book).2.
Proof.
  apply (applyDepthUpdate_last_update_id_increases 101 101
           [mkLevel 50000 0] [mkLevel 50010 3] s1_book).
  - vm_compute. split; [discriminate | reflexivity].
  - reflexivity.
Defined.

(** With [last_update_id_ = 2^64 - 1] the event [U = 0, u = 0] is
    accepted and [last_update_id_] drops to 0. *)
Lemma applyDepthUpdate_accepts_smaller_id_at_wrap :
  let b := mkBook "BTCUSDT" 1 ∅ ∅ uint64_max true false in
  let r := applyDepthUpdate 0 0 [] [] b in
  r.1 = true ∧ ¬ last_update_id_ b < last_update_id_ r.2.
Proof. vm_compute. split; [done | intros [=]]. Qed.

(** C7. [applySnapshot] succeeds, replaces both sides by the positive
    levels of the snapshot (at each price the last positive one; levels
    with quantity zero leave no trace, and nothing of the old sides
    survives), sets [last_update_id_], [is_valid_ = true] and
    [needs_refresh_ = false]; applying the same snapshot a second time
    gives the very same book. *)
Theorem applySnapshot_idempotent last_update_id bids asks b :
  let r := applySnapshot last_update_id bids asks b in
  r.1 = true ∧
  last_update_id_ r.2 = last_update_id ∧
  is_valid_ r.2 = true ∧ needs_refresh_ r.2 = false ∧
  (∀ p, bids_ r.2 !! p =
     quantity <$> last_level_at p (filter (λ l, positive_level l = true) bids)) ∧
  (∀ p, asks_ r.2 !! p =
     quantity <$> last_level_at p (filter (λ l, positive_level l = true) asks)) ∧
  (∀ p q, bids_ r.2 !! p = Some q → 0 < q) ∧
  (∀ p q, asks_ r.2 !! p = Some q → 0 < q) ∧
  applySnapshot last_update_id bids asks r.2 = r.
Proof.
  assert (Hpos : ∀ levels p q,
    quantity <$> last_level_at p (filter (λ l, positive_level l = true) levels) = Some q →
    0 < q).
  { intros levels p q. induction levels as [|l rest IH]; simpl; [done|].
    destruct (positive_level l) eqn:Hq.
    - rewrite filter_cons_True by done. simpl.
      destruct (last_level_at p _) as [l'|]; [exact IH|].
      case_decide; [|done]. intros [= <-]. by apply Z.ltb_lt.
    - by rewrite filter_cons_False by (by rewrite Hq). }
  simpl. repeat split.
  - apply snapshot_side_lookup.
  - apply snapshot_side_lookup.
  - intros p q. rewrite snapshot_side_lookup. apply Hpos.
  - intros p q. rewrite snapshot_side_lookup. apply Hpos.
Qed.

End OrderBookSpec.

(** ** Authenticator *)

Module AuthenticatorSpec.
Import Text Authenticator.

Lemma occurs_app c s1 s2 : occurs c (s1 +:+ s2) = occurs c s1 || occurs c s2.
Proof. induction s1 as [|a s1 IH]; simpl; [done|]. rewrite IH. by destruct (Ascii.eqb a c). Qed.

Lemma is_empty_app s1 s2 : is_empty (s1 +:+ s2) = is_empty s1 && is_empty s2.
Proof. by destruct s1. Qed.

Lemma app_assoc_s (s1 s2 s3 : string) : (s1 +:+ s2) +:+ s3 = s1 +:+ s2 +:+ s3.
Proof. induction s1 as [|a s1 IH]; simpl; [done|]. unfold String.app in *. simpl. by rewrite IH. Qed.

Lemma split_on_nonempty c s : split_on c s ≠ [].
Proof. destruct s as [|a s]; simpl; [done|]. destruct (Ascii.eqb a c); [done|]. by destruct (split_on c s). Qed.

Lemma split_on_plain c s : occurs c s = false → split_on c s = [s].
Proof.
  induction s as [|a s IH]; simpl; [done|].
  destruct (Ascii.eqb a c); [done|]. simpl. intros H. by rewrite IH.
Qed.

Lemma split_on_app c s1 s2 :
  split_on c (s1 +:+ String c s2) = split_on c s1 ++ split_on c s2.
Proof.
  induction s1 as [|a s1 IH].
  - change ("" +:+ String c s2) with (String c s2). simpl. by rewrite Ascii.eqb_refl.
  - change (String a s1 +:+ String c s2) with (String a (s1 +:+ String c s2)).
    simpl. rewrite IH. destruct (Ascii.eqb a c); [done|].
    pose proof (split_on_nonempty c s1). by destruct (split_on c s1).
Qed.

Lemma split_last_plain c s : occurs c s = false → split_last c s = None.
Proof.
  induction s as [|a s IH]; simpl; [done|].
  destruct (Ascii.eqb a c); [done|]. simpl. intros H. by rewrite IH.
Qed.

Lemma split_last_app c s1 s2 :
  occurs c s2 = false → split_last c (s1 +:+ String c s2) = Some (s1, s2).
Proof.
  intros H. induction s1 as [|a s1 IH].
  - change ("" +:+ String c s2) with (String c s2). simpl.
    by rewrite split_last_plain, Ascii.eqb_refl.
  - change (String a s1 +:+ String c s2) with (String a (s1 +:+ String c s2)).
    simpl. by rewrite IH.
Qed.

Lemma before_char_app c s1 s2 :
  occurs c s1 = false → before_char c (s1 +:+ String c s2) = s1.
Proof.
  induction s1 as [|a s1 IH].
  - intros _. change ("" +:+ String c s2) with (String c s2). simpl. by rewrite Ascii.eqb_refl.
  - change (String a s1 +:+ String c s2) with (String a (s1 +:+ String c s2)).
    simpl. destruct (Ascii.eqb a c); [done|]. simpl. intros H. by rewrite IH.
Qed.


Lemma pretty_N_char_plain c n : Ascii.is_nat c = None → Ascii.eqb (pretty_N_char n) c = false.
Proof.
  intros Hc. destruct (Ascii.eqb_spec (pretty_N_char n) c) as [<-|]; [|done].
  unfold pretty_N_char in Hc. repeat case_match; by vm_compute in Hc.
Qed.

Lemma pretty_N_go_plain c x : ∀ s,
  Ascii.is_nat c = None → occurs c s = false → occurs c (pretty_N_go x s) = false.
Proof.
  induction (N.lt_wf_0 x) as [x _ IH]; intros s Hc Hs.
  destruct (decide (x = 0)%N) as [->|Hx]; [by rewrite pretty_N_go_0|].
  rewrite pretty_N_go_step by lia.
  apply IH; [apply N.div_lt; lia | done |].
  simpl. by rewrite pretty_N_char_plain.
Qed.

Lemma occurs_cons c a s : occurs c (String a s) = Ascii.eqb a c || occurs c s.
Proof. done. Qed.

Lemma decimal_plain c z :
  Ascii.is_nat c = None → c ≠ "-"%char → occurs c (decimal z) = false.
Proof.
  intros Hc Hm.
  assert (H0 : occurs c "0" = false).
  { rewrite occurs_cons. destruct (Ascii.eqb_spec "0" c) as [<-|]; [by vm_compute in Hc | done]. }
  assert (HN : ∀ n : N, occurs c (pretty n) = false).
  { intros n. unfold pretty, pretty_N. case_decide; [done|by apply pretty_N_go_plain]. }
  destruct z as [|p|p].
  - exact H0.
  - exact (HN (N.pos p)).
  - change (occurs c ("-" +:+ pretty (N.pos p)) = false).
    rewrite occurs_app, (HN (N.pos p)), occurs_cons.
    by destruct (Ascii.eqb_spec "-" c) as [<-|].
Qed.

Lemma hex_byte_lowercase a :
  is_Some (hex_value (hex_digit (N_of_ascii a / 16))) ∧
  is_Some (hex_value (hex_digit (N_of_ascii a mod 16))).
Proof. destruct a as [[] [] [] [] [] [] [] []]; split; by eexists. Qed.

Lemma to_hex_lowercase hash c : occurs c (to_hex hash) = true → is_Some (hex_value c).
Proof.
  induction hash as [|a hash IH]; [done|].
  simpl to_hex. unfold hex_byte.
  change (String ?x (String ?y "") +:+ ?t) with (String x (String y t)).
  rewrite !occurs_cons. intros H.
  destruct (hex_byte_lowercase a) as [Hhi Hlo].
  apply orb_true_iff in H as [H|H].
  { by apply Ascii.eqb_eq in H as <-. }
  apply orb_true_iff in H as [H|H].
  { by apply Ascii.eqb_eq in H as <-. }
  by apply IH.
Qed.

Lemma to_hex_plain hash c : hex_value c = None → occurs c (to_hex hash) = false.
Proof.
  intros Hc. destruct (occurs c (to_hex hash)) eqn:H; [|done].
  apply to_hex_lowercase in H as [n Hn]. congruence.
Qed.

Lemma hex_byte_decode a :
  hex_value (hex_digit (N_of_ascii a / 16)) = Some (N_of_ascii a / 16)%N ∧
  hex_value (hex_digit (N_of_ascii a mod 16)) = Some (N_of_ascii a mod 16)%N ∧
  ascii_of_N (16 * (N_of_ascii a / 16) + N_of_ascii a mod 16) = a.
Proof. by destruct a as [[] [] [] [] [] [] [] []]. Qed.

Lemma hex_decode_to_hex hash : hex_decode (to_hex hash) = Some hash.
Proof.
  induction hash as [|a hash IH]; [done|].
  simpl to_hex. unfold hex_byte.
  change (String ?x (String ?y "") +:+ ?t) with (String x (String y t)).
  destruct (hex_byte_decode a) as (Hh & Hl & Ha).
  simpl. by rewrite Hh, Hl, IH, Ha.
Qed.

Lemma length_to_hex hash : String.length (to_hex hash) = (2 * String.length hash)%nat.
Proof.
  induction hash as [|a hash IH]; [done|].
  simpl to_hex. unfold hex_byte.
  change (String ?x (String ?y "") +:+ ?t) with (String x (String y t)).
  simpl. rewrite IH. lia.
Qed.

Lemma signRequest_loaded a parameters with_timestamp now_ms :
  credentials_loaded_ a = true →
  signRequest a parameters with_timestamp now_ms
  = canonical_query parameters with_timestamp now_ms +:+ "&signature=" +:+
    to_hex (Sha256.hmac_sha256 (secret_key_ a)
              (canonical_query parameters with_timestamp now_ms)).
Proof. intros Hloaded. unfold signRequest. by rewrite Hloaded. Qed.

(** C5. With loaded credentials the signed query is the canonical query
    (the parameters and, when requested, the timestamp component),
    followed by [&signature=] and the signature; cutting the result at
    [&signature=] gives back exactly the string that was handed to
    HMAC-SHA256 under [secret_key_]; the signature is that digest in
    lowercase hexadecimal, two digits per byte. *)
Theorem signRequest_signature a parameters with_timestamp now_ms :
  credentials_loaded_ a = true →
  let query := canonical_query parameters with_timestamp now_ms in
  let digest := Sha256.hmac_sha256 (secret_key_ a) query in
  signRequest a parameters with_timestamp now_ms
    = query +:+ "&signature=" +:+ to_hex digest ∧
  split_signed (signRequest a parameters with_timestamp now_ms)
    = Some (query, to_hex digest) ∧
  hex_decode (to_hex digest) = Some digest ∧
  String.length (to_hex digest) = (2 * String.length digest)%nat ∧
  (∀ c, occurs c (to_hex digest) = true → is_Some (hex_value c)) ∧
  (with_timestamp = true →
     ∃ before, query = before +:+ "timestamp=" +:+ decimal now_ms).
Proof.
  intros Hloaded query digest.
  assert (Hsign : signRequest a parameters with_timestamp now_ms
                  = query +:+ "&signature=" +:+ to_hex digest)
    by (by apply signRequest_loaded).
  split; [done|]. split.
  { rewrite Hsign. unfold split_signed.
    change (query +:+ "&signature=" +:+ to_hex digest)
      with (query +:+ String "&" ("signature=" +:+ to_hex digest)).
    rewrite split_last_app.
    - reflexivity.
    - rewrite occurs_app. by rewrite to_hex_plain. }
  split; [apply hex_decode_to_hex|].
  split; [apply length_to_hex|].
  split; [intros c; apply to_hex_lowercase|].
  intros ->. subst query. unfold canonical_query, append_timestamp.
  destruct (is_empty (build_query parameters)).
  - by exists (build_query parameters).
  - exists (build_query parameters +:+ "&"). by rewrite !app_assoc_s.
Qed.


Lemma append_param_nonempty q p : is_empty (append_param q p) = false.
Proof.
  unfold append_param. destruct q as [|a q]; simpl.
  - change ("" +:+ ?t) with t. rewrite is_empty_app. destruct (p.1); simpl; done.
  - done.
Qed.

Lemma plain_param_render p :
  plain_param p → occurs "&" (p.1 +:+ "=" +:+ p.2) = false.
Proof.
  intros (Hk & _ & Hv). rewrite !occurs_app, Hk, Hv. done.
Qed.

Lemma split_append_param q p :
  is_empty q = false → plain_param p →
  split_on "&" (append_param q p) = split_on "&" q ++ [p.1 +:+ "=" +:+ p.2].
Proof.
  intros Hq Hp. unfold append_param. rewrite Hq.
  rewrite app_assoc_s.
  change ("&" +:+ ?t) with (String "&" t).
  rewrite split_on_app. f_equal.
  apply split_on_plain. by apply plain_param_render.
Qed.

Lemma split_fold_params ps : ∀ q,
  is_empty q = false → Forall plain_param ps →
  split_on "&" (foldl append_param q ps)
    = split_on "&" q ++ ((λ p, p.1 +:+ "=" +:+ p.2) <$> ps).
Proof.
  induction ps as [|p ps IH]; intros q Hq Hps; simpl.
  - by rewrite app_nil_r.
  - inversion Hps as [|?? Hp Hps']; subst.
    rewrite IH by (auto using append_param_nonempty).
    rewrite split_append_param by done.
    by rewrite <- app_assoc.
Qed.

Lemma split_build_query ps :
  Forall plain_param ps →
  split_on "&" (build_query ps) =
    match ps with
    | [] => [""]
    | _ => (λ p, p.1 +:+ "=" +:+ p.2) <$> ps
    end.
Proof.
  intros Hps. destruct ps as [|p ps]; [done|].
  inversion Hps as [|?? Hp Hps']; subst.
  unfold build_query. simpl foldl.
  rewrite split_fold_params by (auto using append_param_nonempty).
  unfold append_param at 1. simpl is_empty. cbv iota.
  change ("" +:+ ?t) with t.
  rewrite split_on_plain by (by apply plain_param_render). done.
Qed.

Lemma build_query_empty ps : is_empty (build_query ps) = true → ps = [].
Proof.
  destruct ps as [|p ps]; [done|]. unfold build_query. simpl foldl.
  assert (H : ∀ ps q, is_empty q = false → is_empty (foldl append_param q ps) = false).
  { clear. induction ps as [|p ps IH]; intros q Hq; simpl; [done|].
    apply IH, append_param_nonempty. }
  rewrite H by apply append_param_nonempty. done.
Qed.

Lemma count_rendered k ps :
  Forall plain_param ps →
  length (filter (λ component, param_key component = k)
            ((λ p, p.1 +:+ "=" +:+ p.2) <$> ps))
  = length (filter (λ p, p.1 = k) ps).
Proof.
  induction 1 as [|p ps Hp Hps IH]; [done|].
  rewrite fmap_cons.
  assert (Hkey : param_key (p.1 +:+ "=" +:+ p.2) = p.1).
  { unfold param_key. change ("=" +:+ ?t) with (String "=" t).
    apply before_char_app. apply Hp. }
  destruct (decide (p.1 = k)) as [Hk|Hk].
  - rewrite !filter_cons_True by congruence. simpl. by rewrite IH.
  - rewrite !filter_cons_False by congruence. done.
Qed.

Lemma count_components k l1 l2 :
  length (filter (λ component, param_key component = k) (l1 ++ l2))
  = (length (filter (λ component, param_key component = k) l1)
     + length (filter (λ component, param_key component = k) l2))%nat.
Proof. by rewrite filter_app, length_app. Qed.

(** The number of [timestamp] parameters of a signed query: those the
    caller put into the map, and one more when the flag is set. *)
Lemma count_timestamp_params a parameters with_timestamp now_ms :
  credentials_loaded_ a = true →
  Forall plain_param parameters →
  count_param "timestamp" (signRequest a parameters with_timestamp now_ms)
  = (length (filter (λ p, p.1 = "timestamp") parameters)
     + (if with_timestamp then 1 else 0))%nat.
Proof.
  intros Hloaded Hplain.
  rewrite signRequest_loaded by done.
  unfold count_param.
  change ("&signature=" +:+ ?t) with (String "&" ("signature=" +:+ t)).
  rewrite split_on_app, count_components.
  rewrite (split_on_plain "&" ("signature=" +:+ _))
    by (rewrite occurs_app; by rewrite to_hex_plain).
  assert (Hsig : ∀ t, param_key ("signature=" +:+ t) = "signature") by done.
  rewrite filter_cons_False by (by rewrite Hsig). simpl length at 2.
  rewrite Nat.add_0_r.
  assert (Hquery : length (filter (λ component, param_key component = "timestamp")
                     (split_on "&" (build_query parameters)))
                   = length (filter (λ p, p.1 = "timestamp") parameters)).
  { rewrite split_build_query by done.
    destruct parameters as [|p ps] eqn:Hps; [done|].
    rewrite <- Hps in *. by apply count_rendered. }
  unfold canonical_query. destruct with_timestamp; [|by rewrite Hquery, Nat.add_0_r].
  unfold append_timestamp.
  assert (Hts : occurs "&" ("timestamp=" +:+ decimal now_ms) = false).
  { rewrite occurs_app. by rewrite decimal_plain. }
  assert (Hkey : param_key ("timestamp=" +:+ decimal now_ms) = "timestamp") by done.
  destruct (is_empty (build_query parameters)) eqn:Hempty.
  - apply build_query_empty in Hempty as ->.
    change (build_query [] +:+ ?t) with t.
    rewrite split_on_plain by done.
    by rewrite filter_cons_True.
  - rewrite app_assoc_s. change ("&" +:+ ?t) with (String "&" t).
    rewrite split_on_app, count_components, Hquery.
    rewrite split_on_plain by done.
    by rewrite filter_cons_True.
Qed.

(** C4 (as amended). [signRequest] appends the [timestamp=<ms>] component
    exactly when its [with_timestamp] argument is true (the default),
    whether or not the parameters carry a [timestamp] key.  The signed
    query contains exactly one [timestamp] parameter when the caller
    supplies none and the flag is set, and when the caller supplies one
    and clears the flag. *)
Theorem signRequest_timestamp_by_flag a parameters with_timestamp now_ms :
  credentials_loaded_ a = true →
  Forall plain_param parameters →
  let supplied := length (filter (λ p, p.1 = "timestamp") parameters) in
  canonical_query parameters with_timestamp now_ms
    = (if with_timestamp
       then append_timestamp (build_query parameters) now_ms
       else build_query parameters) ∧
  (∃ before, append_timestamp (build_query parameters) now_ms
             = before +:+ "timestamp=" +:+ decimal now_ms) ∧
  (with_timestamp = true → supplied = 0%nat →
     count_param "timestamp" (signRequest a parameters with_timestamp now_ms) = 1%nat) ∧
  (with_timestamp = false → supplied = 1%nat →
     count_param "timestamp" (signRequest a parameters with_timestamp now_ms) = 1%nat) ∧
  (with_timestamp = false → supplied = 0%nat →
     count_param "timestamp" (signRequest a parameters with_timestamp now_ms) = 0%nat).
Proof.
  intros Hloaded Hplain supplied.
  pose proof (count_timestamp_params a parameters with_timestamp now_ms Hloaded Hplain)
    as Hcount.
  fold supplied in Hcount.
  split; [done|]. split.
  { unfold append_timestamp. destruct (is_empty (build_query parameters)).
    - by exists (build_query parameters).
    - exists (build_query parameters +:+ "&"). by rewrite !app_assoc_s. }
  repeat split; intros -> Hs; rewrite Hcount, Hs; reflexivity.
Qed.

Lemma doc_params_plain : Forall plain_param doc_params.
Proof.
  unfold doc_params, StringMap.of_list. simpl.
  repeat (constructor; [repeat split; reflexivity|]). constructor.
Qed.

Lemma signRequest_signature_witness :
  credentials_loaded_ doc_auth = true ∧
  split_signed (signRequest doc_auth doc_params true 1499827319559)
  = Some (canonical_query doc_params true 1499827319559,
          to_hex (Sha256.hmac_sha256 (secret_key_ doc_auth)
                    (canonical_query doc_params true 1499827319559))).
Proof.
  split; [reflexivity|].
  exact (proj1 (proj2
    (signRequest_signature doc_auth doc_params true 1499827319559 eq_refl))).
Defined.

Lemma signRequest_timestamp_by_flag_witness :
  credentials_loaded_ doc_auth = true ∧
  count_param "timestamp" (signRequest doc_auth doc_params true 1499827319559) = 1%nat.
Proof.
  split; [reflexivity|].
  refine (proj1 (proj2 (proj2
    (signRequest_timestamp_by_flag doc_auth doc_params true 1499827319559
       _ doc_params_plain))) _ _).
  - reflexivity.
  - reflexivity.
  - reflexivity.
Defined.

(** The signature example of Binance's API documentation, on the query
    string as printed there. *)
Example hmac_sha256_documented_signature :
  to_hex (Sha256.hmac_sha256 (secret_key_ doc_auth)
    "symbol=LTCBTC&side=BUY&type=LIMIT&timeInForce=GTC&quantity=1&price=0.1&recvWindow=5000&timestamp=1499827319559")
  = "c8db56825ae71d6d79447849e617115f4a920fa2acdcab2b053c4b2838bd6b71".
Proof. vm_compute. reflexivity. Qed.

(** The same parameters through [signRequest]: the map is visited in key
    order and the timestamp comes last. *)
Example signRequest_documented_parameters :
  signRequest doc_auth doc_params true 1499827319559
  = "price=0.1&quantity=1&recvWindow=5000&side=BUY&symbol=LTCBTC&timeInForce=GTC&type=LIMIT&timestamp=1499827319559&signature=100b7c0e855e5a970d9d44e297b2db5670764f73cddfd8a9d1cf4a464b3f9b4d".
Proof. vm_compute. reflexivity. Qed.

End AuthenticatorSpec.

(** ** Queues and the order gateway *)

Module LFQueueSpec.
Import LFQueue.

Section Ring.
Context {T : Type}.
Implicit Types q : LFQueue.t T.

Lemma iter_updateReadIndex_fields n q :
  let q' := Nat.iter n updateReadIndex q in
  store_ q' = store_ q ∧
  next_write_index_ q' = next_write_index_ q ∧
  num_elements_ q' = (num_elements_ q - n)%nat ∧
  ((next_read_index_ q < length (store_ q))%nat →
   next_read_index_ q' = ((next_read_index_ q + n) `mod` length (store_ q))%nat).
Proof.
  induction n as [|n IH]; simpl.
  - repeat split; [lia|]. intros H. by rewrite Nat.add_0_r, Nat.mod_small.
  - destruct IH as (Hs & Hw & Hn & Hr). repeat split; simpl.
    + done.
    + done.
    + rewrite Hn. lia.
    + intros H. rewrite Hs, (Hr H).
      rewrite Nat.Div0.add_mod_idemp_l. f_equal. lia.
Qed.

Lemma iter_updateReadIndex_shift n q :
  Nat.iter n updateReadIndex (updateReadIndex q) = Nat.iter (S n) updateReadIndex q.
Proof. induction n as [|n IH]; [done|]. simpl in *. by rewrite IH. Qed.

Lemma updateReadIndex_in_range q :
  (next_read_index_ q < length (store_ q))%nat →
  (next_read_index_ (updateReadIndex q) < length (store_ (updateReadIndex q)))%nat.
Proof. simpl. intros H. apply Nat.mod_upper_bound. lia. Qed.

Lemma getNextToRead_empty q : num_elements_ q = 0%nat → getNextToRead q = None.
Proof. unfold getNextToRead, size. by intros ->. Qed.

Lemma pending_empty q : num_elements_ q = 0%nat → pending q = [].
Proof. unfold pending. by intros ->. Qed.

End Ring.
End LFQueueSpec.

Module OrderGatewaySpec.
Import Outcome Float Json Exchange Text LFQueue OrderGateway LFQueueSpec.

Section WithArithmetic.
Context `{F : Float64} `{C : Constants}.

Lemma scan_queue_drains ticker_id n : ∀ fuel q latest found saved,
  num_elements_ q = n → (n <= fuel)%nat →
  (next_read_index_ q < length (store_ q))%nat →
  let sc := scan_queue fuel ticker_id (mkScan q latest found saved) in
  queue sc = Nat.iter n updateReadIndex q ∧
  saved_updates sc = saved ++ upcoming n q.
Proof.
  induction n as [|n IH]; intros fuel q latest found saved Hn Hfuel Hread.
  - simpl. destruct fuel; simpl.
    + by rewrite app_nil_r.
    + rewrite getNextToRead_empty by done. simpl. by rewrite app_nil_r.
  - destruct fuel as [|fuel]; [lia|].
    destruct (lookup_lt_is_Some_2 _ _ Hread) as [update Hupdate].
    simpl. unfold getNextToRead, size. rewrite Hn. simpl. rewrite Hupdate.
    unfold scan_step. simpl.
    destruct (if carries_price ticker_id update then _ else _) as [latest' found'].
    destruct (IH fuel (updateReadIndex q) latest' found' (saved ++ [update]))
      as [Hq Hsaved].
    + simpl. lia.
    + lia.
    + by apply updateReadIndex_in_range.
    + split.
      * rewrite Hq. apply iter_updateReadIndex_shift.
      * rewrite Hsaved. by rewrite <- app_assoc.
Qed.

Lemma price_from_api_market_data w symbol gw :
  market_data_updates_ (price_from_api w symbol gw).2 = market_data_updates_ gw ∧
  incoming_responses_ (price_from_api w symbol gw).2 = incoming_responses_ gw.
Proof. done. Qed.

(** C9. A call of [getLatestMarketPrice] that scans the market-updates
    queue reads every pending entry, advances the read index past each of
    them, and writes nothing back: afterwards the queue holds no element
    (the next [getNextToRead] is null), its read index has moved by the
    number of entries read, and its slots and write index are as before.
    What was saved on the way stays in the local vector. *)
Theorem getLatestMarketPrice_consumes_updates w symbol gw q :
  market_data_updates_ gw = Some q →
  ticker_of_symbol symbol ≠ TickerId_INVALID →
  LFQueue.wf q →
  saved_updates (scan_market_data (ticker_of_symbol symbol) q) = pending q ∧
  ∃ q', market_data_updates_ (getLatestMarketPrice w symbol gw).2 = Some q' ∧
        num_elements_ q' = 0%nat ∧
        getNextToRead q' = None ∧
        pending q' = [] ∧
        next_read_index_ q'
          = ((next_read_index_ q + num_elements_ q) `mod` length (store_ q))%nat ∧
        store_ q' = store_ q ∧
        next_write_index_ q' = next_write_index_ q.
Proof.
  intros Hq Hticker (Hread & Hwrite & Hsize).
  destruct (scan_queue_drains (ticker_of_symbol symbol) (num_elements_ q)
              (size q) q (of_int 0) false [] eq_refl (le_n _) Hread)
    as [Hqueue Hsaved].
  fold (scan_market_data (ticker_of_symbol symbol) q) in Hqueue, Hsaved.
  split; [exact Hsaved|].
  exists (queue (scan_market_data (ticker_of_symbol symbol) q)).
  destruct (iter_updateReadIndex_fields (num_elements_ q) q) as (Hs & Hw & Hn & Hr).
  rewrite <- Hqueue in Hs, Hw, Hn, Hr.
  assert (Hzero : num_elements_ (queue (scan_market_data (ticker_of_symbol symbol) q)) = 0%nat)
    by lia.
  split.
  { unfold getLatestMarketPrice. rewrite Hq.
    rewrite bool_decide_eq_false_2 by done. simpl.
    destruct (found_price _); [done|].
    by rewrite (proj1 (price_from_api_market_data _ _ _)). }
  repeat split; auto using getNextToRead_empty, pending_empty.
Qed.

(** One visit of a [PRICE_FILTER] formats the price the loop came in
    with; the bounds only reach the local [price_decimal]. *)
Lemma price_filter_formats_before_clamping filter f f' :
  price_filter filter f = Ok f' →
  formatted_price f' = formatted_price f ∨
  ∃ decimal_places, formatted_price f' = fixed decimal_places (price_decimal f).
Proof.
  unfold price_filter.
  destruct (at_key "tickSize" filter) as [tick| |]; simpl; [|done..].
  destruct (size_text tick) as [tick_size_str| |]; simpl; [|done..].
  destruct (bound_of "minPrice" filter) as [min_price| |]; simpl; [|done..].
  destruct (bound_of "maxPrice" filter) as [max_price| |]; simpl; [|done..].
  intros [= <-]. simpl.
  destruct (is_empty tick_size_str); [by left|].
  destruct (places_of tick_size_str) as [n|]; [right; by exists n | by left].
Qed.

(** An execution report whose [i] is a JSON number: [get<std::string>()]
    throws on it, before anything is stored or emitted. *)
Lemma order_update_body_numeric_id members client_order_id n gw :
  member "c" members = Some (JString client_order_id) →
  member "i" members = Some (JInt n) →
  order_update_body (JObject members) gw = Throw type_error.
Proof.
  intros Hc Hi. unfold order_update_body, string_at. simpl.
  rewrite Hc. simpl. by rewrite Hi.
Qed.

(** C3, at the report of scenario S4.  The exchange order id [i] arrives
    as a JSON number, the conversion to [std::string] throws, and the
    handler's [catch] leaves the gateway as it was: no response is
    written and the id map gets no entry for order 42. *)
Theorem processOrderUpdate_numeric_order_id gw :
  processOrderUpdate s4_report gw = Some gw ∧
  (∀ frame, handleUserDataMessage (receiving s4_report) frame gw = Some gw).
Proof.
  assert (H : processOrderUpdate s4_report gw = Some gw).
  { unfold processOrderUpdate, s4_report.
    by rewrite (order_update_body_numeric_id _ "x-42" 987654). }
  split; [done|].
  intros frame. exact H.
Qed.

(** C10. Whatever the request's [ticker_id_] and whatever the
    configured ticker table, the parameter map that
    [handleCancelOrderRequest] signs has [symbol = BTCUSDT] next to the
    [orderId], and that signed query is the target of the one
    [DELETE /api/v3/order] the handler sends. *)
Theorem handleCancelOrderRequest_symbol w request gw :
  StringMap.get "symbol" (cancel_params request gw) = Some "BTCUSDT" ∧
  (∃ id, cancel_params request gw = [("orderId", id); ("symbol", "BTCUSDT")]) ∧
  (∀ ticker_id config,
     cancel_params (with_ticker_id ticker_id request) (with_config config gw)
     = cancel_params request gw) ∧
  requests_sent_ (handleCancelOrderRequest w request gw)
    = requests_sent_ gw ++ [cancel_request w request gw] ∧
  method (cancel_request w request gw) = DELETE ∧
  target (cancel_request w request gw)
    = "/api/v3/order?" +:+
      Authenticator.signRequest_default (authenticator_ gw)
        (cancel_params request gw) (now_ms w).
Proof.
  assert (Hparams : ∀ request gw, ∃ id,
            cancel_params request gw = [("orderId", id); ("symbol", "BTCUSDT")]).
  { intros r g. unfold cancel_params.
    generalize (match order_id_to_binance_id_ g !! req_order_id_ r with
                | Some id => id
                | None => decimal (req_order_id_ r)
                end).
    intros id. by exists id. }
  destruct (Hparams request gw) as [id Hid].
  split; [by rewrite Hid|].
  split; [by exists id|].
  split; [done|].
  split; [|done].
  unfold handleCancelOrderRequest.
  by destruct (_ ← http w _; parse w _).
Qed.

(** A request on ticker 2, which the configuration maps to ETHUSDT, is
    cancelled under BTCUSDT. *)
Example cancel_of_ethusdt_order :
  Config.getSymbolForTickerId two_tickers 2 = "ETHUSDT" ∧
  target (cancel_request offline (mkRequest CANCEL 1 2 99 SELL 0 0) sample_gateway)
  = "/api/v3/order?orderId=99&symbol=BTCUSDT&timestamp=1499827319560&signature=c1294b568f6d2ed4b01ad7b3dee319910d01467cf5ce6fd0ed5ce8304038b47d".
Proof. vm_compute. done. Qed.

End WithArithmetic.

(** C2, at two requests outside the price range of the symbol
    ([minPrice = 10.00], [maxPrice = 1000.00], [tickSize = 0.01]): the
    [price] parameter of the order is the request price, formatted before
    the comparison with the bounds; the clamped value stays in the local
    [price_decimal]. *)
Theorem new_order_price_sent_unclamped :
  let submitted request :=
    fst <$> new_order_submission (F := Exact.exact) offline ranged_symbol_info
              (1 # 1000)%Q request sample_gateway in
  (StringMap.get "price" <$> submitted low_priced_order) = Ok (Some "5.00") ∧
  (StringMap.get "price" <$> submitted high_priced_order) = Ok (Some "2000.00") ∧
  (price_decimal <$> format_order (F := Exact.exact) ranged_symbol_info
                       (internalPriceToBinance (F := Exact.exact) 50000) (1 # 1000)%Q)
    = Ok (10 # 1)%Q ∧
  (price_decimal <$> format_order (F := Exact.exact) ranged_symbol_info
                       (internalPriceToBinance (F := Exact.exact) 20000000) (1 # 1000)%Q)
    = Ok (1000 # 1)%Q.
Proof. vm_compute. done. Qed.

(** Prices on the bounds go out as they are. *)
Example new_order_price_on_the_bounds :
  (formatted_price <$> format_order (F := Exact.exact) ranged_symbol_info
                         (internalPriceToBinance (F := Exact.exact) 100000) (1 # 1000)%Q)
    = Ok "10.00" ∧
  (formatted_price <$> format_order (F := Exact.exact) ranged_symbol_info
                         (internalPriceToBinance (F := Exact.exact) 10000000) (1 # 1000)%Q)
    = Ok "1000.00".
Proof. vm_compute. done. Qed.

(** The report of scenario S4 with [i] as a string goes through: a FILLED
    response with the executed quantity 0.001 (10 internally) and nothing
    left, and the id map has [42 -> 987654]. *)
Example processOrderUpdate_text_order_id :
  let after := processOrderUpdate (F := Exact.exact) (C := reference_constants)
                 s4_report_text_id sample_gateway in
  (pending ∘ incoming_responses_) <$> after
    = Some [mkResponse FILLED 1 1 42 42 BUY 300000000 10 0] ∧
  (λ gw, order_id_to_binance_id_ gw !! 42) <$> after = Some (Some "987654").
Proof. vm_compute. done. Qed.

(** The query [getAccountBalance] signs: its own [timestamp] parameter and
    the one [signRequest] appends. *)
Lemma account_query_has_two_timestamps :
  account_query Authenticator.doc_auth 1499827319559 1499827319560
  = "timestamp=1499827319559&timestamp=1499827319560&signature=413d8e7b77ae6736983b9d186819966fae6f4045061a0484b059cd832788436c" ∧
  Authenticator.count_param "timestamp"
    (account_query Authenticator.doc_auth 1499827319559 1499827319560) = 2%nat.
Proof. vm_compute. done. Qed.

(** C9 at the queue holding one book of BTCUSDT. *)
Lemma getLatestMarketPrice_consumes_updates_witness :
  saved_updates
    (scan_market_data (F := Exact.exact) (C := reference_constants)
       (ticker_of_symbol (C := reference_constants) "BTCUSDT") one_book)
  = pending one_book ∧
  ∃ q', market_data_updates_
          (getLatestMarketPrice (F := Exact.exact) (C := reference_constants)
             offline "BTCUSDT" sample_gateway).2 = Some q' ∧
        num_elements_ q' = 0%nat ∧
        getNextToRead q' = None ∧
        pending q' = [] ∧
        next_read_index_ q'
          = ((next_read_index_ one_book + num_elements_ one_book)
               `mod` length (store_ one_book))%nat ∧
        store_ q' = store_ one_book ∧
        next_write_index_ q' = next_write_index_ one_book.
Proof.
  apply (getLatestMarketPrice_consumes_updates (F := Exact.exact)
           (C := reference_constants) offline "BTCUSDT" sample_gateway one_book).
  - reflexivity.
  - vm_compute. discriminate.
  - vm_compute. lia.
Defined.

End OrderGatewaySpec.

(** ** User-data stream *)

Module UserDataStreamSpec.
Import Json UserDataStream.

(** A failing wake-up below the bound, on a socket that is not connected:
    the counter goes up and nothing else happens. *)
Lemma keepAliveRound_failing_below_bound s :
  ws_connected_ s = false →
  reconnect_attempts_ s + 1 <= max_reconnect_attempts_ s →
  ∃ s', keepAliveRound failing_round s = (true, s') ∧
        running_ s' = running_ s ∧
        ws_connected_ s' = false ∧
        reconnect_attempts_ s' = reconnect_attempts_ s + 1 ∧
        max_reconnect_attempts_ s' = max_reconnect_attempts_ s ∧
        delivered_ s' = delivered_ s.
Proof.
  intros Hws Hbound. unfold keepAliveRound. simpl.
  rewrite (proj2 (Z.ltb_ge _ _)) by lia.
  unfold ws_disconnect. simpl. rewrite Hws.
  destruct (ws_running_ s); eexists; (split; [reflexivity|]); simpl; done.
Qed.

(** A failing wake-up at the bound: the thread clears [running_] and
    leaves the loop; the callback is not called. *)
Lemma keepAliveRound_failing_at_bound s :
  max_reconnect_attempts_ s < reconnect_attempts_ s + 1 →
  keepAliveRound failing_round s
  = (false, set_running false (set_attempts (reconnect_attempts_ s + 1) s)).
Proof.
  intros Hbound. unfold keepAliveRound. simpl.
  by rewrite (proj2 (Z.ltb_lt _ _)) by lia.
Qed.

Lemma keepAliveThread_failing_rounds (k : nat) : ∀ s,
  running_ s = true →
  ws_connected_ s = false →
  max_reconnect_attempts_ s = reconnect_attempts_ s + Z.of_nat k →
  let s' := keepAliveThread (replicate (S k) failing_round) s in
  running_ s' = false ∧
  delivered_ s' = delivered_ s ∧
  reconnect_attempts_ s' = max_reconnect_attempts_ s + 1.
Proof.
  induction k as [|k IH]; intros s Hrun Hws Hmax.
  - simpl. rewrite Hrun.
    rewrite keepAliveRound_failing_at_bound by lia. simpl.
    repeat split. lia.
  - change (replicate (S (S k)) failing_round)
      with (failing_round :: replicate (S k) failing_round).
    cbn [keepAliveThread]. rewrite Hrun.
    destruct (keepAliveRound_failing_below_bound s Hws) as (s1 & -> & Hr & Hw & Ha & Hm & Hd);
      [lia|].
    destruct (IH s1) as (Hr' & Hd' & Ha'); [congruence | done | lia |].
    repeat split; [done | congruence | congruence].
Qed.

(** C8, on the keep-alive path.  The stream runs with bound [N], its
    socket is not connected, every keep-alive [PUT] fails and no new
    listen key can be created: after [N + 1] wake-ups the thread has
    stopped the stream, and the user-data callback has received nothing,
    in particular no [connection_failure] event. *)
Theorem keepAliveThread_exhaustion_is_silent (n : nat) s :
  running_ s = true →
  ws_connected_ s = false →
  reconnect_attempts_ s = 0 →
  max_reconnect_attempts_ s = Z.of_nat n →
  let s' := keepAliveThread (replicate (S n) failing_round) s in
  running_ s' = false ∧
  delivered_ s' = delivered_ s ∧
  reconnect_attempts_ s' = Z.of_nat n + 1 ∧
  running_ (keepAliveThread (replicate n failing_round) s) = true.
Proof.
  intros Hrun Hws Hzero Hmax.
  destruct (keepAliveThread_failing_rounds n s) as (Hr & Hd & Ha); [done | done | lia |].
  repeat split; [done | done | lia |].
  clear Hr Hd Ha.
  assert (Hgen : ∀ (m : nat) s0, running_ s0 = true → ws_connected_ s0 = false →
            reconnect_attempts_ s0 + Z.of_nat m <= max_reconnect_attempts_ s0 →
            running_ (keepAliveThread (replicate m failing_round) s0) = true).
  { induction m as [|m IH]; intros s0 Hr0 Hw0 Hb0; [done|].
    change (replicate (S m) failing_round) with (failing_round :: replicate m failing_round).
    cbn [keepAliveThread]. rewrite Hr0.
    destruct (keepAliveRound_failing_below_bound s0 Hw0) as (s1 & -> & Hr & Hw & Ha & Hm & Hd);
      [lia|].
    apply IH; [congruence | done | lia]. }
  apply Hgen; [done | done | lia].
Qed.

Lemma keepAliveThread_exhaustion_is_silent_witness :
  let s' := keepAliveThread (replicate 3 failing_round) (idle_stream 2) in
  running_ s' = false ∧
  delivered_ s' = delivered_ (idle_stream 2) ∧
  reconnect_attempts_ s' = Z.of_nat 2 + 1 ∧
  running_ (keepAliveThread (replicate 2 failing_round) (idle_stream 2)) = true.
Proof.
  apply (keepAliveThread_exhaustion_is_silent 2 (idle_stream 2)); reflexivity.
Defined.

(** The other path: when the socket reports a disconnection and the
    counter passes the bound, the stream stops and the callback receives
    the [connection_failure] notification. *)
Lemma onConnectionStateChange_exhaustion_notifies s :
  running_ s = true →
  max_reconnect_attempts_ s < reconnect_attempts_ s + 1 →
  let s' := onConnectionStateChange false s in
  running_ s' = false ∧
  ∃ notification, delivered_ s' = delivered_ s ++ [notification] ∧
                  is_connection_failure notification = true.
Proof.
  intros Hrun Hbound. unfold onConnectionStateChange. rewrite Hrun. simpl.
  rewrite (proj2 (Z.ltb_lt _ _)) by lia. simpl.
  split; [done|]. by eexists.
Qed.

(** Three failed keep-alives under a bound of 2, evaluated. *)
Example keepAliveThread_stops_without_event :
  let s' := keepAliveThread (replicate 3 failing_round) (idle_stream 2) in
  running_ s' = false ∧ reconnect_attempts_ s' = 3 ∧
  filter (λ m, is_connection_failure m = true) (delivered_ s') = [].
Proof. vm_compute. done. Qed.

End UserDataStreamSpec.

(** ** Order book: invariants and the read side *)

Module OrderBookViewsSpec.
Import Machine OrderBook Exchange OrderBookViews OrderBookSpec.

Lemma positive_snapshot_side levels : positive_side (snapshot_side levels).
Proof.
  intros price qty. rewrite snapshot_side_lookup.
  induction levels as [|l rest IH]; simpl; [done|].
  destruct (positive_level l) eqn:Hq.
  - rewrite filter_cons_True by done. simpl.
    destruct (last_level_at price _) as [l'|]; [exact IH|].
    case_decide; [|done]. intros [= <-]. by apply Z.ltb_lt.
  - by rewrite filter_cons_False by (by rewrite Hq).
Qed.

Lemma positive_processPriceLevelUpdates side updates :
  positive_side side → positive_side (processPriceLevelUpdates side updates).
Proof.
  intros Hside price qty. rewrite processPriceLevelUpdates_lookup.
  destruct (last_level_at price updates) as [l|]; simpl; [|apply Hside].
  destruct (0 <? quantity l) eqn:Hq; [|done].
  intros [= <-]. by apply Z.ltb_lt.
Qed.

Lemma positive_call b c : positive_book b → positive_book (call b c).
Proof.
  intros [Hbids Hasks]. destruct c as [id bids asks|first final bids asks]; simpl.
  - split; apply positive_snapshot_side.
  - unfold applyDepthUpdate.
    destruct (negb (is_valid_ b)); [done|].
    destruct (final <? _); [done|].
    destruct (_ <? first); [done|].
    split; simpl; by apply positive_processPriceLevelUpdates.
Qed.

(** X1. Whatever snapshots and depth updates a book receives after its
    construction, in whatever order and whether accepted or not, it never
    stores a level with a zero or negative quantity. *)
Theorem book_quantities_stay_positive symbol ticker_id cs :
  positive_book (calls (new_book symbol ticker_id) cs).
Proof.
  unfold calls.
  assert (H : ∀ b, positive_book b → positive_book (foldl call b cs)).
  { induction cs as [|c cs IH]; intros b Hb; simpl; [done|].
    by apply IH, positive_call. }
  apply H. split; intros price qty; simpl; by rewrite lookup_empty.
Qed.

(** X2. A depth update that is rejected changes nothing of the book but,
    possibly, [needs_refresh_], which it can only set: both sides, the
    last update id and the validity flag are as before. *)
Theorem rejected_update_keeps_book first_id final_id bids asks b b' :
  applyDepthUpdate first_id final_id bids asks b = (false, b') →
  bids_ b' = bids_ b ∧ asks_ b' = asks_ b ∧
  last_update_id_ b' = last_update_id_ b ∧
  is_valid_ b' = is_valid_ b ∧
  (needs_refresh_ b = true → needs_refresh_ b' = true) ∧
  (b' = b ∨ b' = set_needs_refresh b).
Proof.
  unfold applyDepthUpdate.
  destruct (negb (is_valid_ b)); [intros [= <-]; by auto 10|].
  destruct (final_id <? _); [intros [= <-]; by auto 10|].
  destruct (_ <? first_id); [intros [= <-]; by auto 10|].
  discriminate.
Qed.

Lemma rejected_update_keeps_book_witness :
  let r := applyDepthUpdate 105 106 [] [] s1_book in
  bids_ r.2 = bids_ s1_book ∧ asks_ r.2 = asks_ s1_book ∧
  last_update_id_ r.2 = last_update_id_ s1_book ∧
  is_valid_ r.2 = is_valid_ s1_book ∧
  (needs_refresh_ s1_book = true → needs_refresh_ r.2 = true) ∧
  (r.2 = s1_book ∨ r.2 = set_needs_refresh s1_book).
Proof.
  apply (rejected_update_keeps_book 105 106 [] [] s1_book). reflexivity.
Defined.

(** X3. Replaying an event: once a depth update with final id below
    [2^64 - 1] has been accepted, the same event offered again is dropped
    as stale, and the book (flags included) stays exactly as the first
    application left it. *)
Theorem accepted_update_is_not_replayed first_id final_id bids asks b b' :
  0 <= final_id < uint64_max →
  applyDepthUpdate first_id final_id bids asks b = (true, b') →
  applyDepthUpdate first_id final_id bids asks b' = (false, b').
Proof.
  intros Hrange. unfold applyDepthUpdate at 1.
  destruct (is_valid_ b) eqn:Hvalid; simpl; [|discriminate].
  destruct (final_id <? _); [discriminate|].
  destruct (_ <? first_id); [discriminate|].
  intros [= <-]. unfold applyDepthUpdate. simpl.
  rewrite wrap64_small by (unfold uint64_max in Hrange; lia).
  by rewrite (proj2 (Z.ltb_lt _ _)) by lia.
Qed.

Lemma accepted_update_is_not_replayed_witness :
  let b' := (applyDepthUpdate 101 101 [mkLevel 50000 0] [mkLevel 50010 3] s1_book).2 in
  applyDepthUpdate 101 101 [mkLevel 50000 0] [mkLevel 50010 3] b' = (false, b').
Proof.
  apply (accepted_update_is_not_replayed 101 101
           [mkLevel 50000 0] [mkLevel 50010 3] s1_book).
  - vm_compute. split; [discriminate | reflexivity].
  - reflexivity.
Defined.


#[local] Instance price_le_trans : Transitive price_le.
Proof. intros a b c. unfold price_le. lia. Qed.
#[local] Instance price_le_total : Total price_le.
Proof. intros a b. unfold price_le. lia. Qed.
#[local] Instance price_ge_trans : Transitive price_ge.
Proof. intros a b c. unfold price_ge. lia. Qed.
#[local] Instance price_ge_total : Total price_ge.
Proof. intros a b. unfold price_ge. lia. Qed.

Lemma elem_of_descending side price qty :
  (price, qty) ∈ descending side ↔ side !! price = Some qty.
Proof.
  unfold descending. rewrite merge_sort_Permutation. apply elem_of_map_to_list.
Qed.

Lemma elem_of_ascending side price qty :
  (price, qty) ∈ ascending side ↔ side !! price = Some qty.
Proof.
  unfold ascending. rewrite merge_sort_Permutation. apply elem_of_map_to_list.
Qed.

Lemma length_descending side : length (descending side) = size side.
Proof.
  unfold descending. rewrite merge_sort_Permutation. apply length_map_to_list.
Qed.

Lemma length_ascending side : length (ascending side) = size side.
Proof.
  unfold ascending. rewrite merge_sort_Permutation. apply length_map_to_list.
Qed.

Lemma NoDup_prices_descending side : NoDup (descending side).*1.
Proof.
  unfold descending. rewrite merge_sort_Permutation. apply NoDup_fst_map_to_list.
Qed.

Lemma NoDup_prices_ascending side : NoDup (ascending side).*1.
Proof.
  unfold ascending. rewrite merge_sort_Permutation. apply NoDup_fst_map_to_list.
Qed.

(** In a list sorted by price whose prices are pairwise different, a
    later entry has a strictly later price. *)
Lemma sorted_strict (R : relation (Z * Z)) (l : list (Z * Z)) i j a c :
  StronglySorted R l → NoDup l.*1 → (i < j)%nat →
  l !! i = Some a → l !! j = Some c → R a c ∧ a.1 ≠ c.1.
Proof.
  intros Hsorted. revert i j.
  induction Hsorted as [|x l Hl IH Hx]; intros i j Hdup Hij Hi Hj; [done|].
  rewrite fmap_cons in Hdup. apply NoDup_cons in Hdup as [Hnotin Hdup].
  destruct j as [|j]; [lia|]. simpl in Hj.
  destruct i as [|i]; simpl in Hi.
  - injection Hi as ->. split.
    + eapply Forall_forall in Hx; [exact Hx|]. by eapply list_elem_of_lookup_2.
    + intros Heq. apply Hnotin. rewrite Heq.
      apply list_elem_of_fmap. exists c. split; [done|]. by eapply list_elem_of_lookup_2.
  - eapply (IH i j); [done | lia | done | done].
Qed.

(** X4. On a valid book [getBestBidPrice] is a price of the bid side and
    no bid is priced higher; [getBestAskPrice] is a price of the ask side
    and no ask is priced lower.  An empty side, and any side of a book
    that is not valid, give [Price_INVALID]. *)
Theorem best_prices_are_extremal `{C : Constants} b :
  (is_valid_ b = false →
     getBestBidPrice b = Price_INVALID ∧ getBestAskPrice b = Price_INVALID) ∧
  (is_valid_ b = true →
     (bids_ b = ∅ → getBestBidPrice b = Price_INVALID) ∧
     (asks_ b = ∅ → getBestAskPrice b = Price_INVALID) ∧
     (∀ price qty, bids_ b !! price = Some qty →
        is_Some (bids_ b !! getBestBidPrice b) ∧ price <= getBestBidPrice b) ∧
     (∀ price qty, asks_ b !! price = Some qty →
        is_Some (asks_ b !! getBestAskPrice b) ∧ getBestAskPrice b <= price)).
Proof.
  unfold getBestBidPrice, getBestAskPrice. split; [by intros ->|].
  intros ->. simpl. repeat split.
  - intros ->. unfold descending. by rewrite map_to_list_empty.
  - intros ->. unfold ascending. by rewrite map_to_list_empty.
  - apply elem_of_descending in H.
    destruct (descending (bids_ b)) as [|[p0 q0] rest] eqn:Hd; [by apply elem_of_nil in H|].
    exists q0. apply elem_of_descending. rewrite Hd. by left.
  - apply elem_of_descending in H.
    pose proof (StronglySorted_merge_sort price_ge (map_to_list (bids_ b))) as Hs.
    fold (descending (bids_ b)) in Hs.
    destruct (descending (bids_ b)) as [|[p0 q0] rest]; [by apply elem_of_nil in H|].
    apply elem_of_cons in H as [[= -> ->]|H]; [done|].
    apply StronglySorted_inv in Hs as [_ Hall].
    eapply Forall_forall in Hall; [|exact H]. exact Hall.
  - apply elem_of_ascending in H.
    destruct (ascending (asks_ b)) as [|[p0 q0] rest] eqn:Hd; [by apply elem_of_nil in H|].
    exists q0. apply elem_of_ascending. rewrite Hd. by left.
  - apply elem_of_ascending in H.
    pose proof (StronglySorted_merge_sort price_le (map_to_list (asks_ b))) as Hs.
    fold (ascending (asks_ b)) in Hs.
    destruct (ascending (asks_ b)) as [|[p0 q0] rest]; [by apply elem_of_nil in H|].
    apply elem_of_cons in H as [[= -> ->]|H]; [done|].
    apply StronglySorted_inv in Hs as [_ Hall].
    eapply Forall_forall in Hall; [|exact H]. exact Hall.
Qed.


Lemma best_prices_are_extremal_witness :
  is_valid_ s1_book = true ∧
  is_Some (bids_ s1_book !! getBestBidPrice (C := OrderGateway.reference_constants) s1_book) ∧
  50000 <= getBestBidPrice (C := OrderGateway.reference_constants) s1_book.
Proof.
  split; [reflexivity|].
  refine (proj1 (proj2 (proj2 (proj2
    (best_prices_are_extremal (C := OrderGateway.reference_constants) s1_book) _)))
    50000 1 _); reflexivity.
Defined.

Lemma wrap32_succ priority i :
  wrap32 (wrap32 (priority + 1) + Z.of_nat i) = wrap32 (priority + Z.of_nat (S i)).
Proof.
  unfold wrap32. rewrite Zplus_mod_idemp_l. f_equal. lia.
Qed.

Lemma add_updates_lookup b side levels : ∀ priority i,
  add_updates b side priority levels !! i
  = add_update b side (if i is O then priority else wrap32 (priority + Z.of_nat i))
      <$> levels !! i.
Proof.
  induction levels as [|level rest IH]; intros priority i; [done|].
  destruct i as [|i]; [done|].
  simpl add_updates. rewrite !lookup_cons. rewrite IH.
  destruct i as [|i].
  - f_equal. 
  - by rewrite wrap32_succ.
Qed.

Lemma length_add_updates b side levels : ∀ priority,
  length (add_updates b side priority levels) = length levels.
Proof. induction levels as [|level rest IH]; intros priority; simpl; [done|]. by rewrite IH. Qed.

Section Generated.
Context `{C : Constants}.
Variable blank : MEMarketUpdate.

(** X5. [generateMarketUpdates] appends nothing when the book is not
    valid.  On a valid book it appends one [CLEAR] for the book's ticker
    followed by one [ADD] per stored bid and then one per stored ask,
    [1 + |bids| + |asks|] updates in all; every [ADD] carries the book's
    ticker, the side, and a price with the quantity stored for it, and
    every stored level has its [ADD]. *)
Theorem generated_updates_mirror_book b updates :
  (is_valid_ b = false → generateMarketUpdates blank b updates = updates) ∧
  (is_valid_ b = true →
     ∃ bid_adds ask_adds,
       generateMarketUpdates blank b updates
         = updates ++ [clear_update blank b] ++ bid_adds ++ ask_adds ∧
       upd_type_ (clear_update blank b) = CLEAR ∧
       upd_ticker_id_ (clear_update blank b) = OrderBook.ticker_id_ b ∧
       length bid_adds = size (bids_ b) ∧
       length ask_adds = size (asks_ b) ∧
       (∀ u, u ∈ bid_adds →
          upd_type_ u = ADD ∧ upd_side_ u = BUY ∧
          upd_ticker_id_ u = OrderBook.ticker_id_ b ∧
          bids_ b !! upd_price_ u = Some (upd_qty_ u) ∧
          upd_order_id_ u = wrap64 (upd_price_ u)) ∧
       (∀ u, u ∈ ask_adds →
          upd_type_ u = ADD ∧ upd_side_ u = SELL ∧
          upd_ticker_id_ u = OrderBook.ticker_id_ b ∧
          asks_ b !! upd_price_ u = Some (upd_qty_ u) ∧
          upd_order_id_ u = wrap64 (upd_price_ u)) ∧
       (∀ price qty, bids_ b !! price = Some qty →
          ∃ u, u ∈ bid_adds ∧ upd_price_ u = price ∧ upd_qty_ u = qty) ∧
       (∀ price qty, asks_ b !! price = Some qty →
          ∃ u, u ∈ ask_adds ∧ upd_price_ u = price ∧ upd_qty_ u = qty)).
Proof.
  unfold generateMarketUpdates. split; [by intros ->|].
  intros ->. simpl.
  exists (add_updates b BUY 1 (descending (bids_ b))),
         (add_updates b SELL 1 (ascending (asks_ b))).
  assert (Hin : ∀ side levels priority u,
            u ∈ add_updates b side priority levels →
            ∃ level, level ∈ levels ∧ upd_type_ u = ADD ∧ upd_side_ u = side ∧
              upd_ticker_id_ u = OrderBook.ticker_id_ b ∧
              upd_price_ u = level.1 ∧ upd_qty_ u = level.2 ∧
              upd_order_id_ u = wrap64 level.1).
  { intros side levels priority u Hu.
    apply list_elem_of_lookup in Hu as [i Hi].
    rewrite add_updates_lookup in Hi.
    destruct (levels !! i) as [level|] eqn:Hlevel; [|done].
    injection Hi as <-. exists level. split; [by eapply list_elem_of_lookup_2|done]. }
  assert (Hout : ∀ side levels priority level,
            level ∈ levels →
            ∃ u, u ∈ add_updates b side priority levels ∧
                 upd_price_ u = level.1 ∧ upd_qty_ u = level.2).
  { intros side levels priority level Hl.
    apply list_elem_of_lookup in Hl as [i Hi].
    eexists. split.
    - eapply list_elem_of_lookup_2. rewrite add_updates_lookup, Hi. reflexivity.
    - done. }
  split; [done|]. split; [done|]. split; [done|].
  split; [by rewrite length_add_updates, length_descending|].
  split; [by rewrite length_add_updates, length_ascending|].
  split.
  { intros u Hu. apply Hin in Hu as ([p q] & Hl & Ht & Hs & Hk & Hp & Hq & Ho).
    apply elem_of_descending in Hl. simpl in *. by rewrite Hp, Hq. }
  split.
  { intros u Hu. apply Hin in Hu as ([p q] & Hl & Ht & Hs & Hk & Hp & Hq & Ho).
    apply elem_of_ascending in Hl. simpl in *. by rewrite Hp, Hq. }
  split.
  - intros price qty H. apply elem_of_descending in H.
    by apply (Hout BUY _ 1) in H.
  - intros price qty H. apply elem_of_ascending in H.
    by apply (Hout SELL _ 1) in H.
Qed.

(** X6. The order of the generated [ADD]s on a valid book holding fewer
    than [2^32 - 1] levels a side: the bid at position [i] has priority
    [i + 1], and of two bids the one generated later has the strictly
    lower price; the asks likewise, with strictly rising prices. *)
Theorem generated_updates_are_ordered b :
  is_valid_ b = true →
  Z.of_nat (size (bids_ b)) < 2 ^ 32 - 1 →
  Z.of_nat (size (asks_ b)) < 2 ^ 32 - 1 →
  let bid_adds := add_updates b BUY 1 (descending (bids_ b)) in
  let ask_adds := add_updates b SELL 1 (ascending (asks_ b)) in
  generateMarketUpdates blank b []
    = [clear_update blank b] ++ bid_adds ++ ask_adds ∧
  (∀ i u, bid_adds !! i = Some u → upd_priority_ u = Z.of_nat i + 1) ∧
  (∀ i u, ask_adds !! i = Some u → upd_priority_ u = Z.of_nat i + 1) ∧
  (∀ i j u v, (i < j)%nat → bid_adds !! i = Some u → bid_adds !! j = Some v →
     upd_price_ v < upd_price_ u) ∧
  (∀ i j u v, (i < j)%nat → ask_adds !! i = Some u → ask_adds !! j = Some v →
     upd_price_ u < upd_price_ v).
Proof.
  intros Hvalid Hbids Hasks bid_adds ask_adds.
  assert (Hpriority : ∀ side levels i u,
            Z.of_nat (length levels) < 2 ^ 32 - 1 →
            add_updates b side 1 levels !! i = Some u →
            upd_priority_ u = Z.of_nat i + 1).
  { intros side levels i u Hlen Hu.
    pose proof (lookup_lt_Some _ _ _ Hu) as Hi. rewrite length_add_updates in Hi.
    rewrite add_updates_lookup in Hu.
    destruct (levels !! i) as [level|]; [|done]. injection Hu as <-. simpl.
    destruct i as [|i]; [done|]. unfold wrap32. rewrite Z.mod_small; lia. }
  assert (Hprice : ∀ side levels i u,
            add_updates b side 1 levels !! i = Some u →
            ∃ level, levels !! i = Some level ∧ upd_price_ u = level.1).
  { intros side levels i u Hu. rewrite add_updates_lookup in Hu.
    destruct (levels !! i) as [level|]; [|done]. injection Hu as <-. by exists level. }
  split. { unfold generateMarketUpdates. by rewrite Hvalid. }
  split. { intros i u. apply Hpriority. by rewrite length_descending. }
  split. { intros i u. apply Hpriority. by rewrite length_ascending. }
  split.
  - intros i j u v Hij Hu Hv.
    apply Hprice in Hu as (lu & Hlu & ->). apply Hprice in Hv as (lv & Hlv & ->).
    destruct (sorted_strict price_ge (descending (bids_ b)) i j lu lv) as [Hge Hne];
      auto using NoDup_prices_descending.
    { apply StronglySorted_merge_sort; apply _. }
    unfold price_ge in Hge. lia.
  - intros i j u v Hij Hu Hv.
    apply Hprice in Hu as (lu & Hlu & ->). apply Hprice in Hv as (lv & Hlv & ->).
    destruct (sorted_strict price_le (ascending (asks_ b)) i j lu lv) as [Hle Hne];
      auto using NoDup_prices_ascending.
    { apply StronglySorted_merge_sort; apply _. }
    unfold price_le in Hle. lia.
Qed.

End Generated.

Lemma generated_updates_are_ordered_witness :
  let b := (applySnapshot 7 [mkLevel 10 1; mkLevel 30 2; mkLevel 20 5] [] (new_book "BTCUSDT" 1)).2 in
  let bid_adds := add_updates b BUY 1 (descending (bids_ b)) in
  generateMarketUpdates OrderGateway.no_update b []
    = [clear_update OrderGateway.no_update b] ++ bid_adds ++ [] ∧
  ∀ i j u v, (i < j)%nat → bid_adds !! i = Some u → bid_adds !! j = Some v →
     upd_price_ v < upd_price_ u.
Proof.
  intros b.
  pose proof (generated_updates_are_ordered OrderGateway.no_update b) as Hordered.
  refine (let H := Hordered _ _ _ in
          conj (proj1 H) (proj1 (proj2 (proj2 (proj2 H))))).
  - reflexivity.
  - vm_compute. reflexivity.
  - vm_compute. reflexivity.
Defined.

Lemma generated_updates_mirror_book_witness :
  generateMarketUpdates OrderGateway.no_update (new_book "BTCUSDT" 1) [] = [].
Proof.
  refine (proj1 (generated_updates_mirror_book OrderGateway.no_update
                   (new_book "BTCUSDT" 1) []) _).
  reflexivity.
Defined.

(** X7. Reading back an accepted depth update: at every price the
    quantity is the one of the last level the update quotes there, zero
    when that level's quantity is not positive, and the quantity from
    before the update where it quotes none.  A side that is neither
    [BUY] nor [SELL] reads the asks. *)
Theorem accepted_update_reads_back first_id final_id bids asks b b' :
  applyDepthUpdate first_id final_id bids asks b = (true, b') →
  ∀ p,
    getQuantityAtPrice p BUY b'
      = match last_level_at p bids with
        | Some l => if 0 <? quantity l then quantity l else 0
        | None => getQuantityAtPrice p BUY b
        end ∧
    getQuantityAtPrice p SELL b'
      = match last_level_at p asks with
        | Some l => if 0 <? quantity l then quantity l else 0
        | None => getQuantityAtPrice p SELL b
        end ∧
    getQuantityAtPrice p INVALID b' = getQuantityAtPrice p SELL b'.
Proof.
  unfold applyDepthUpdate.
  destruct (is_valid_ b) eqn:Hvalid; simpl; [|discriminate].
  destruct (final_id <? _); [discriminate|].
  destruct (_ <? first_id); [discriminate|].
  intros [= <-] p. unfold getQuantityAtPrice. simpl. rewrite Hvalid. simpl.
  rewrite !processPriceLevelUpdates_lookup.
  repeat split.
  - destruct (last_level_at p bids) as [l|]; simpl; [|done].
    by destruct (0 <? quantity l).
  - destruct (last_level_at p asks) as [l|]; simpl; [|done].
    by destruct (0 <? quantity l).
Qed.

Lemma accepted_update_reads_back_witness :
  let b' := (applyDepthUpdate 101 101 [mkLevel 50000 0] [mkLevel 50010 3] s1_book).2 in
  getQuantityAtPrice 50000 BUY b' = 0 ∧ getQuantityAtPrice 50010 SELL b' = 3.
Proof.
  intros b'.
  pose proof (accepted_update_reads_back 101 101 [mkLevel 50000 0] [mkLevel 50010 3]
                s1_book b' eq_refl) as H.
  split; [exact (proj1 (H 50000)) | exact (proj1 (proj2 (H 50010)))].
Defined.

(** Scenario S1 of the specification, generated after the diff. *)
Example generated_updates_after_s1 :
  generateMarketUpdates OrderGateway.no_update
    (applyDepthUpdate 101 101 [mkLevel 50000 0] [mkLevel 50010 3] s1_book).2 []
  = [mkUpdate CLEAR 1 INVALID 0 0 0 0; mkUpdate ADD 1 SELL 50010 3 1 50010].
Proof. vm_compute. reflexivity. Qed.

End OrderBookViewsSpec.

(** ** Market-data consumer *)

Module MarketDataConsumerSpec.
Import Machine Outcome Float Json Exchange OrderBook OrderBookViews.
Import MarketDataConsumer OrderBookViewsSpec.

Lemma num_elements_push updates : ∀ q : LFQueue.t MEMarketUpdate,
  LFQueue.num_elements_ (foldl (λ q update, LFQueue.write update q) q updates)
  = (LFQueue.num_elements_ q + length updates)%nat.
Proof.
  induction updates as [|u rest IH]; intros q; simpl; [lia|].
  rewrite IH. simpl. lia.
Qed.

Section Handlers.
Context `{F : Float64} `{C : Constants}.
Variable blank : MEMarketUpdate.

Lemma length_generateMarketUpdates b :
  is_valid_ b = true →
  length (generateMarketUpdates blank b [])
  = (1 + size (bids_ b) + size (asks_ b))%nat.
Proof.
  intros Hvalid. unfold generateMarketUpdates. rewrite Hvalid. simpl.
  rewrite length_app, !length_add_updates, length_descending, length_ascending. lia.
Qed.

Lemma applyDepthUpdate_valid first final bids asks b :
  is_valid_ (applyDepthUpdate first final bids asks b).2 = is_valid_ b.
Proof.
  unfold applyDepthUpdate.
  destruct (negb (is_valid_ b)); [done|].
  destruct (final <? _); [done|]. by destruct (_ <? first).
Qed.

Lemma applyDepthUpdate_accepts_valid first final bids asks b :
  (applyDepthUpdate first final bids asks b).1 = true → is_valid_ b = true.
Proof.
  unfold applyDepthUpdate. by destruct (is_valid_ b).
Qed.

(** X8. A depth frame never touches the ticker table or the book of
    another symbol.  It either leaves the consumer as it was (unknown
    symbol, text that does not parse, missing or ill-typed field), or it
    has offered one update to the symbol's book: a rejected update
    writes nothing to the queue, an accepted one is followed by the
    whole book, [1 + |bids| + |asks|] market updates. *)
Theorem depth_frame_publishes_iff_accepted parse symbol message c c' :
  handleDepthMessage blank parse symbol message c = Some c' →
  symbols_ c' = symbols_ c ∧
  symbol_to_ticker_id_ c' = symbol_to_ticker_id_ c ∧
  (∀ other, other ≠ symbol → order_books_ c' !! other = order_books_ c !! other) ∧
  (c' = c ∨
   ∃ book first_id final_id bids asks,
     order_books_ c !! symbol = Some book ∧
     let outcome := applyDepthUpdate first_id final_id bids asks book in
     order_books_ c' !! symbol = Some outcome.2 ∧
     (outcome.1 = false → incoming_md_updates_ c' = incoming_md_updates_ c) ∧
     (outcome.1 = true →
        incoming_md_updates_ c'
          = foldl (λ q update, LFQueue.write update q) (incoming_md_updates_ c)
              (generateMarketUpdates blank outcome.2 []) ∧
        LFQueue.num_elements_ (incoming_md_updates_ c')
          = (LFQueue.num_elements_ (incoming_md_updates_ c)
             + 1 + size (bids_ outcome.2) + size (asks_ outcome.2))%nat)).
Proof.
  unfold handleDepthMessage, guarded.
  destruct (parse message) as [json_data| |]; simpl;
    [|intros [= <-]; by auto|discriminate].
  unfold processDepthUpdate.
  destruct (order_books_ c !! symbol) as [book|] eqn:Hbook;
    [|intros [= <-]; by auto].
  destruct (at_key "U" json_data ≫= get_uint64) as [first_id| |]; simpl;
    [|intros [= <-]; by auto|discriminate].
  destruct (at_key "u" json_data ≫= get_uint64) as [final_id| |]; simpl;
    [|intros [= <-]; by auto|discriminate].
  destruct (at_key "b" json_data ≫= parsePriceLevels) as [bids| |]; simpl;
    [|intros [= <-]; by auto|discriminate].
  destruct (at_key "a" json_data ≫= parsePriceLevels) as [asks| |]; simpl;
    [|intros [= <-]; by auto|discriminate].
  intros [= <-]. unfold publish_book.
  destruct (applyDepthUpdate first_id final_id bids asks book)
    as [success book'] eqn:Houtcome.
  simpl.
  split; [by destruct success|]. split; [by destruct success|].
  split.
  { intros other Hother. destruct success; simpl; by rewrite lookup_insert_ne. }
  right. exists book, first_id, final_id, bids, asks.
  split; [done|]. rewrite Houtcome. simpl.
  split; [destruct success; simpl; by rewrite lookup_insert_eq|].
  split; [by intros ->|].
  intros ->. simpl. split; [done|].
  rewrite num_elements_push, length_generateMarketUpdates; [lia|].
  pose proof (applyDepthUpdate_valid first_id final_id bids asks book) as Hvalid.
  pose proof (applyDepthUpdate_accepts_valid first_id final_id bids asks book) as Haccept.
  rewrite Houtcome in Hvalid, Haccept. simpl in *. rewrite Hvalid. by apply Haccept.
Qed.


(** X9. A trade frame never touches a book or the ticker table.  When
    the symbol is known and the event has a boolean [m] and textual [p]
    and [q], exactly one [TRADE] update is written, for the symbol's
    ticker, on the [SELL] side when the buyer is the maker and on the
    [BUY] side otherwise; in every other case that returns, nothing is
    written. *)
Theorem trade_frame_publishes_one_trade parse symbol message c c' :
  handleTradeMessage blank parse symbol message c = Some c' →
  order_books_ c' = order_books_ c ∧
  symbol_to_ticker_id_ c' = symbol_to_ticker_id_ c ∧
  (c' = c ∨
   ∃ ticker_id trade_json is_buyer_maker price_str qty_str,
     symbol_to_ticker_id_ c !! symbol = Some ticker_id ∧
     parse message = Ok trade_json ∧
     at_key "m" trade_json = Ok (JBool is_buyer_maker) ∧
     at_key "p" trade_json = Ok (JString price_str) ∧
     at_key "q" trade_json = Ok (JString qty_str) ∧
     incoming_md_updates_ c'
       = LFQueue.write
           (mkUpdate TRADE ticker_id (if is_buyer_maker then SELL else BUY)
              (stringPriceToInternal price_str) (stringQtyToInternal qty_str)
              (upd_priority_ blank) (upd_order_id_ blank))
           (incoming_md_updates_ c)).
Proof.
  unfold handleTradeMessage, guarded.
  destruct (parse message) as [trade_json| |] eqn:Hparse; simpl;
    [|intros [= <-]; by auto|discriminate].
  unfold processTradeUpdate.
  destruct (symbol_to_ticker_id_ c !! symbol) as [ticker_id|] eqn:Hticker;
    [|intros [= <-]; by auto].
  destruct (at_key "m" trade_json) as [m| |] eqn:Hm; simpl;
    [|intros [= <-]; by auto|discriminate].
  destruct m as [|is_buyer_maker| | | | |]; simpl; try (intros [= <-]; by auto).
  destruct (at_key "p" trade_json) as [p| |] eqn:Hp; simpl;
    [|intros [= <-]; by auto|discriminate].
  destruct p as [| | | |price_str| |]; simpl; try (intros [= <-]; by auto).
  destruct (at_key "q" trade_json) as [q| |] eqn:Hq; simpl;
    [|intros [= <-]; by auto|discriminate].
  destruct q as [| | | |qty_str| |]; simpl; try (intros [= <-]; by auto).
  intros [= <-]. simpl. split; [done|]. split; [done|]. right.
  by exists ticker_id, trade_json, is_buyer_maker, price_str, qty_str.
Qed.

Lemma parse_levels_fold entries : ∀ acc,
  fold_result parse_level acc ((λ entry, level_json entry []) <$> entries)
  = Ok (acc ++ filter (λ l, price l ≠ Price_INVALID)
                 ((λ entry, mkLevel (stringPriceToInternal entry.1)
                                    (stringQtyToInternal entry.2)) <$> entries)).
Proof.
  induction entries as [|[p q] rest IH]; intros acc; simpl.
  - by rewrite app_nil_r.
  - unfold parse_level at 1. simpl. 
    case_bool_decide as Hprice.
    + rewrite IH, filter_cons_True; [|exact Hprice]. by rewrite <- app_assoc.
    + rewrite IH, filter_cons_False; [done|]. intros Hp. by apply Hp.
Qed.

Lemma parse_levels_valid levels : ∀ acc parsed,
  fold_result parse_level acc levels = Ok parsed →
  Forall (λ l, price l ≠ Price_INVALID) acc →
  Forall (λ l, price l ≠ Price_INVALID) parsed ∧
  (length parsed <= length acc + length levels)%nat.
Proof.
  induction levels as [|level rest IH]; intros acc parsed; simpl.
  - intros [= <-] Hacc. split; [done|lia].
  - unfold parse_level at 1.
    destruct (at_index 0 level ≫= get_string) as [price_str| |]; simpl; try done.
    destruct (at_index 1 level ≫= get_string) as [qty_str| |]; simpl; try done.
    intros Hrest Hacc. apply IH in Hrest.
    + destruct Hrest as [Hvalid Hlen]. split; [done|].
      case_bool_decide; rewrite ?length_app in Hlen; simpl in Hlen; lia.
    + case_bool_decide; [|done]. apply Forall_app. split; [done|].
      by apply Forall_singleton.
Qed.

(** X10. [parsePriceLevels] returns at most one level per element and
    never one priced [Price_INVALID].  On an array of [[price, quantity]]
    pairs of texts it returns, in order, the converted pairs whose price
    is not [Price_INVALID]; a quantity text that [std::stod] rejects
    comes out as the quantity zero. *)
Theorem parsePriceLevels_drops_invalid_prices :
  (∀ levels parsed,
     parsePriceLevels levels = Ok parsed →
     Forall (λ l, price l ≠ Price_INVALID) parsed ∧
     (length parsed <= length (elements levels))%nat) ∧
  (∀ entries,
     parsePriceLevels (JArray ((λ entry, level_json entry []) <$> entries))
     = Ok (filter (λ l, price l ≠ Price_INVALID)
             ((λ entry, mkLevel (stringPriceToInternal entry.1)
                                (stringQtyToInternal entry.2)) <$> entries))) ∧
  (∀ price_str qty_str e,
     stod qty_str = Throw e →
     stringPriceToInternal price_str ≠ Price_INVALID →
     parsePriceLevels (JArray [level_json (price_str, qty_str) []])
     = Ok [mkLevel (stringPriceToInternal price_str) 0]).
Proof.
  split; [|split].
  - intros levels parsed Hparsed. unfold parsePriceLevels in Hparsed.
    apply parse_levels_valid in Hparsed; [|done]. simpl in Hparsed. done.
  - intros entries. unfold parsePriceLevels. simpl. by rewrite parse_levels_fold.
  - intros price_str qty_str e Hqty Hprice. unfold parsePriceLevels. simpl.
    unfold parse_level. simpl. unfold stringQtyToInternal at 1. rewrite Hqty.
    by rewrite bool_decide_true.
Qed.


Lemma depth_frame_before_snapshot parse symbol message c c' :
  all_books_invalid c →
  handleDepthMessage blank parse symbol message c = Some c' →
  all_books_invalid c' ∧ incoming_md_updates_ c' = incoming_md_updates_ c.
Proof.
  intros Hinvalid. unfold handleDepthMessage, guarded.
  destruct (parse message) as [json_data| |]; simpl;
    [|intros [= <-]; by auto|discriminate].
  unfold processDepthUpdate.
  destruct (order_books_ c !! symbol) as [book|] eqn:Hbook;
    [|intros [= <-]; by auto].
  destruct (at_key "U" json_data ≫= get_uint64) as [first_id| |]; simpl;
    [|intros [= <-]; by auto|discriminate].
  destruct (at_key "u" json_data ≫= get_uint64) as [final_id| |]; simpl;
    [|intros [= <-]; by auto|discriminate].
  destruct (at_key "b" json_data ≫= parsePriceLevels) as [bids| |]; simpl;
    [|intros [= <-]; by auto|discriminate].
  destruct (at_key "a" json_data ≫= parsePriceLevels) as [asks| |]; simpl;
    [|intros [= <-]; by auto|discriminate].
  intros [= <-]. unfold publish_book, applyDepthUpdate.
  rewrite (Hinvalid symbol book Hbook). simpl. split; [|done].
  intros other book'. simpl. rewrite lookup_insert.
  case_decide as Hother; [|apply Hinvalid].
  intros [= <-]. simpl. by apply (Hinvalid symbol).
Qed.

Variable to_TickerId : Z → Z.

Lemma initializeSymbolToTickerMap_lookup symbols : ∀ i ids symbol,
  (symbol ∉ symbols →
     initializeSymbolToTickerMap to_TickerId i symbols ids !! symbol = ids !! symbol) ∧
  (∀ j, symbols !! j = Some symbol →
        (∀ k, (j < k)%nat → symbols !! k ≠ Some symbol) →
        initializeSymbolToTickerMap to_TickerId i symbols ids !! symbol
        = Some (to_TickerId (Z.of_nat (i + j) + 1))).
Proof.
  induction symbols as [|first rest IH]; intros i ids symbol; simpl.
  - split; [done|]. intros j Hj. by rewrite lookup_nil in Hj.
  - destruct (IH (S i) (<[first := to_TickerId (Z.of_nat i + 1)]> ids) symbol)
      as [IHout IHin].
    split.
    + intros Hout. apply not_elem_of_cons in Hout as [Hne Hout].
      rewrite IHout by done. by rewrite lookup_insert_ne.
    + intros [|j] Hj Hlast; simpl in Hj.
      * injection Hj as ->. rewrite IHout.
        { rewrite lookup_insert_eq. do 3 f_equal. lia. }
        intros Hin. apply list_elem_of_lookup in Hin as [k Hk].
        apply (Hlast (S k)); [lia|done].
      * rewrite (IHin j Hj).
        { do 3 f_equal. lia. }
        intros k Hk. apply (Hlast (S k)). lia.
Qed.

Lemma create_books_lookup (ids : gmap string Z) symbols symbol :
  ∀ books : gmap string BinanceOrderBook,
  foldl (λ books symbol,
           <[symbol := new_book symbol (default 0 (ids !! symbol))]> books)
        books symbols !! symbol
  = if decide (symbol ∈ symbols)
    then Some (new_book symbol (default 0 (ids !! symbol)))
    else books !! symbol.
Proof.
  induction symbols as [|first rest IH]; intros books; simpl.
  - destruct (decide (symbol ∈ [])) as [Hin|]; [|done]. by apply elem_of_nil in Hin.
  - rewrite IH. destruct (decide (symbol ∈ rest)) as [Hrest|Hrest].
    + rewrite decide_True; [done|]. by apply elem_of_cons; right.
    + destruct (decide (symbol = first)) as [->|Hne].
      * rewrite decide_True by apply list_elem_of_here. by rewrite lookup_insert_eq.
      * rewrite decide_False; [by rewrite lookup_insert_ne|].
        intros Hin. apply elem_of_cons in Hin as [?|?]; done.
Qed.

(** X11. The constructor numbers the symbols by position: the symbol
    whose last occurrence in the list is at index [i] gets the ticker id
    [i + 1] (cast to [TickerId]) and a book with that id that is empty,
    not valid and flagged for refresh; a symbol that is not listed gets
    neither an id nor a book. *)
Theorem consumer_numbers_symbols_by_position market_updates symbols :
  let c := new_consumer to_TickerId market_updates symbols in
  (∀ i symbol,
     symbols !! i = Some symbol →
     (∀ j, (i < j)%nat → symbols !! j ≠ Some symbol) →
     symbol_to_ticker_id_ c !! symbol = Some (to_TickerId (Z.of_nat i + 1)) ∧
     order_books_ c !! symbol
       = Some (new_book symbol (to_TickerId (Z.of_nat i + 1))) ∧
     isOrderBookValid symbol c = false ∧
     getBestBidPrice symbol c = Price_INVALID ∧
     getBestAskPrice symbol c = Price_INVALID) ∧
  (∀ symbol,
     symbol ∉ symbols →
     symbol_to_ticker_id_ c !! symbol = None ∧ order_books_ c !! symbol = None) ∧
  incoming_md_updates_ c = market_updates.
Proof.
  intros c. split; [|split; [|done]].
  - intros i symbol Hi Hlast.
    destruct (initializeSymbolToTickerMap_lookup symbols 0 ∅ symbol) as [_ Hin].
    specialize (Hin i Hi Hlast). simpl in Hin.
    assert (Hbook : order_books_ c !! symbol
                    = Some (new_book symbol (to_TickerId (Z.of_nat i + 1)))).
    { simpl. unfold create_books. rewrite create_books_lookup.
      rewrite decide_True by (by eapply list_elem_of_lookup_2).
      by rewrite Hin. }
    split; [exact Hin|]. split; [exact Hbook|].
    unfold isOrderBookValid, getBestBidPrice, getBestAskPrice. rewrite Hbook.
    done.
  - intros symbol Hout. simpl. split.
    + destruct (initializeSymbolToTickerMap_lookup symbols 0 ∅ symbol) as [Hnone _].
      by rewrite Hnone.
    + unfold create_books. rewrite create_books_lookup. by rewrite decide_False.
Qed.

(** X12. Until a snapshot has been applied nothing is published from the
    depth stream: whatever depth frames a freshly constructed consumer
    receives, the queue stays as it was handed over, every book stays
    invalid, and no best bid or ask is reported. *)
Theorem nothing_published_before_snapshot parse market_updates symbols frames c' :
  Forall (λ frame, ∃ symbol message, frame = DepthFrame symbol message) frames →
  receive blank parse frames (new_consumer to_TickerId market_updates symbols) = Some c' →
  incoming_md_updates_ c' = market_updates ∧
  ∀ symbol,
    isOrderBookValid symbol c' = false ∧
    getBestBidPrice symbol c' = Price_INVALID ∧
    getBestAskPrice symbol c' = Price_INVALID.
Proof.
  intros Hframes.
  assert (Hrun : ∀ c, all_books_invalid c →
            receive blank parse frames c = Some c' →
            all_books_invalid c' ∧ incoming_md_updates_ c' = incoming_md_updates_ c).
  { induction Hframes as [|frame rest (symbol & message & ->) _ IH]; intros c Hc; simpl.
    - by intros [= <-].
    - destruct (handleDepthMessage blank parse symbol message c) as [c1|] eqn:Hstep;
        [|done].
      simpl. intros Hrest.
      destruct (depth_frame_before_snapshot _ _ _ _ _ Hc Hstep) as [Hc1 Hq1].
      destruct (IH c1 Hc1 Hrest) as [Hc' Hq']. split; [done|]. by rewrite Hq'. }
  intros Hreceive. apply Hrun in Hreceive as [Hinvalid Hqueue].
  - split; [done|]. intros symbol.
    unfold isOrderBookValid, getBestBidPrice, getBestAskPrice.
    destruct (order_books_ c' !! symbol) as [book|] eqn:Hbook; [|done].
    unfold isValid, OrderBookViews.getBestBidPrice, OrderBookViews.getBestAskPrice.
    by rewrite (Hinvalid symbol book Hbook).
  - intros symbol book. simpl. unfold create_books. rewrite create_books_lookup.
    case_decide; [|by rewrite lookup_empty]. by intros [= <-].
Qed.

End Handlers.

Lemma depth_frame_publishes_iff_accepted_witness :
  let c' :=
    default s1_consumer
      (handleDepthMessage (F := Exact.exact) (C := OrderGateway.reference_constants)
         OrderGateway.no_update (λ _, Ok s1_diff) "BTCUSDT" "frame" s1_consumer) in
  symbols_ c' = symbols_ s1_consumer ∧
  symbol_to_ticker_id_ c' = symbol_to_ticker_id_ s1_consumer.
Proof.
  intros c'.
  pose proof (depth_frame_publishes_iff_accepted
                (F := Exact.exact) (C := OrderGateway.reference_constants)
                OrderGateway.no_update (λ _, Ok s1_diff) "BTCUSDT" "frame"
                s1_consumer c') as H.
  split; [apply H | apply H]; vm_compute; reflexivity.
Defined.

Lemma trade_frame_publishes_one_trade_witness :
  let c' :=
    default s1_consumer
      (handleTradeMessage (F := Exact.exact) (C := OrderGateway.reference_constants)
         OrderGateway.no_update (λ _, Ok s7_trade) "BTCUSDT" "frame" s1_consumer) in
  order_books_ c' = order_books_ s1_consumer.
Proof.
  intros c'.
  refine (proj1 (trade_frame_publishes_one_trade
                   (F := Exact.exact) (C := OrderGateway.reference_constants)
                   OrderGateway.no_update (λ _, Ok s7_trade) "BTCUSDT" "frame"
                   s1_consumer c' _)).
  vm_compute. reflexivity.
Defined.

Lemma parsePriceLevels_drops_invalid_prices_witness :
  parsePriceLevels (F := Exact.exact) (C := OrderGateway.reference_constants)
    (JArray [level_json ("5.0000", "abc") []])
  = Ok [mkLevel (stringPriceToInternal (F := Exact.exact)
                   (C := OrderGateway.reference_constants) "5.0000") 0].
Proof.
  refine (proj2 (proj2 (parsePriceLevels_drops_invalid_prices
                          (F := Exact.exact) (C := OrderGateway.reference_constants)))
            "5.0000" "abc" invalid_argument _ _).
  - reflexivity.
  - vm_compute. discriminate.
Defined.

Lemma consumer_numbers_symbols_by_position_witness :
  let c := new_consumer wrap32
             (LFQueue.create (replicate 8 OrderGateway.no_update))
             ["BTCUSDT"; "ETHUSDT"] in
  symbol_to_ticker_id_ c !! "ETHUSDT" = Some (wrap32 (Z.of_nat 1 + 1)).
Proof.
  intros c.
  refine (proj1 (proj1 (consumer_numbers_symbols_by_position
                          (C := OrderGateway.reference_constants) wrap32
                          (LFQueue.create (replicate 8 OrderGateway.no_update))
                          ["BTCUSDT"; "ETHUSDT"]) 1%nat "ETHUSDT" _ _)).
  - reflexivity.
  - intros [|[|[|j]]] Hj; simpl; solve [lia | discriminate].
Defined.

Lemma nothing_published_before_snapshot_witness :
  let market_updates := LFQueue.create (replicate 8 OrderGateway.no_update) in
  let c' :=
    default s1_consumer
      (receive (F := Exact.exact) (C := OrderGateway.reference_constants)
         OrderGateway.no_update (λ _, Ok s1_diff) [DepthFrame "BTCUSDT" "frame"]
         (new_consumer wrap32 market_updates ["BTCUSDT"])) in
  incoming_md_updates_ c' = market_updates.
Proof.
  intros market_updates c'.
  refine (proj1 (nothing_published_before_snapshot
                   (F := Exact.exact) (C := OrderGateway.reference_constants)
                   OrderGateway.no_update wrap32 (λ _, Ok s1_diff) market_updates
                   ["BTCUSDT"] [DepthFrame "BTCUSDT" "frame"] c' _ _)).
  - apply Forall_singleton. by exists "BTCUSDT", "frame".
  - vm_compute. reflexivity.
Defined.

(** Scenario S1 through the consumer: the accepted diff is followed by
    the whole book on the queue. *)
Example depth_frame_of_s1 :
  (LFQueue.pending ∘ incoming_md_updates_) <$>
    handleDepthMessage (F := Exact.exact) (C := OrderGateway.reference_constants)
      OrderGateway.no_update (λ _, Ok s1_diff) "BTCUSDT" "frame" s1_consumer
  = Some [mkUpdate CLEAR 1 INVALID 0 0 0 0; mkUpdate ADD 1 SELL 50010 3 1 50010].
Proof. vm_compute. reflexivity. Qed.

(** Scenario S7: a trade whose buyer is the maker. *)
Example trade_frame_of_s7 :
  (LFQueue.pending ∘ incoming_md_updates_) <$>
    handleTradeMessage (F := Exact.exact) (C := OrderGateway.reference_constants)
      OrderGateway.no_update (λ _, Ok s7_trade) "BTCUSDT" "frame" s1_consumer
  = Some [mkUpdate TRADE 1 SELL 500000000 1000 0 0].
Proof. vm_compute. reflexivity. Qed.

End MarketDataConsumerSpec.

(** ** HTTP client *)

Module HttpClientSpec.
Import Text Authenticator HttpClient AuthenticatorSpec.

Lemma append_params_fold params : ∀ ss,
  is_empty ss = false →
  append_params false ss params = foldl append_param ss params.
Proof.
  induction params as [|param rest IH]; intros ss Hss; simpl; [done|].
  unfold append_param at 2. rewrite Hss. rewrite IH; [done|].
  rewrite !is_empty_app, Hss. done.
Qed.

(** X13. The HTTP client and the signer serialise a parameter map to the
    same text.  In the request line an empty map leaves the target as it
    is; otherwise the serialised map follows the target after [?], or
    after [&] when the target already has a [?]. *)
Theorem buildQueryString_agrees_with_signer params target :
  buildQueryString params = build_query params ∧
  full_target target [] = target ∧
  (params ≠ [] →
   full_target target params
   = target +:+ (if occurs "?" target then "&" else "?") +:+ build_query params).
Proof.
  assert (Hsame : buildQueryString params = build_query params).
  { unfold buildQueryString, build_query. destruct params as [|param rest]; [done|].
    simpl. rewrite append_params_fold; [done|].
    change (is_empty (append_param "" param) = false). apply append_param_nonempty. }
  split; [done|]. split; [done|].
  intros Hparams. unfold full_target. rewrite Hsame.
  destruct (is_empty (build_query params)) eqn:Hempty.
  { by apply build_query_empty in Hempty. }
  simpl. rewrite app_assoc_s. do 2 f_equal.
  induction target as [|a rest IH]; simpl; [done|].
  destruct (Ascii.eqb a "?"); simpl; [done|].
  destruct (find_char "?" rest), (occurs "?" rest); simpl in *; done.
Qed.

Lemma buildQueryString_agrees_with_signer_witness :
  full_target "/api/v3/depth"
    (StringMap.of_list [("symbol", "BTCUSDT"); ("limit", "1000")])
  = "/api/v3/depth" +:+ "?" +:+
    build_query (StringMap.of_list [("symbol", "BTCUSDT"); ("limit", "1000")]).
Proof.
  refine (proj2 (proj2 (buildQueryString_agrees_with_signer
            (StringMap.of_list [("symbol", "BTCUSDT"); ("limit", "1000")])
            "/api/v3/depth")) _).
  vm_compute. discriminate.
Defined.

(** The request line of [fetchOrderBookSnapshot]. *)
Example depth_snapshot_target :
  full_target "/api/v3/depth"
    (StringMap.of_list [("symbol", "BTCUSDT"); ("limit", "1000")])
  = "/api/v3/depth?limit=1000&symbol=BTCUSDT".
Proof. reflexivity. Qed.

End HttpClientSpec.

(** ** Order gateway: the request path *)

Module OrderRequestsSpec.
Import Machine Outcome Float FloatOrder Json Exchange Text OrderGateway OrderRequests.

Lemma same_orders_refl gw : same_orders gw gw.
Proof. by repeat split. Qed.

Lemma same_orders_trans gw1 gw2 gw3 :
  same_orders gw1 gw2 → same_orders gw2 gw3 → same_orders gw1 gw3.
Proof.
  intros (? & ? & ? & ? & ? & ?) (? & ? & ? & ? & ? & ?).
  repeat split; congruence.
Qed.

Lemma same_orders_sent r gw : same_orders gw (sent r gw).
Proof. by repeat split. Qed.

Section WithArithmetic.
Context `{F : Float64} `{O : !Float64Order} `{C : Constants}.
Variable minute : Z.

Lemma same_orders_price_from_api w symbol gw :
  same_orders gw (price_from_api w symbol gw).2.
Proof. by repeat split. Qed.

Lemma same_orders_getLatestMarketPrice w symbol gw :
  same_orders gw (getLatestMarketPrice w symbol gw).2.
Proof.
  unfold getLatestMarketPrice.
  destruct (market_data_updates_ gw); [|apply same_orders_price_from_api].
  destruct (negb _); [|apply same_orders_price_from_api].
  destruct (found_price _); [by repeat split|].
  eapply same_orders_trans; [|apply same_orders_price_from_api]. by repeat split.
Qed.

Lemma same_orders_getSymbolInfo w now symbol st :
  same_orders (core st) (core (getSymbolInfo minute w now symbol st).2).
Proof.
  unfold getSymbolInfo.
  destruct (_ || _); [|apply same_orders_refl].
  destruct (_ ≫= _) as [exchange_info| |]; simpl; try by repeat split.
  destruct (fill_cache _ _) as [cache [|]]; by repeat split.
Qed.

Lemma same_orders_getAccountBalance now_params w asset gw :
  same_orders gw (getAccountBalance now_params w asset gw).2.
Proof. by repeat split. Qed.

Lemma same_orders_calculateOrderQuantity w_info now_info now_params w_balance
    symbol price side st :
  same_orders (core st)
    (core (calculateOrderQuantity minute w_info now_info now_params w_balance
             symbol price side st).2).
Proof.
  unfold calculateOrderQuantity.
  pose proof (same_orders_getSymbolInfo w_info now_info symbol st) as Hinfo.
  destruct (getSymbolInfo minute w_info now_info symbol st) as [symbol_info st1].
  simpl in Hinfo.
  destruct (_ ≫= _) as [[base_asset quote_asset]| |]; simpl; try done.
  destruct (_ || _); simpl; [done|].
  eapply same_orders_trans; [exact Hinfo|]. by repeat split.
Qed.

Lemma same_orders_validateOrderPrice w_price w_info now_info symbol price side st :
  same_orders (core st)
    (core (validateOrderPrice minute w_price w_info now_info symbol price side st).2).
Proof.
  unfold validateOrderPrice.
  pose proof (same_orders_getLatestMarketPrice w_price symbol (core st)) as Hprice.
  destruct (getLatestMarketPrice w_price symbol (core st)) as [market_price gw1].
  simpl in Hprice.
  destruct (fle market_price (of_int 0)); simpl; [done|].
  pose proof (same_orders_getSymbolInfo w_info now_info symbol (with_core gw1 st))
    as Hinfo.
  destruct (getSymbolInfo minute w_info now_info symbol (with_core gw1 st))
    as [symbol_info st2].
  simpl in Hinfo.
  destruct (empty symbol_info); simpl; eapply same_orders_trans; done.
Qed.

Lemma answered_by_response request types gw0 gw status ticker_id side price exec leaves :
  client_id_ gw = client_id_ gw0 →
  incoming_responses_ gw = incoming_responses_ gw0 →
  next_exp_seq_num_ gw = next_exp_seq_num_ gw0 →
  status ∈ types →
  answered request types gw0
    (generateAndEnqueueResponse (req_order_id_ request) status ticker_id side
       price exec leaves gw).
Proof.
  intros Hid Hresponses Hseq Hstatus.
  eexists. simpl. rewrite Hresponses, Hseq, Hid. by repeat split.
Qed.

Lemma answered_by_reject request types gw0 st :
  same_orders gw0 (core st) →
  CANCEL_REJECTED ∈ types →
  answered request types gw0 (core (reject request st)).
Proof.
  intros (? & ? & ? & _) Htype. by apply answered_by_response.
Qed.

Lemma answered_by_submit w request http_request types gw0 st st' :
  same_orders gw0 (core st) →
  ACCEPTED ∈ types → CANCEL_REJECTED ∈ types →
  submit w request http_request st = Some st' →
  answered request types gw0 (core st').
Proof.
  intros Hsame Haccepted Hrejected. unfold submit.
  destruct (_ ≫= _) as [binance_order_id| |]; [| |done].
  - intros [= <-]. simpl. destruct Hsame as (? & ? & ? & _).
    by apply answered_by_response.
  - intros [= <-]. apply answered_by_reject; [|done].
    eapply same_orders_trans; [exact Hsame|]. by repeat split.
Qed.

(** X14. Every request that the gateway handles is answered exactly
    once: one response is enqueued, for the order id and with the client
    id of the request's gateway, and the sequence number advances by
    one.  A [NEW] request is answered [ACCEPTED] or [CANCEL_REJECTED], a
    [CANCEL] request [CANCELED] or [CANCEL_REJECTED], any other request
    [CANCEL_REJECTED]. *)
Theorem every_request_is_answered_once run w request st st' :
  handleRequest minute run w request st = Some st' →
  answered request
    match req_type_ request with
    | NEW => [ACCEPTED; CANCEL_REJECTED]
    | CANCEL => [CANCELED; CANCEL_REJECTED]
    | INVALID_REQUEST => [CANCEL_REJECTED]
    end
    (core st) (core st').
Proof.
  unfold handleRequest. destruct (req_type_ request).
  - unfold handleNewOrderRequest.
    pose proof (same_orders_calculateOrderQuantity
      (at_quantity_info run) (now_quantity_info run) (now_balance_params run)
      (at_balance run)
      (Config.getSymbolForTickerId (config_ (core st)) (req_ticker_id_ request))
      (internalPriceToBinance (req_price_ request)) (req_side_ request) st) as H1.
    destruct (calculateOrderQuantity _ _ _ _ _ _ _ _ _) as [qty_decimal st1].
    simpl in H1.
    pose proof (same_orders_validateOrderPrice
      (at_market_price run) (at_validation_info run) (now_validation_info run)
      (Config.getSymbolForTickerId (config_ (core st)) (req_ticker_id_ request))
      (req_price_ request) (req_side_ request) st1) as H2.
    destruct (validateOrderPrice _ _ _ _ _ _ _ _) as [valid st2].
    simpl in H2.
    pose proof (same_orders_trans _ _ _ H1 H2) as H12.
    destruct valid as [[|]| |]; [| | |done].
    + pose proof (same_orders_getSymbolInfo
        (at_format_info run) (now_format_info run)
        (Config.getSymbolForTickerId (config_ (core st)) (req_ticker_id_ request))
        st2) as H3.
      destruct (getSymbolInfo _ _ _ _ _) as [symbol_info st3]. simpl in H3.
      pose proof (same_orders_trans _ _ _ H12 H3) as H123.
      destruct (new_order_submission _ _ _ _ _) as [[params http_request]| |];
        [| |done].
      * apply answered_by_submit; [done| |]; set_solver.
      * intros [= <-]. apply answered_by_reject; [done|set_solver].
    + intros [= <-]. simpl. destruct H12 as (? & ? & ? & _).
      apply answered_by_response; [done..|set_solver].
    + intros [= <-]. apply answered_by_reject; [done|set_solver].
  - intros [= <-]. simpl. unfold handleCancelOrderRequest.
    destruct (_ ≫= _); apply answered_by_response; solve [done | set_solver].
  - intros [= <-]. apply answered_by_reject; [apply same_orders_refl|set_solver].
Qed.

(** X15. The quantity of a [NEW] request plays no part in what is sent
    to the exchange: the HTTP requests made for it, the [POST] of the
    order included, are the same whatever quantity the request carries. *)
Theorem new_order_ignores_requested_quantity run request qty st :
  (requests_sent_ ∘ core) <$> handleNewOrderRequest minute run (with_qty qty request) st
  = (requests_sent_ ∘ core) <$> handleNewOrderRequest minute run request st.
Proof.
  unfold handleNewOrderRequest. simpl.
  destruct (calculateOrderQuantity _ _ _ _ _ _ _ _ _) as [qty_decimal st1].
  destruct (validateOrderPrice _ _ _ _ _ _ _ _) as [valid st2].
  destruct valid as [[|]| |]; [|done..].
  destruct (getSymbolInfo _ _ _ _ _) as [symbol_info st3].
  change (new_order_submission (at_submission run) symbol_info qty_decimal
            (with_qty qty request) (core st3))
    with (new_order_submission (at_submission run) symbol_info qty_decimal
            request (core st3)).
  destruct (new_order_submission _ _ _ _ _) as [[params http_request]| |];
    [|done..].
  unfold submit. by destruct (_ ≫= _).
Qed.

(** X16. What the answer to a [NEW] request says.  [ACCEPTED] is only
    given when the exchange answered the [POST] with a body that parses
    and has a numeric [orderId]; the response then carries the ticker,
    side and price of the request, an executed quantity of zero and the
    requested quantity as remaining, and the order-id map records the
    exchange's id in decimal.  In every other case the response is
    [CANCEL_REJECTED] with zero price and quantities and the map is as
    before. *)
Theorem new_order_answer run request st st' :
  handleNewOrderRequest minute run request st = Some st' →
  (∃ http_request body json_response order_id,
     last (requests_sent_ (core st')) = Some http_request ∧
     method http_request = POST ∧
     http (at_submission run) http_request = Ok body ∧
     parse (at_submission run) body = Ok json_response ∧
     at_key_mut "orderId" json_response ≫= get_int64 = Ok order_id ∧
     order_id_to_binance_id_ (core st')
       = <[req_order_id_ request := decimal order_id]>
           (order_id_to_binance_id_ (core st)) ∧
     incoming_responses_ (core st')
       = LFQueue.write
           (mkResponse ACCEPTED (client_id_ (core st)) (req_ticker_id_ request)
              (req_order_id_ request) (req_order_id_ request) (req_side_ request)
              (req_price_ request) 0 (req_qty_ request))
           (incoming_responses_ (core st)))
  ∨
  (order_id_to_binance_id_ (core st') = order_id_to_binance_id_ (core st) ∧
   ∃ ticker_id side,
     incoming_responses_ (core st')
       = LFQueue.write
           (mkResponse CANCEL_REJECTED (client_id_ (core st)) ticker_id
              (req_order_id_ request) (req_order_id_ request) side 0 0 0)
           (incoming_responses_ (core st))).
Proof.
  unfold handleNewOrderRequest.
  pose proof (same_orders_calculateOrderQuantity
    (at_quantity_info run) (now_quantity_info run) (now_balance_params run)
    (at_balance run)
    (Config.getSymbolForTickerId (config_ (core st)) (req_ticker_id_ request))
    (internalPriceToBinance (req_price_ request)) (req_side_ request) st) as H1.
  destruct (calculateOrderQuantity _ _ _ _ _ _ _ _ _) as [qty_decimal st1].
  simpl in H1.
  pose proof (same_orders_validateOrderPrice
    (at_market_price run) (at_validation_info run) (now_validation_info run)
    (Config.getSymbolForTickerId (config_ (core st)) (req_ticker_id_ request))
    (req_price_ request) (req_side_ request) st1) as H2.
  destruct (validateOrderPrice _ _ _ _ _ _ _ _) as [valid st2].
  simpl in H2.
  pose proof (same_orders_trans _ _ _ H1 H2) as (Hid & Hresponses & Hseq & _ & _ & Hmap).
  destruct valid as [[|]| |]; [| | |done].
  - pose proof (same_orders_getSymbolInfo
      (at_format_info run) (now_format_info run)
      (Config.getSymbolForTickerId (config_ (core st)) (req_ticker_id_ request))
      st2) as (Hid3 & Hresponses3 & Hseq3 & _ & _ & Hmap3).
    destruct (getSymbolInfo _ _ _ _ _) as [symbol_info st3]. simpl in *.
    destruct (new_order_submission _ _ _ _ _) as [[params http_request]| |] eqn:Hsub;
      [| |done].
    + unfold submit.
      destruct (http (at_submission run) http_request) as [body| |] eqn:Hhttp;
        simpl; [| |done].
      * destruct (parse (at_submission run) body) as [json_response| |] eqn:Hparse;
          simpl; [| |done].
        -- destruct (at_key_mut "orderId" json_response ≫= get_int64)
             as [order_id| |] eqn:Horder; simpl; [| |done].
           ++ intros [= <-]. left.
              exists http_request, body, json_response, order_id. simpl.
              rewrite last_snoc, Hmap3, Hmap, Hresponses3, Hresponses, Hid3, Hid.
              repeat split; try done.
              unfold new_order_submission in Hsub.
              destruct (format_order _ _ _); simpl in Hsub; [|done..].
              by injection Hsub as _ <-.
           ++ intros [= <-]. right. simpl.
              rewrite Hmap3, Hmap, Hresponses3, Hresponses, Hid3, Hid.
              split; [done|]. by eexists _, _.
        -- intros [= <-]. right. simpl.
           rewrite Hmap3, Hmap, Hresponses3, Hresponses, Hid3, Hid.
           split; [done|]. by eexists _, _.
      * intros [= <-]. right. simpl.
        rewrite Hmap3, Hmap, Hresponses3, Hresponses, Hid3, Hid.
        split; [done|]. by eexists _, _.
    + intros [= <-]. right. simpl.
      rewrite Hmap3, Hmap, Hresponses3, Hresponses, Hid3, Hid.
      split; [done|]. by eexists _, _.
  - intros [= <-]. right. simpl. rewrite Hmap, Hresponses, Hid.
    split; [done|]. by eexists _, _.
  - intros [= <-]. right. simpl. rewrite Hmap, Hresponses, Hid.
    split; [done|]. by eexists _, _.
Qed.



Lemma band_step_side side side' band filter :
  filter_type_is "PERCENT_PRICE_BY_SIDE" filter = false →
  band_step side band filter = band_step side' band filter.
Proof.
  unfold filter_type_is, band_step.
  destruct (contains "filterType" filter); simpl; [|done].
  destruct (at_key "filterType" filter) as [value| |]; simpl; [|done..].
  destruct value as [| | | |filter_type| |]; simpl; try done.
  intros ->. by destruct (String.eqb filter_type "PERCENT_PRICE").
Qed.

(** X18. The side of the order enters the price validation only through
    a [PERCENT_PRICE_BY_SIDE] filter: when the symbol information that
    the validation obtains has no such filter, the verdict (or the
    exception) and the state afterwards are the same for every side. *)
Theorem validateOrderPrice_side w_price w_info now_info symbol price st side side' :
  let symbol_info :=
    (getSymbolInfo minute w_info now_info symbol
       (with_core (getLatestMarketPrice w_price symbol (core st)).2 st)).1 in
  Forall (λ filter, filter_type_is "PERCENT_PRICE_BY_SIDE" filter = false)
    (array_at "filters" symbol_info) →
  validateOrderPrice minute w_price w_info now_info symbol price side st
  = validateOrderPrice minute w_price w_info now_info symbol price side' st.
Proof.
  unfold validateOrderPrice.
  destruct (getLatestMarketPrice w_price symbol (core st)) as [market_price gw1].
  simpl. destruct (fle market_price (of_int 0)); [done|].
  destruct (getSymbolInfo minute w_info now_info symbol (with_core gw1 st))
    as [symbol_info st2].
  simpl. intros Hfilters. destruct (empty symbol_info); [done|].
  do 2 f_equal.
  generalize (mkBand (of_int 5) (of_int 5)).
  induction Hfilters as [|filter rest Hfilter _ IH]; intros band; simpl; [done|].
  rewrite (band_step_side side side' band filter Hfilter).
  destruct (band_step side' band filter); simpl; [apply IH|done..].
Qed.



End WithArithmetic.

Local Open Scope Q_scope.







Local Close Scope Q_scope.

Lemma every_request_is_answered_once_witness :
  let run := steady_run (answering exchange_answer) in
  let st' :=
    default cold_state
      (handleRequest (F := Exact.exact) (C := reference_constants) 60000 run
         offline s4_order cold_state) in
  answered s4_order [ACCEPTED; CANCEL_REJECTED] (core cold_state) (core st').
Proof.
  intros run st'.
  apply (every_request_is_answered_once (F := Exact.exact)
           (C := reference_constants) 60000 run offline s4_order cold_state st').
  vm_compute. reflexivity.
Defined.

Lemma new_order_answer_witness :
  let run := steady_run (answering exchange_answer) in
  let st' :=
    default cold_state
      (handleNewOrderRequest (F := Exact.exact) (C := reference_constants) 60000 run
         s4_order cold_state) in
  order_id_to_binance_id_ (core st') !! 42 = Some "987654" ∨
  order_id_to_binance_id_ (core st') = order_id_to_binance_id_ (core cold_state).
Proof.
  intros run st'.
  destruct (new_order_answer (F := Exact.exact) (C := reference_constants) 60000
              run s4_order cold_state st')
    as [(http_request & body & json_response & order_id & _ & _ & _ & _ & _ & _ & _)
       |[Hmap _]].
  - vm_compute. reflexivity.
  - left. vm_compute. reflexivity.
  - right. exact Hmap.
Defined.


Lemma validateOrderPrice_side_witness :
  let w := answering exchange_answer in
  validateOrderPrice (F := Exact.exact) (C := reference_constants) 60000 w w
    (now_ms w) "BTCUSDT" 500000000 BUY warm_state
  = validateOrderPrice (F := Exact.exact) (C := reference_constants) 60000 w w
      (now_ms w) "BTCUSDT" 500000000 SELL warm_state.
Proof.
  intros w.
  apply (validateOrderPrice_side (F := Exact.exact) (C := reference_constants)
           60000 w w (now_ms w) "BTCUSDT" 500000000 warm_state BUY SELL).
  vm_compute. repeat constructor.
Defined.



(** The first half of scenario S4 against an exchange that answers: the
    three requests made, the response and the recorded order id. *)
Example new_order_of_s4 :
  (λ st, (LFQueue.pending (incoming_responses_ (core st)),
          order_id_to_binance_id_ (core st) !! 42,
          (λ r, (method r, before_char "?" (target r))) <$> requests_sent_ (core st)))
    <$> handleRequest (F := Exact.exact) (C := reference_constants) 60000
          (steady_run (answering exchange_answer)) offline s4_order cold_state
  = Some ([mkResponse ACCEPTED 1 1 42 42 BUY 500000000 0 10],
          Some "987654",
          [(GET, "/api/v3/exchangeInfo"); (GET, "/api/v3/account");
           (POST, "/api/v3/order")]).
Proof. vm_compute. reflexivity. Qed.

(** The parameters of that order: the quantity is the capped share of
    the balance, not the requested one. *)
Example new_order_of_s4_parameters :
  (λ st, target <$> last (requests_sent_ (core st)))
    <$> handleRequest (F := Exact.exact) (C := reference_constants) 60000
          (steady_run (answering exchange_answer)) offline s4_order cold_state
  = Some (Some "/api/v3/order?newClientOrderId=x-42&price=50000.00&quantity=0.00100&side=BUY&symbol=BTCUSDT&timeInForce=GTC&type=LIMIT&timestamp=1499827319560&signature=ee657eb9ee758d7c68501c7b17f7e329761dbcbaf4880ea90b21c71574c9d5f0").
Proof. vm_compute. reflexivity. Qed.

End OrderRequestsSpec.

(** ** Order gateway: order ids, execution reports and the market price *)

Module OrderReportsSpec.
Import Machine Outcome Float FloatOrder Json Exchange Text OrderGateway OrderRequests.
Import LFQueueSpec OrderGatewaySpec.

Lemma digit_value_pretty_N_char d :
  (d < 10)%N →
  Exact.digit_value (pretty_N_char d) = Some (Z.of_N d) ∧
  Ascii.is_space (pretty_N_char d) = false ∧
  ∀ rest, Exact.read_sign (String (pretty_N_char d) rest)
          = (false, String (pretty_N_char d) rest).
Proof.
  intros Hd.
  assert (d = 0 ∨ d = 1 ∨ d = 2 ∨ d = 3 ∨ d = 4 ∨ d = 5 ∨ d = 6 ∨ d = 7
          ∨ d = 8 ∨ d = 9)%N as Hcases by lia.
  repeat (destruct Hcases as [->|Hcases]); try subst d; done.
Qed.

Lemma read_digits_pretty_N_go x : ∀ s acc count,
  (0 < x)%N →
  ∃ k, (0 < k)%nat ∧
       Exact.read_digits acc count (pretty_N_go x s)
       = Exact.read_digits (acc * 10 ^ Z.of_nat k + Z.of_N x) (count + k) s.
Proof.
  induction (N.lt_wf_0 x) as [x _ IH]; intros s acc count Hx.
  rewrite pretty_N_go_step by done.
  destruct (digit_value_pretty_N_char (x `mod` 10)) as (Hdigit & _);
    [by apply N.mod_lt|].
  pose proof (N.div_mod x 10 ltac:(done)) as Hdivmod.
  destruct (decide (x `div` 10 = 0)%N) as [Hzero|Hmore].
  - rewrite Hzero, pretty_N_go_0. exists 1%nat. split; [lia|].
    simpl. rewrite Hdigit. change (10 ^ Z.of_nat 1) with 10.
    rewrite Hzero, N.mul_0_r, N.add_0_l in Hdivmod. rewrite <- Hdivmod.
    f_equal; [ring|lia].
  - destruct (IH (x `div` 10)%N) with
      (s := String (pretty_N_char (x `mod` 10)) s) (acc := acc) (count := count)
      as (k & Hk & Hread).
    { apply N.div_lt; lia. }
    { by apply N.neq_0_lt_0. }
    exists (S k). split; [lia|]. rewrite Hread. simpl. rewrite Hdigit.
    rewrite Nat2Z.inj_succ, Z.pow_succ_r by lia. f_equal; lia.
Qed.

Lemma pretty_N_go_leading_digit x : ∀ s,
  (0 < x)%N →
  ∃ d rest, (d < 10)%N ∧ pretty_N_go x s = String (pretty_N_char d) rest.
Proof.
  induction (N.lt_wf_0 x) as [x _ IH]; intros s Hx.
  rewrite pretty_N_go_step by done.
  destruct (decide (x `div` 10 = 0)%N) as [Hzero|Hmore].
  - rewrite Hzero, pretty_N_go_0. exists (x `mod` 10)%N, s.
    split; [by apply N.mod_lt|done].
  - apply IH; [apply N.div_lt; lia|by apply N.neq_0_lt_0].
Qed.

Lemma stoull_decimal n :
  0 <= n <= uint64_max → stoull (decimal n) = Ok n.
Proof.
  intros Hn. destruct n as [|p|p]; [done| |lia].
  unfold decimal, pretty, pretty_Z, pretty, pretty_positive, pretty, pretty_N.
  rewrite decide_False by done.
  destruct (pretty_N_go_leading_digit (N.pos p) "") as (d & rest & Hd & Hshape);
    [done|].
  destruct (read_digits_pretty_N_go (N.pos p) "" 0 0%nat) as (k & Hk & Hread);
    [done|].
  destruct (digit_value_pretty_N_char d Hd) as (_ & Hspace & Hsign).
  unfold stoull. rewrite Hshape. simpl Exact.skip_spaces. rewrite Hspace, Hsign.
  rewrite <- Hshape, Hread. simpl.
  destruct k as [|k]; [lia|]. simpl.
  rewrite (proj2 (Z.ltb_ge _ _)) by (unfold uint64_max in *; lia). done.
Qed.

(** X21. The client order id that a [NEW] order is sent under reads back
    as the order id of the request: for every order id that fits 64 bits
    unsigned, [handleNewOrderRequest] sends [newClientOrderId = x-<id>],
    and [processOrderUpdate] recovers [id] from that text. *)
Theorem client_order_id_round_trip `{F : Float64} symbol request f :
  0 <= req_order_id_ request <= uint64_max →
  ∃ client_order_id,
    StringMap.get "newClientOrderId" (new_order_params symbol request f)
      = Some client_order_id ∧
    client_order_id = "x-" +:+ decimal (req_order_id_ request) ∧
    internal_order_id client_order_id = req_order_id_ request.
Proof.
  intros Hrange. exists ("x-" +:+ decimal (req_order_id_ request)).
  split; [|split; [done|]].
  - unfold new_order_params.
    generalize ("x-" +:+ decimal (req_order_id_ request)).
    generalize (formatted_price f), (formatted_qty f).
    generalize (if decide (req_side_ request = BUY) then "BUY" else "SELL").
    intros side price qty id. reflexivity.
  - unfold internal_order_id.
    change (starts_with "x-" ("x-" +:+ decimal (req_order_id_ request))) with true.
    change (substr_from 2 ("x-" +:+ decimal (req_order_id_ request)))
      with (decimal (req_order_id_ request)).
    cbv iota. by rewrite stoull_decimal.
Qed.

Lemma client_order_id_round_trip_witness :
  ∃ client_order_id,
    StringMap.get "newClientOrderId"
      (new_order_params (F := Exact.exact) "BTCUSDT" s4_order
         (@mkFormatting Exact.exact "50000.00" "0.00100" (50000 # 1)%Q))
      = Some client_order_id ∧
    client_order_id = "x-" +:+ decimal (req_order_id_ s4_order) ∧
    internal_order_id client_order_id = req_order_id_ s4_order.
Proof.
  apply (client_order_id_round_trip (F := Exact.exact) "BTCUSDT" s4_order).
  vm_compute. split; discriminate.
Defined.

Section WithArithmetic.
Context `{F : Float64} `{C : Constants}.

(** X22. An execution report either leaves the gateway exactly as it
    was, or it is a report for an order of this gateway: its client
    order id reads back as a positive order id, the order-id map gets
    the exchange's id under it, and exactly one response for that order
    is enqueued.  A report whose client order id does not read back as
    a positive number (no [x-] prefix, no digits, zero) always leaves
    the gateway as it was; HTTP is never used and the market data stay
    untouched. *)
Theorem processOrderUpdate_frame report gw gw' :
  processOrderUpdate report gw = Some gw' →
  requests_sent_ gw' = requests_sent_ gw ∧
  market_data_updates_ gw' = market_data_updates_ gw ∧
  (gw' = gw ∨
   ∃ client_order_id exchange_id order_status response,
     string_at "c" report = Ok client_order_id ∧
     string_at "i" report = Ok exchange_id ∧
     string_at "X" report = Ok order_status ∧
     0 < internal_order_id client_order_id ∧
     order_id_to_binance_id_ gw'
       = <[internal_order_id client_order_id := exchange_id]>
           (order_id_to_binance_id_ gw) ∧
     incoming_responses_ gw' = LFQueue.write response (incoming_responses_ gw) ∧
     next_exp_seq_num_ gw' = next_exp_seq_num_ gw + 1 ∧
     client_order_id_ response = internal_order_id client_order_id ∧
     type_ response = response_type_of order_status) ∧
  (∀ client_order_id,
     string_at "c" report = Ok client_order_id →
     internal_order_id client_order_id <= 0 →
     gw' = gw).
Proof.
  unfold processOrderUpdate, guarded, order_update_body.
  destruct (string_at "c" report) as [client_order_id| |]; simpl;
    [|intros [= <-]; by auto|done].
  destruct (string_at "i" report) as [exchange_id| |]; simpl;
    [|intros [= <-]; by auto|done].
  destruct (string_at "s" report) as [symbol| |]; simpl;
    [|intros [= <-]; by auto|done].
  destruct (string_at "S" report) as [side_str| |]; simpl;
    [|intros [= <-]; by auto|done].
  destruct (string_at "X" report) as [order_status| |]; simpl;
    [|intros [= <-]; by auto|done].
  destruct (double_at "p" report) as [price| |]; simpl;
    [|intros [= <-]; by auto|done].
  destruct (double_at "q" report) as [orig_qty| |]; simpl;
    [|intros [= <-]; by auto|done].
  destruct (double_at "z" report) as [executed_qty| |]; simpl;
    [|intros [= <-]; by auto|done].
  destruct (0 <? internal_order_id client_order_id) eqn:Hpositive.
  - apply Z.ltb_lt in Hpositive. intros [= <-]. simpl.
    split; [done|]. split; [done|]. split.
    + right. exists client_order_id, exchange_id, order_status. eexists.
      by repeat split.
    + intros ? [= <-] Hzero. lia.
  - intros [= <-]. by auto.
Qed.

Lemma scan_queue_latest ticker_id n : ∀ fuel q latest found saved,
  LFQueue.num_elements_ q = n → (n <= fuel)%nat →
  (LFQueue.next_read_index_ q < length (LFQueue.store_ q))%nat →
  let sc := scan_queue fuel ticker_id (mkScan q latest found saved) in
  match newest_price ticker_id (LFQueue.upcoming n q) with
  | Some newest => latest_price sc = newest ∧ found_price sc = true
  | None => latest_price sc = latest ∧ found_price sc = found
  end.
Proof.
  induction n as [|n IH]; intros fuel q latest found saved Hn Hfuel Hread.
  - simpl. destruct fuel; simpl; [done|].
    by rewrite getNextToRead_empty by done.
  - destruct fuel as [|fuel]; [lia|].
    destruct (lookup_lt_is_Some_2 _ _ Hread) as [update Hupdate].
    simpl. unfold LFQueue.getNextToRead, LFQueue.size. rewrite Hn. simpl.
    rewrite Hupdate. unfold scan_step. simpl.
    destruct (carries_price ticker_id update) eqn:Hcarries.
    + specialize (IH fuel (LFQueue.updateReadIndex q)
        (internalPriceToBinance (upd_price_ update)) true (saved ++ [update])).
      simpl in IH.
      destruct (newest_price ticker_id
                  (LFQueue.upcoming n (LFQueue.updateReadIndex q)));
        apply IH; try lia; by apply updateReadIndex_in_range.
    + specialize (IH fuel (LFQueue.updateReadIndex q) latest found
        (saved ++ [update])).
      simpl in IH.
      destruct (newest_price ticker_id
                  (LFQueue.upcoming n (LFQueue.updateReadIndex q)));
        apply IH; try lia; by apply updateReadIndex_in_range.
Qed.

(** X23. Where [getLatestMarketPrice] takes the price from.  Without a
    market-data queue, or for a symbol other than the three it knows, it
    asks the REST API and leaves the queue alone.  Otherwise the answer
    is the price of the newest pending [ADD] or [MODIFY] for the
    symbol's ticker, converted to decimal, and no HTTP request is made;
    only when no pending update carries such a price is the REST API
    asked, after the queue has been drained. *)
Theorem getLatestMarketPrice_takes_newest w symbol gw :
  ((market_data_updates_ gw = None ∨ ticker_of_symbol symbol = TickerId_INVALID) →
     getLatestMarketPrice w symbol gw = price_from_api w symbol gw) ∧
  (∀ q,
     market_data_updates_ gw = Some q →
     ticker_of_symbol symbol ≠ TickerId_INVALID →
     LFQueue.wf q →
     match newest_price (ticker_of_symbol symbol) (LFQueue.pending q) with
     | Some newest =>
         (getLatestMarketPrice w symbol gw).1 = newest ∧
         requests_sent_ (getLatestMarketPrice w symbol gw).2 = requests_sent_ gw
     | None =>
         getLatestMarketPrice w symbol gw
         = price_from_api w symbol
             (with_market_data
                (Some (Nat.iter (LFQueue.num_elements_ q) LFQueue.updateReadIndex q))
                gw)
     end).
Proof.
  split.
  - unfold getLatestMarketPrice. intros [->|Hticker]; [done|].
    destruct (market_data_updates_ gw); [|done].
    by rewrite bool_decide_eq_true_2.
  - intros q Hq Hticker (Hread & _ & _).
    pose proof (scan_queue_latest (ticker_of_symbol symbol) (LFQueue.num_elements_ q)
                  (LFQueue.size q) q (of_int 0) false [] eq_refl (le_n _) Hread)
      as Hlatest.
    destruct (scan_queue_drains (ticker_of_symbol symbol) (LFQueue.num_elements_ q)
                (LFQueue.size q) q (of_int 0) false [] eq_refl (le_n _) Hread)
      as [Hqueue _].
    fold (scan_market_data (ticker_of_symbol symbol) q) in Hlatest, Hqueue.
    fold (LFQueue.pending q) in Hlatest.
    unfold getLatestMarketPrice. rewrite Hq.
    rewrite bool_decide_eq_false_2 by done. simpl.
    destruct (newest_price (ticker_of_symbol symbol) (LFQueue.pending q)).
    + destruct Hlatest as [Hprice ->]. by simpl.
    + destruct Hlatest as [_ ->]. by rewrite Hqueue.
Qed.

End WithArithmetic.

Lemma processOrderUpdate_frame_witness :
  let gw' :=
    default sample_gateway
      (processOrderUpdate (F := Exact.exact) (C := reference_constants)
         s4_report_text_id sample_gateway) in
  requests_sent_ gw' = requests_sent_ sample_gateway ∧
  market_data_updates_ gw' = market_data_updates_ sample_gateway.
Proof.
  intros gw'.
  pose proof (processOrderUpdate_frame (F := Exact.exact) (C := reference_constants)
                s4_report_text_id sample_gateway gw') as H.
  split; apply H; vm_compute; reflexivity.
Defined.

Lemma getLatestMarketPrice_takes_newest_witness :
  (getLatestMarketPrice (F := Exact.exact) (C := reference_constants)
     offline "BTCUSDT" sample_gateway).1 = (50010 # 1)%Q ∧
  requests_sent_
    (getLatestMarketPrice (F := Exact.exact) (C := reference_constants)
       offline "BTCUSDT" sample_gateway).2 = requests_sent_ sample_gateway.
Proof.
  refine (proj2 (getLatestMarketPrice_takes_newest (F := Exact.exact)
                   (C := reference_constants) offline "BTCUSDT" sample_gateway)
            one_book _ _ _).
  - reflexivity.
  - vm_compute. discriminate.
  - vm_compute. repeat split; lia.
Defined.

End OrderReportsSpec.

(** ** User-data stream: reconnection and control *)

Module UserDataStreamControlSpec.
Import Outcome Json Text OrderGateway UserDataStream UserDataStreamControl.









(** A stream is started, used and stopped against an exchange that
    hands out and closes listen keys. *)
Example start_then_stop :
  let c := new_stream Authenticator.doc_auth two_tickers in
  let started := start (key_service "key-1") c in
  let stopped := stop (key_service "key-1") started.2 in
  started.1 = true ∧
  listen_key_ (stream started.2) = "key-1" ∧
  listen_key_ (stream stopped) = "" ∧
  (λ r, (method r, target r)) <$> requests_sent_ stopped
  = [(POST, "/api/v3/userDataStream");
     (DELETE, "/api/v3/userDataStream?listenKey=key-1")].
Proof. vm_compute. done. Qed.

End UserDataStreamControlSpec.

(** ** WebSocket client *)

Module WebSocketClientSpec.
Import WebSocketClient.

Lemma step_nothing_pending c e : pending_ c = [] → step c e = Some c.
Proof.
  intros Hpending. unfold step. rewrite Hpending.
  rewrite bool_decide_eq_false_2 by apply not_elem_of_nil.
  by rewrite andb_false_r.
Qed.

(** X27. The client gives up reconnecting after one failed attempt, and
    says nothing.  From an established connection, let the read fail,
    the reconnect timer fire and the attempt fail at any stage:
    afterwards the client still counts as running, is not connected,
    has nothing in flight, and no event has any effect on it any more;
    its status callback has been told of the disconnection once, and
    [send] refuses. *)
Theorem reconnection_gives_up_after_one_failure c message attempt :
  established c →
  attempt ∈ failed_attempts →
  ∃ c',
    run ([ReadDone false message; TimerFired 1000 true] ++ attempt) c = Some c' ∧
    running_ c' = true ∧
    connected_ c' = false ∧
    reconnecting_ c' = true ∧
    reconnect_attempts_ c' = 1 ∧
    idle c' ∧
    status_calls_ c' = status_calls_ c ++ (if status_callback_ c then [false] else []) ∧
    ∀ text, send text c' = (false, c').
Proof.
  intros (Hthread & Hrunning & Hconnected & Hreconnecting & Hws & Hpending
          & Hattempts & Hdelay) Hattempt.
  destruct c as [ws message_callback status_callback running connected
                 reconnecting attempts max_attempts delay io_thread send_queue
                 pending status_calls messages].
  simpl in *. subst.
  unfold failed_attempts in Hattempt.
  repeat (apply elem_of_cons in Hattempt as [->|Hattempt]);
    [..|by apply elem_of_nil in Hattempt].
  all: destruct status_callback, max_attempts as [|bound|bound].
  all: eexists; split; [cbv; reflexivity|].
  all: repeat split; try done; simpl; rewrite ?app_nil_r; try done.
  all: intros; by apply step_nothing_pending.
Qed.

Lemma reconnection_gives_up_after_one_failure_witness :
  let c := mkClient true true true true true false 0 0 1000 true [] [Read] [true] [] in
  ∃ c',
    run ([ReadDone false "frame"; TimerFired 1000 true] ++ [Resolved false true]) c
      = Some c' ∧
    running_ c' = true ∧
    connected_ c' = false ∧
    reconnecting_ c' = true ∧
    reconnect_attempts_ c' = 1 ∧
    idle c' ∧
    status_calls_ c' = status_calls_ c ++ (if status_callback_ c then [false] else []) ∧
    ∀ text, send text c' = (false, c').
Proof.
  intros c.
  apply (reconnection_gives_up_after_one_failure c "frame" [Resolved false true]).
  - by repeat split.
  - apply list_elem_of_here.
Defined.

(** X28. [disconnect] on a running client stops it: the handler thread
    is joined, so no event has an effect afterwards, the send queue is
    emptied and [send] refuses; the status callback is told of the
    disconnection exactly when the client was connected.  On a client
    that is not running [disconnect] does nothing, so a second
    [disconnect] changes nothing. *)
Theorem disconnect_stops_the_client c :
  let c' := disconnect c in
  disconnect c' = c' ∧
  (running_ c = false → c' = c) ∧
  (running_ c = true →
   running_ c' = false ∧
   connected_ c' = false ∧
   send_queue_ c' = [] ∧
   pending_ c' = pending_ c ∧
   messages_ c' = messages_ c ∧
   status_calls_ c'
     = status_calls_ c
       ++ (if connected_ c && status_callback_ c then [false] else []) ∧
   (∀ e, step c' e = Some c') ∧
   (∀ text, send text c' = (false, c'))).
Proof.
  intros c'. subst c'. unfold disconnect.
  destruct (running_ c) eqn:Hrunning; simpl.
  - destruct (connected_ c) eqn:Hconnected, (status_callback_ c) eqn:Hcallback;
      unfold notify; simpl; rewrite ?Hcallback; simpl; rewrite ?app_nil_r.
    all: by repeat split.
  - rewrite Hrunning. by repeat split.
Qed.

Lemma disconnect_stops_the_client_witness :
  let c := mkClient true true true true true false 0 0 1000 true [] [Read] [true] [] in
  status_calls_ (disconnect c) = [true] ++ [false].
Proof.
  intros c.
  exact (proj1 (proj2 (proj2 (proj2 (proj2 (proj2
    (proj2 (proj2 (disconnect_stops_the_client c)) eq_refl))))))).
Defined.

Lemma filter_take_out (P : Operation → bool) op ops :
  filter (λ o, P o = true) (take_out op ops)
  = if P op then take_out op (filter (λ o, P o = true) ops)
    else filter (λ o, P o = true) ops.
Proof.
  induction ops as [|first rest IH]; simpl.
  - by destruct (P op).
  - destruct (decide (first = op)) as [->|Hne].
    + destruct (P op) eqn:Hop.
      * rewrite filter_cons_True by done. simpl. by rewrite decide_True.
      * by rewrite filter_cons_False by congruence.
    + destruct (P first) eqn:Hfirst.
      * rewrite !filter_cons_True by done. rewrite IH.
        destruct (P op); [|done]. simpl. by rewrite decide_False.
      * rewrite !filter_cons_False by congruence. exact IH.
Qed.

Lemma max_check_at_zero max_attempts :
  (0 <? max_attempts) && (max_attempts <=? 0) = false.
Proof.
  destruct (0 <? max_attempts) eqn:Hpos; [|done]. simpl.
  apply Z.leb_gt. by apply Z.ltb_lt.
Qed.

Ltac crunch :=
  do 3 (
    cbv beta iota zeta delta
      [handler onResolve onConnect onSslHandshake onHandshake onRead onWrite
       onClose onTimer processWriteQueue doWrite doRead doClose retry reconnect
       scheduleReconnect begin notify deliver send
       set_ws set_running set_connected set_reconnecting set_attempts set_delay
       set_send_queue set_pending
       ws_ message_callback_ status_callback_ running_ connected_ reconnecting_
       reconnect_attempts_ max_reconnect_attempts_ reconnect_delay_ io_thread_
       send_queue_ pending_ status_calls_ messages_
       negb orb operation_of fst snd];
    rewrite ?max_check_at_zero).

Ltac close_phase :=
  repeat split;
  first [ done | by left | by right
        | eexists; split; [|reflexivity]; first [reflexivity | eassumption] ].

Ltac phase :=
  unfold started, connecting, online, backing_off, reconnecting, abandoned,
    under_way;
  crunch;
  rewrite ?filter_app, ?filter_take_out;
  simpl;
  repeat match goal with H : filter _ _ = _ |- _ => rewrite H end;
  simpl;
  split; [done|]; split; [done|];
  first
    [ left; solve [close_phase]
    | right; left; solve [close_phase]
    | right; right; left; solve [close_phase]
    | right; right; right; left; solve [close_phase]
    | right; right; right; right; solve [close_phase] ].

Ltac settle :=
  crunch; simpl; try done; intros [= <-]; phase.

Lemma started_act c a c' : started c → act c a = Some c' → started c'.
Proof.
  intros (Hthread & Hrunning & Hphase).
  destruct c as [ws message_callback status_callback running connected
                 reconnecting_flag attempts max_attempts delay io_thread send_queue
                 pending status_calls messages].
  unfold connecting, online, backing_off, reconnecting, abandoned, under_way
    in Hphase.
  simpl in *. subst io_thread running.
  destruct a as [e|text].
  - simpl. unfold step. simpl.
    case_bool_decide as Hin; simpl; [|intros [= <-]; by repeat split].
    assert (Hmember : scheduled (operation_of e) = true →
              operation_of e ∈ filter (λ op, scheduled op = true) pending)
      by (intros; by apply list_elem_of_filter).
    destruct Hphase as [Hphase|[Hphase|[Hphase|[Hphase|Hphase]]]].
    + destruct Hphase as (-> & -> & -> & -> & op & Hop & ->). simpl in *.
      apply list_elem_of_singleton in Hin. subst op.
      destruct e as [ok sni|ok|ok|ok|ok message|ok| |timer ok|]; try done.
      all: try destruct ok; try destruct sni; try destruct ws.
      all: try destruct status_callback.
      all: settle.
    + destruct Hphase as (-> & -> & -> & -> & Hway). rewrite Hway in Hmember.
      destruct e as [ok sni|ok|ok|ok|ok message|ok| |timer ok|].
      all: try (by apply elem_of_nil in Hmember).
      all: try destruct ok; try destruct ws.
      all: try destruct status_callback; try destruct message_callback.
      all: try destruct send_queue as [|text1 [|text2 send_queue]].
      all: settle.
    + destruct Hphase as (-> & -> & -> & -> & Hway). rewrite Hway in Hmember.
      destruct e as [ok sni|ok|ok|ok|ok message|ok| |timer ok|].
      all: try (specialize (Hmember eq_refl);
                apply list_elem_of_singleton in Hmember; try done;
                injection Hmember as ->).
      all: try destruct ok; try destruct ws.
      all: try destruct status_callback; try destruct message_callback.
      all: try destruct send_queue as [|text1 [|text2 send_queue]].
      all: settle.
    + destruct Hphase as (-> & -> & -> & -> & op & Hop & Hway).
      rewrite Hway in Hmember.
      destruct e as [ok sni|ok|ok|ok|ok message|ok| |timer ok|].
      all: try (specialize (Hmember eq_refl);
                apply list_elem_of_singleton in Hmember; subst op; try done).
      all: try destruct ok; try destruct sni; try destruct ws.
      all: try destruct status_callback; try destruct message_callback.
      all: try destruct send_queue as [|text1 [|text2 send_queue]].
      all: settle.
    + destruct Hphase as (-> & -> & -> & Hdelay & Hway). rewrite Hway in Hmember.
      destruct e as [ok sni|ok|ok|ok|ok message|ok| |timer ok|].
      all: try (by apply elem_of_nil in Hmember).
      all: try destruct ok; try destruct ws.
      all: try destruct status_callback; try destruct message_callback.
      all: try destruct send_queue as [|text1 [|text2 send_queue]].
      all: settle.
  - simpl.
    destruct Hphase as [Hphase|[Hphase|[Hphase|[Hphase|Hphase]]]].
    + destruct Hphase as (-> & -> & -> & -> & op & Hop & ->). settle.
    + destruct Hphase as (-> & -> & -> & -> & Hway).
      destruct send_queue as [|text1 [|text2 send_queue]]; settle.
    + destruct Hphase as (-> & -> & -> & -> & Hway). settle.
    + destruct Hphase as (-> & -> & -> & -> & op & Hop & Hway). settle.
    + destruct Hphase as (-> & -> & -> & Hdelay & Hway). settle.
Qed.

Lemma started_behave actions c c' :
  started c → behave actions c = Some c' → started c'.
Proof.
  revert c. induction actions as [|a rest IH]; intros c Hstarted; simpl.
  - by intros [= <-].
  - destruct (act c a) as [c1|] eqn:Hact; [|done]. simpl.
    apply IH. by apply (started_act c a).
Qed.

(** X29. The limit on reconnection attempts never takes effect.  After
    [connect] on a new client, whatever limit was set, whatever
    operations complete and whatever is sent, the client still counts
    as running: the attempts counter is 0 or 1 (the limit is compared
    with it only when it is 0), the reconnect delay is 1000 or 2000 ms,
    and a reconnect timer in flight waits 1000 ms. *)
Theorem reconnect_limit_is_never_reached
    limit message_callback status_callback c0 actions c :
  connect message_callback status_callback (setMaxReconnectAttempts limit new_client)
    = Some (true, c0) →
  behave actions c0 = Some c →
  running_ c = true ∧
  (reconnect_attempts_ c = 0 ∨ reconnect_attempts_ c = 1) ∧
  (reconnect_delay_ c = 1000 ∨ reconnect_delay_ c = 2000) ∧
  (∀ delay, Timer delay ∈ pending_ c → delay = 1000).
Proof.
  intros [= <-] Hbehave.
  apply started_behave in Hbehave.
  2: { split; [done|]. split; [done|]. left. repeat split.
       exists Resolve. by split. }
  destruct Hbehave as (_ & Hrunning & Hphase).
  split; [done|].
  assert (Htimer : ∀ delay, Timer delay ∈ pending_ c → Timer delay ∈ under_way c)
    by (intros; by apply list_elem_of_filter).
  destruct Hphase as [Hphase|[Hphase|[Hphase|[Hphase|Hphase]]]].
  - destruct Hphase as (_ & _ & -> & -> & op & Hop & Hway).
    split; [by left|]. split; [by left|].
    intros delay Hin. rewrite Hway in Hin.
    apply list_elem_of_singleton in Hin. by subst op.
  - destruct Hphase as (_ & _ & -> & -> & Hway).
    split; [by left|]. split; [by left|].
    intros delay Hin%Htimer. rewrite Hway in Hin. by apply elem_of_nil in Hin.
  - destruct Hphase as (_ & _ & -> & -> & Hway).
    split; [by right|]. split; [by left|].
    intros delay Hin%Htimer. rewrite Hway in Hin.
    apply list_elem_of_singleton in Hin. by injection Hin.
  - destruct Hphase as (_ & _ & -> & -> & op & Hop & Hway).
    split; [by right|]. split; [by right|].
    intros delay Hin%Htimer. rewrite Hway in Hin.
    apply list_elem_of_singleton in Hin. by subst op.
  - destruct Hphase as (_ & _ & -> & Hdelay & Hway).
    split; [by right|]. split; [done|].
    intros delay Hin%Htimer. rewrite Hway in Hin. by apply elem_of_nil in Hin.
Qed.

Lemma reconnect_limit_is_never_reached_witness :
  let c0 := mkClient false true true true false false 0 1 1000 true [] [Resolve] [] [] in
  let c := mkClient false true true true false true 1 1 2000 true [] [] [] [] in
  running_ c = true ∧
  (reconnect_attempts_ c = 0 ∨ reconnect_attempts_ c = 1) ∧
  (reconnect_delay_ c = 1000 ∨ reconnect_delay_ c = 2000) ∧
  (∀ delay, Timer delay ∈ pending_ c → delay = 1000).
Proof.
  intros c0 c.
  apply (reconnect_limit_is_never_reached 1 true true c0
           [Completes (Resolved false true);
            Completes (TimerFired 1000 true);
            Completes (Resolved false true)] c).
  - reflexivity.
  - vm_compute. reflexivity.
Defined.

End WebSocketClientSpec.
